(** * The Tedo Go client: transport core, error taxonomy and billing accessors

    A shallow embedding of [tedo.go] (the [Client], [request], [parseError],
    the [Error] type and its classification helpers) and of the billing
    service accessors that the verified properties are about.

    Conventions.
    - Go [int] is [Z]; no arithmetic is performed on it by this package
      (status codes and limits are only compared and printed).
    - Go [string] and [[]byte] are [string] (a sequence of bytes).
    - A Go pointer [*T] that may be nil is [option T].
    - A Go [map[string]string] is [option (gmap string string)], [None]
      being the nil map.
    - The value of the [error] interface is the inductive [error], whose
      constructors are the dynamic types this package can meet.
    - Code with effects (the client object, the network) is written in a
      state monad over [World]. *)

From stdpp Require Import base option list strings gmap sorting pretty.
From Stdlib Require Import ZArith Ascii String.

Local Open Scope Z_scope.
Local Open Scope string_scope.

(** ** Errors *)

(** [type Error struct] of tedo.go.  [StatusCode] carries the tag [json:"-"]
    and is never read from or written to JSON. *)
Record Error := mkError {
  StatusCode : Z;
  Code : string;
  Message : string;
  Field : string;
}.

(** The zero value [var apiErr Error]. *)
Definition Error_zero : Error :=
  {| StatusCode := 0; Code := ""; Message := ""; Field := "" |}.

(** Values of the Go interface type [error].
    - [nil]: the nil interface value;
    - [APIError p]: dynamic type [*Error]; [p = None] is the nil pointer
      stored in a non-nil interface;
    - [wrapError format err]: the [*fmt.wrapError] built by
      [fmt.Errorf(format, err)] for a [format] that ends in [%w];
    - [otherError descr]: a value of any other dynamic type (errors of
      net/http, net/url, io, encoding/json, time). *)
Inductive error : Type :=
  | nil
  | APIError (p : option Error)
  | wrapError (format : string) (err : error)
  | otherError (descr : string).

(** [fmt.Errorf(format, err)] with a single [%w] verb. *)
Definition fmt_Errorf (format : string) (err : error) : error :=
  wrapError format err.

(** [errors.Unwrap]. *)
Definition errors_Unwrap (err : error) : error :=
  match err with
  | wrapError _ inner => inner
  | _ => nil
  end.

(** [func (e *Error) Error() string]. *)
Definition Error_Error (e : Error) : string :=
  if negb (String.eqb (Field e) "")
  then "tedo: " +:+ Code e +:+ " - " +:+ Message e +:+ " (field: " +:+ Field e +:+ ")"
  else "tedo: " +:+ Code e +:+ " - " +:+ Message e.

(** A Go function that can panic returns [option]: [None] is the panic.

    Each helper asserts the dynamic type [*Error] and, when the assertion
    holds, compares [e.StatusCode]; reading the field through a nil [e] is a
    nil-pointer dereference.  Every other dynamic type, and the nil interface,
    fails the assertion. *)

(** [func IsNotFound(err error) bool]. *)
Definition IsNotFound (err : error) : option bool :=
  match err with
  | APIError (Some e) => Some (StatusCode e =? 404)%Z
  | APIError None => None
  | _ => Some false
  end.

(** [func IsValidationError(err error) bool]. *)
Definition IsValidationError (err : error) : option bool :=
  match err with
  | APIError (Some e) => Some (StatusCode e =? 400)%Z
  | APIError None => None
  | _ => Some false
  end.

(** [func IsUnauthorized(err error) bool]. *)
Definition IsUnauthorized (err : error) : option bool :=
  match err with
  | APIError (Some e) => Some (StatusCode e =? 401)%Z
  | APIError None => None
  | _ => Some false
  end.

(** [err] has the dynamic type [*Error]. *)
Definition is_Error_kind (err : error) : bool :=
  match err with APIError _ => true | _ => false end.

(** ** A model of the standard library's [encoding/json]

    [Value] is the syntax tree of a JSON text.  As in the Go decoder, string
    and number literals are kept as written (strings without their
    surrounding quotes) and interpreted when they are stored: [unquote] for
    strings, [ParseInt] for integers. *)
Module json.

#[warnings="-register-all"]
Inductive Value : Type :=
  | Null
  | Bool (b : bool)
  | Number (lit : string)
  | Str (raw : string)
  | Array (elems : list Value)
  | Object (members : list (string * Value)).

(** *** Bytes and UTF-8 *)

Definition byte (c : ascii) : Z := Z.of_N (N_of_ascii c).
Definition chr (n : Z) : ascii := ascii_of_N (Z.to_N n).
Definition between (lo hi : Z) (c : ascii) : bool :=
  (lo <=? byte c)%Z && (byte c <=? hi)%Z.
Definition cont (c : ascii) : bool := between 0x80 0xBF c.

Definition dquote : ascii := chr 34.
Definition backslash : ascii := chr 92.

Fixpoint sdrop (n : nat) (s : string) : string :=
  match n, s with
  | S n', String _ s' => sdrop n' s'
  | _, _ => s
  end.

Fixpoint stake (n : nat) (s : string) : string :=
  match n, s with
  | S n', String c s' => String c (stake n' s')
  | _, _ => ""
  end.

(** Second byte of a three-byte and of a four-byte sequence, as
    [utf8.DecodeRune] accepts them (no overlong forms, no surrogates, nothing
    above U+10FFFF). *)
Definition second3 (b0 b1 : ascii) : bool :=
  if (byte b0 =? 0xE0)%Z then between 0xA0 0xBF b1
  else if (byte b0 =? 0xED)%Z then between 0x80 0x9F b1
  else between 0xE1 0xEF b0 && cont b1.

Definition second4 (b0 b1 : ascii) : bool :=
  if (byte b0 =? 0xF0)%Z then between 0x90 0xBF b1
  else if (byte b0 =? 0xF4)%Z then between 0x80 0x8F b1
  else between 0xF1 0xF3 b0 && cont b1.

(** Width in bytes of the well-formed UTF-8 sequence at the head of [s];
    [0] when the head is not one ([utf8.DecodeRune] then reports
    [RuneError] with width 1). *)
Definition utf8_width (s : string) : nat :=
  match s with
  | String b0 r =>
      if (byte b0 <? 0x80)%Z then 1%nat
      else match r with
      | String b1 r1 =>
          if between 0xC2 0xDF b0 then (if cont b1 then 2%nat else 0%nat)
          else match r1 with
          | String b2 r2 =>
              if second3 b0 b1 then (if cont b2 then 3%nat else 0%nat)
              else match r2 with
              | String b3 _ =>
                  if second4 b0 b1 && cont b2 && cont b3 then 4%nat else 0%nat
              | "" => 0%nat
              end
          | "" => 0%nat
          end
      | "" => 0%nat
      end
  | "" => 0%nat
  end.

(** [utf8.AppendRune]: the UTF-8 encoding of the code point [r]; surrogates
    and out-of-range values are encoded as U+FFFD. *)
Definition utf8_encode (r : Z) : string :=
  let r := if ((r <? 0) || (0x10FFFF <? r) || ((0xD800 <=? r) && (r <=? 0xDFFF)))%Z
           then 0xFFFD%Z else r in
  if (r <? 0x80)%Z then String (chr r) ""
  else if (r <? 0x800)%Z then
    String (chr (Z.lor 0xC0 (Z.shiftr r 6)))
      (String (chr (Z.lor 0x80 (Z.land r 0x3F))) "")
  else if (r <? 0x10000)%Z then
    String (chr (Z.lor 0xE0 (Z.shiftr r 12)))
      (String (chr (Z.lor 0x80 (Z.land (Z.shiftr r 6) 0x3F)))
        (String (chr (Z.lor 0x80 (Z.land r 0x3F))) ""))
  else
    String (chr (Z.lor 0xF0 (Z.shiftr r 18)))
      (String (chr (Z.lor 0x80 (Z.land (Z.shiftr r 12) 0x3F)))
        (String (chr (Z.lor 0x80 (Z.land (Z.shiftr r 6) 0x3F)))
          (String (chr (Z.lor 0x80 (Z.land r 0x3F))) ""))).

Definition replacement : string := utf8_encode 0xFFFD.

(** *** Literals *)

Definition hexval (c : ascii) : option Z :=
  if between 48 57 c then Some (byte c - 48)%Z
  else if between 97 102 c then Some (byte c - 87)%Z
  else if between 65 70 c then Some (byte c - 55)%Z
  else None.

(** [getu4] without the leading backslash and u: four hexadecimal digits. *)
Definition hex4 (s : string) : option (Z * string) :=
  match s with
  | String a (String b (String c (String d r))) =>
      match hexval a, hexval b, hexval c, hexval d with
      | Some x, Some y, Some z, Some w =>
          Some ((((x * 16 + y) * 16 + z) * 16 + w)%Z, r)
      | _, _, _, _ => None
      end
  | _ => None
  end.

(** A backslash, a [u] and four hexadecimal digits. *)
Definition uescape (s : string) : option (Z * string) :=
  match s with
  | String b (String u r) =>
      if (byte b =? 92)%Z && (byte u =? 117)%Z then hex4 r else None
  | _ => None
  end.

(** The character a one-letter escape stands for. *)
Definition simple_escape (c : ascii) : option ascii :=
  let b := byte c in
  if ((b =? 34) || (b =? 92) || (b =? 47))%Z then Some c
  else if (b =? 98)%Z then Some (chr 8)
  else if (b =? 102)%Z then Some (chr 12)
  else if (b =? 110)%Z then Some (chr 10)
  else if (b =? 114)%Z then Some (chr 13)
  else if (b =? 116)%Z then Some (chr 9)
  else None.

(** [utf16.DecodeRune] on a surrogate pair; [None] when the pair is not one. *)
Definition utf16_pair (r1 r2 : Z) : option Z :=
  if ((0xD800 <=? r1) && (r1 <? 0xDC00) && (0xDC00 <=? r2) && (r2 <? 0xE000))%Z
  then Some (Z.lor (Z.shiftl (r1 - 0xD800) 10) (r2 - 0xDC00) + 0x10000)%Z
  else None.

Definition is_surrogate (r : Z) : bool := ((0xD800 <=? r) && (r <? 0xE000))%Z.

(** [unquoteBytes] on the inside of a string literal: escapes are replaced
    by the bytes they stand for, a surrogate escape that is not followed by
    its second half becomes U+FFFD, and so does every byte that does not
    start a well-formed UTF-8 sequence.  [None] for text that is not the
    inside of a string literal.  Each step consumes at least one byte, so
    [String.length s] steps are enough. *)
Fixpoint unquote_go (fuel : nat) (s : string) : option string :=
  match fuel with
  | O => match s with "" => Some "" | _ => None end
  | S fuel =>
      match s with
      | "" => Some ""
      | String c r =>
          if (byte c =? 92)%Z then
            match r with
            | "" => None
            | String e r' =>
                if (byte e =? 117)%Z then
                  match hex4 r' with
                  | None => None
                  | Some (r1, rest) =>
                      if is_surrogate r1 then
                        match uescape rest with
                        | Some (r2, rest') =>
                            match utf16_pair r1 r2 with
                            | Some rr => String.append (utf8_encode rr) <$> unquote_go fuel rest'
                            | None => String.append replacement <$> unquote_go fuel rest
                            end
                        | None => String.append replacement <$> unquote_go fuel rest
                        end
                      else String.append (utf8_encode r1) <$> unquote_go fuel rest
                  end
                else
                  match simple_escape e with
                  | Some x => String x <$> unquote_go fuel r'
                  | None => None
                  end
            end
          else if (byte c =? 34)%Z || (byte c <? 32)%Z then None
          else
            match utf8_width s with
            | O => String.append replacement <$> unquote_go fuel r
            | S n => String.append (String c (stake n r)) <$> unquote_go fuel (sdrop n r)
            end
      end
  end.

Definition unquote (raw : string) : option string :=
  unquote_go (String.length raw) raw.

Definition hexdigit (n : Z) : ascii :=
  if (n <? 10)%Z then chr (48 + n) else chr (87 + n).

(** The escape [appendString] writes for an ASCII byte that is not in
    [htmlSafeSet] (HTML escaping is on in [json.Marshal]).  Backspace and
    form feed have had their short escapes since Go 1.22. *)
Definition escape_byte (c : ascii) : string :=
  let b := byte c in
  if ((b =? 34) || (b =? 92))%Z then String backslash (String c "")
  else if (b =? 8)%Z then String backslash "b"
  else if (b =? 12)%Z then String backslash "f"
  else if (b =? 10)%Z then String backslash "n"
  else if (b =? 13)%Z then String backslash "r"
  else if (b =? 9)%Z then String backslash "t"
  else String backslash
         ("u00" +:+ String (hexdigit (Z.shiftr b 4)) (String (hexdigit (Z.land b 15)) "")).

(** [htmlSafeSet]: printable ASCII (DEL included) except the double quote,
    the backslash, and the three characters escaped for HTML. *)
Definition html_safe (c : ascii) : bool :=
  let b := byte c in
  ((32 <=? b) && (b <? 128) && negb ((b =? 34) || (b =? 92) || (b =? 60) || (b =? 62) || (b =? 38)))%Z.

(** [appendString] without the surrounding quotes: the inside of the string
    literal that [json.Marshal] writes for the Go string [s]. *)
Fixpoint quote_go (fuel : nat) (s : string) : string :=
  match fuel with
  | O => ""
  | S fuel =>
      match s with
      | "" => ""
      | String c r =>
          if (byte c <? 128)%Z then
            (if html_safe c then String c "" else escape_byte c) +:+ quote_go fuel r
          else
            match utf8_width s with
            | O => String backslash "ufffd" +:+ quote_go fuel r
            | S n =>
                let seq := String c (stake n r) in
                (if String.eqb seq (utf8_encode 0x2028) then String backslash "u2028"
                 else if String.eqb seq (utf8_encode 0x2029) then String backslash "u2029"
                 else seq) +:+ quote_go fuel (sdrop n r)
            end
      end
  end.

Definition quote (s : string) : string := quote_go (String.length s) s.

(** *** Reading a JSON text (the scanner behind [checkValid]) *)

Definition is_space (c : ascii) : bool :=
  let b := byte c in ((b =? 32) || (b =? 9) || (b =? 13) || (b =? 10))%Z.

Definition is_digit (c : ascii) : bool := between 48 57 c.

Fixpoint skip_space (s : string) : string :=
  match s with
  | String c r => if is_space c then skip_space r else s
  | "" => ""
  end.

(** The inside of a string literal whose opening quote has been read, and
    the text after its closing quote. *)
Fixpoint scan_string (s : string) : option (string * string) :=
  match s with
  | "" => None
  | String c r =>
      if (byte c =? 34)%Z then Some ("", r)
      else if (byte c =? 92)%Z then
        match r with
        | "" => None
        | String e r' =>
            if (if (byte e =? 117)%Z then bool_decide (is_Some (hex4 r'))
                else bool_decide (is_Some (simple_escape e)))
            then
              match scan_string r' with
              | Some (raw, rest) => Some (String c (String e raw), rest)
              | None => None
              end
            else None
        end
      else if (byte c <? 32)%Z then None
      else
        match scan_string r with
        | Some (raw, rest) => Some (String c raw, rest)
        | None => None
        end
  end.

Fixpoint span_digits (s : string) : string * string :=
  match s with
  | String c r =>
      if is_digit c then let '(ds, rest) := span_digits r in (String c ds, rest)
      else ("", s)
  | "" => ("", "")
  end.

Definition scan_int_part (s : string) : option (string * string) :=
  match s with
  | String c r =>
      if (byte c =? 48)%Z then Some ("0", r)
      else if is_digit c then let '(ds, rest) := span_digits r in Some (String c ds, rest)
      else None
  | "" => None
  end.

Definition scan_frac_part (s : string) : option (string * string) :=
  match s with
  | String c r =>
      if (byte c =? 46)%Z then
        match span_digits r with
        | ("", _) => None
        | (ds, rest) => Some (String c ds, rest)
        end
      else Some ("", s)
  | "" => Some ("", "")
  end.

Definition scan_exp_part (s : string) : option (string * string) :=
  match s with
  | String c r =>
      if ((byte c =? 101) || (byte c =? 69))%Z then
        let '(sign, r1) :=
          match r with
          | String g r' =>
              if ((byte g =? 43) || (byte g =? 45))%Z then (String g "", r') else ("", r)
          | "" => ("", "")
          end in
        match span_digits r1 with
        | ("", _) => None
        | (ds, rest) => Some (String c (sign +:+ ds), rest)
        end
      else Some ("", s)
  | "" => Some ("", "")
  end.

(** A number literal at the head of [s] and the text after it. *)
Definition scan_number (s : string) : option (string * string) :=
  let '(sign, s1) :=
    match s with
    | String c r => if (byte c =? 45)%Z then ("-", r) else ("", s)
    | "" => ("", "")
    end in
  '(i, s2) ← scan_int_part s1;
  '(f, s3) ← scan_frac_part s2;
  '(e, s4) ← scan_exp_part s3;
  Some (sign +:+ i +:+ f +:+ e, s4).

(** [s] starts with [w]: the text after [w]. *)
Fixpoint after_prefix (w s : string) : option string :=
  match w, s with
  | "", _ => Some s
  | String a w', String b s' => if Ascii.eqb a b then after_prefix w' s' else None
  | _, "" => None
  end.

(** [maxNestingDepth] of the scanner. *)
Definition maxNestingDepth : N := 10000.

(** One value at the head of [s], within [depth] enclosing arrays and
    objects, and the text after it.  [fuel] bounds the chain of nested calls;
    every second call at the latest consumes a byte. *)
Fixpoint scan_value (fuel : nat) (depth : N) (s : string) : option (Value * string) :=
  match fuel with
  | O => None
  | S fuel =>
      match skip_space s with
      | "" => None
      | String c r as s' =>
          let b := byte c in
          if (b =? 123)%Z then
            if (maxNestingDepth <=? depth)%N then None
            else match skip_space r with
                 | "" => None
                 | String c' r' as body =>
                     if (byte c' =? 125)%Z then Some (Object [], r')
                     else '(ms, rest) ← scan_members fuel (depth + 1)%N body;
                          Some (Object ms, rest)
                 end
          else if (b =? 91)%Z then
            if (maxNestingDepth <=? depth)%N then None
            else match skip_space r with
                 | "" => None
                 | String c' r' as body =>
                     if (byte c' =? 93)%Z then Some (Array [], r')
                     else '(vs, rest) ← scan_elems fuel (depth + 1)%N body;
                          Some (Array vs, rest)
                 end
          else if (b =? 34)%Z then
            '(raw, rest) ← scan_string r; Some (Str raw, rest)
          else if (b =? 45)%Z || is_digit c then
            '(lit, rest) ← scan_number s'; Some (Number lit, rest)
          else
            match after_prefix "true" s', after_prefix "false" s', after_prefix "null" s' with
            | Some rest, _, _ => Some (Bool true, rest)
            | _, Some rest, _ => Some (Bool false, rest)
            | _, _, Some rest => Some (Null, rest)
            | _, _, _ => None
            end
      end
  end
with scan_members (fuel : nat) (depth : N) (s : string)
    : option (list (string * Value) * string) :=
  match fuel with
  | O => None
  | S fuel =>
      match skip_space s with
      | "" => None
      | String q r =>
          if (byte q =? 34)%Z then
            '(k, r1) ← scan_string r;
            match skip_space r1 with
            | "" => None
            | String colon r2 =>
                if (byte colon =? 58)%Z then
                  '(v, r3) ← scan_value fuel depth r2;
                  match skip_space r3 with
                  | "" => None
                  | String d r4 =>
                      if (byte d =? 44)%Z then
                        '(ms, rest) ← scan_members fuel depth r4;
                        Some ((k, v) :: ms, rest)
                      else if (byte d =? 125)%Z then Some ([(k, v)], r4)
                      else None
                  end
                else None
            end
          else None
      end
  end
with scan_elems (fuel : nat) (depth : N) (s : string) : option (list Value * string) :=
  match fuel with
  | O => None
  | S fuel =>
      '(v, r1) ← scan_value fuel depth s;
      match skip_space r1 with
      | "" => None
      | String d r2 =>
          if (byte d =? 44)%Z then
            '(vs, rest) ← scan_elems fuel depth r2;
            Some (v :: vs, rest)
          else if (byte d =? 93)%Z then Some ([v], r2)
          else None
      end
  end.

(** The value a JSON text denotes; [None] is the [*json.SyntaxError] of
    [checkValid]. *)
Definition parse (data : string) : option Value :=
  '(v, rest) ← scan_value (2 * String.length data + 2) 0 data;
  match skip_space rest with
  | "" => Some v
  | _ => None
  end.

(** *** Writing a JSON text (compact, as [json.Marshal] does) *)

Fixpoint join (sep : string) (l : list string) : string :=
  match l with
  | [] => ""
  | [x] => x
  | x :: r => x +:+ sep +:+ join sep r
  end.

Definition in_quotes (raw : string) : string :=
  String dquote (raw +:+ String dquote "").

Fixpoint render (v : Value) : string :=
  match v with
  | Null => "null"
  | Bool true => "true"
  | Bool false => "false"
  | Number lit => lit
  | Str raw => in_quotes raw
  | Array vs => "[" +:+ join "," (map render vs) +:+ "]"
  | Object ms =>
      "{" +:+ join "," (map (λ kv, in_quotes (fst kv) +:+ ":" +:+ render (snd kv)) ms) +:+ "}"
  end.

(** *** Numbers *)

Fixpoint digits_value (acc : Z) (s : string) : option Z :=
  match s with
  | "" => Some acc
  | String c r => if is_digit c then digits_value (acc * 10 + (byte c - 48)) r else None
  end.

(** [strconv.ParseInt(lit, 10, 64)] on a number literal: a literal with a
    fraction or an exponent, or outside the range of [int64], is refused. *)
Definition ParseInt (lit : string) : option Z :=
  let '(neg, ds) :=
    match lit with
    | String c r => if (byte c =? 45)%Z then (true, r) else (false, lit)
    | "" => (false, "")
    end in
  match ds with
  | "" => None
  | _ =>
      n ← digits_value 0 ds;
      let z := if neg then (- n)%Z else n in
      if ((- 2 ^ 63 <=? z) && (z <? 2 ^ 63))%Z then Some z else None
  end.

(** *** Matching an object key with a struct field *)

(** [foldName]: ASCII letters in upper case; the two letters outside ASCII
    that fold to an ASCII letter (U+017F to S, U+212A to K) replaced by it.
    Every other byte is kept, which decides equality with the ASCII names of
    struct fields exactly as the simple Unicode folding does. *)
Fixpoint foldName (s : string) : string :=
  match s with
  | "" => ""
  | String c r =>
      if between 97 122 c then String (chr (byte c - 32)) (foldName r)
      else
        match r with
        | String c1 r1 =>
            if ((byte c =? 0xC5) && (byte c1 =? 0xBF))%Z then String (chr 83) (foldName r1)
            else
              match r1 with
              | String c2 r2 =>
                  if ((byte c =? 0xE2) && (byte c1 =? 0x84) && (byte c2 =? 0xAA))%Z
                  then String (chr 75) (foldName r2)
                  else String c (foldName r)
              | "" => String c (foldName r)
              end
        | "" => String c ""
        end
  end.

(** *** Decoding into Go values

    The decoder keeps the first type mismatch it meets ([saveError]) and goes
    on; an error returned by an [UnmarshalJSON] method stops it.  What was
    stored before either kind of error stays stored. *)
Record dstate := mkDstate {
  savedError : error;
  stopError : error;
}.

Definition dstate_init : dstate := {| savedError := nil; stopError := nil |}.

Definition saveError (e : error) (st : dstate) : dstate :=
  match savedError st with
  | nil => {| savedError := e; stopError := stopError st |}
  | _ => st
  end.

Definition stop (e : error) (st : dstate) : dstate :=
  {| savedError := savedError st; stopError := e |}.

Definition stopped (st : dstate) : bool :=
  match stopError st with nil => false | _ => true end.

Definition Decoder (T : Type) : Type := Value → T → dstate → T * dstate.

(** The [*json.UnmarshalTypeError] for storing [v] into a Go value of the
    type named [ty]. *)
Definition UnmarshalTypeError (v : Value) (ty : string) : error :=
  otherError ("json: cannot unmarshal into Go value of type " +:+ ty).

Definition phaseError : error :=
  otherError "json: decoder out of sync".

Definition dec_string : Decoder string := λ v old st,
  match v with
  | Null => (old, st)
  | Str raw =>
      match unquote raw with
      | Some s => (s, st)
      | None => (old, stop phaseError st)
      end
  | _ => (old, saveError (UnmarshalTypeError v "string") st)
  end.

Definition dec_int : Decoder Z := λ v old st,
  match v with
  | Null => (old, st)
  | Number lit =>
      match ParseInt lit with
      | Some z => (z, st)
      | None => (old, saveError (UnmarshalTypeError v "int") st)
      end
  | _ => (old, saveError (UnmarshalTypeError v "int") st)
  end.

Definition dec_bool : Decoder bool := λ v old st,
  match v with
  | Null => (old, st)
  | Bool b => (b, st)
  | _ => (old, saveError (UnmarshalTypeError v "bool") st)
  end.

(** A pointer field: [null] stores the nil pointer; any other value is
    decoded into the pointee, allocated with its zero value when the pointer
    is nil. *)
Definition dec_ptr {T} (zero : T) (d : Decoder T) : Decoder (option T) := λ v old st,
  match v with
  | Null => (None, st)
  | _ => let '(x, st') := d v (default zero old) st in (Some x, st')
  end.

(** A [map[string]string]: [null] stores the nil map; an object adds its
    members to the map, made when it is nil. *)
Definition dec_map : Decoder (option (gmap string string)) := λ v old st,
  match v with
  | Null => (None, st)
  | Object ms =>
      let step (acc : gmap string string * dstate) (kv : string * Value) :=
        let '(m, st) := acc in
        if stopped st then acc
        else match unquote (fst kv) with
             | Some k => let '(x, st') := dec_string (snd kv) "" st in (<[k := x]> m, st')
             | None => (m, stop phaseError st)
             end in
      let '(m, st') := foldl step (default ∅ old, st) ms in
      (Some m, st')
  | _ => (old, saveError (UnmarshalTypeError v "map[string]string") st)
  end.

(** A slice (nil and empty slices are both [[]]): [null] empties it; an
    array decodes its elements into the elements already there, or into zero
    values past them, and the slice ends with the array.  The backing array
    past the length of a slice is taken to hold zero values, as it does
    unless the slice was cut short before. *)
Definition dec_slice {T} (zero : T) (d : Decoder T) : Decoder (list T) := λ v old st,
  match v with
  | Null => ([], st)
  | Array vs =>
      let step (acc : list T * dstate * nat) (x : Value) :=
        let '(out, st, i) := acc in
        if stopped st then acc
        else let '(y, st') := d x (default zero (old !! i)) st in
             ((out ++ [y])%list, st', S i) in
      let '(out, st', _) := foldl step ([], st, O) vs in
      (out, st')
  | _ => (old, saveError (UnmarshalTypeError v "slice") st)
  end.

(** One exported struct field with its [json] name and the way a value is
    stored in it. *)
Record field (T : Type) := mkField {
  fname : string;
  fstore : Decoder T;
}.
Arguments mkField {T} _ _.
Arguments fname {T} _.
Arguments fstore {T} _.

(** A field of type [A] read by [get], written by [set], decoded by [d]. *)
Definition field_of {T A} (name : string) (get : T → A) (set : A → T → T)
    (d : Decoder A) : field T :=
  mkField name (λ v t st, let '(x, st') := d v (get t) st in (set x t, st')).

(** The field an object key selects: the one with that very name, else the
    first whose name equals it under [foldName]. *)
Definition find_field {T} (fields : list (field T)) (key : string) : option (field T) :=
  match List.find (λ f, String.eqb (fname f) key) fields with
  | Some f => Some f
  | None => List.find (λ f, String.eqb (foldName (fname f)) (foldName key)) fields
  end.

Definition store_member {T} (fields : list (field T)) (acc : T * dstate)
    (kv : string * Value) : T * dstate :=
  let '(t, st) := acc in
  if stopped st then acc
  else match unquote (fst kv) with
       | None => (t, stop phaseError st)
       | Some key =>
           match find_field fields key with
           | Some f => fstore f (snd kv) t st
           | None => acc
           end
       end.

(** A struct: [null] leaves it as it is; an object stores its members, in
    the order of the text, in the fields they select and skips the others. *)
Definition dec_struct {T} (ty : string) (fields : list (field T)) : Decoder T := λ v old st,
  match v with
  | Null => (old, st)
  | Object ms => foldl (store_member fields) (old, st) ms
  | _ => (old, saveError (UnmarshalTypeError v ty) st)
  end.

(** Types [json.Unmarshal] can decode into, and types [json.Marshal] can
    encode. *)
Class Unmarshaler (T : Type) := decode : Decoder T.
Class Marshaler (T : Type) := encode : T → Value + error.
Global Hint Mode Unmarshaler ! : typeclass_instances.
Global Hint Mode Marshaler ! : typeclass_instances.

(** [json.Unmarshal(data, &v)]: the contents of [v] afterwards and the
    error.  A text that is not JSON is refused before anything is stored. *)
Definition Unmarshal {T} `{!Unmarshaler T} (data : string) (v : T) : T * error :=
  match parse data with
  | None => (v, otherError "json: syntax error")
  | Some j =>
      let '(v', st) := decode j v dstate_init in
      (v', match stopError st with nil => savedError st | e => e end)
  end.

(** [json.Marshal(v)]. *)
Definition Marshal {T} `{!Marshaler T} (v : T) : string + error :=
  match encode v with
  | inl j => inl (render j)
  | inr e => inr e
  end.

(** A value with an [UnmarshalJSON] method is handed the text of the JSON
    value; the error the method returns stops the decoder. *)
Definition dec_unmarshaler {T} (UnmarshalJSON : string → T → T * error) : Decoder T :=
  λ v old st,
    let '(x, e) := UnmarshalJSON (render v) old in
    (x, match e with nil => st | _ => stop e st end).

(** *** Encoding Go values *)

Definition enc_string (s : string) : Value := Str (quote s).
Definition enc_int (z : Z) : Value := Number (pretty z).
Definition enc_bool (b : bool) : Value := Bool b.

(** The entries of a map, in the order of [strings.Compare] on the keys. *)
Definition sorted_entries (m : gmap string string) : list (string * string) :=
  merge_sort (λ a b, String.le (fst a) (fst b)) (map_to_list m).

Definition enc_map (m : option (gmap string string)) : Value :=
  match m with
  | None => Null
  | Some m => Object ((λ kv, (quote (fst kv), enc_string (snd kv))) <$> sorted_entries m)
  end.

(** One member of the object written for a struct. *)
Definition member (name : string) (v : Value) : list (string * Value) :=
  [(quote name, v)].

(** [omitempty]: the member is left out for [false], [0], a nil pointer and
    a map or string of length zero. *)
Definition omitempty_string (name s : string) : list (string * Value) :=
  if String.eqb s "" then [] else member name (enc_string s).
Definition omitempty_int (name : string) (z : Z) : list (string * Value) :=
  if (z =? 0)%Z then [] else member name (enc_int z).
Definition omitempty_ptr {T} (name : string) (enc : T → Value) (p : option T)
    : list (string * Value) :=
  match p with
  | None => []
  | Some x => member name (enc x)
  end.
Definition omitempty_map (name : string) (m : option (gmap string string))
    : list (string * Value) :=
  match m with
  | None => []
  | Some m' => if bool_decide (size m' = 0%nat) then [] else member name (enc_map m)
  end.
End json.

(** ** Contexts and the standard library's [net/http] *)

(** A [context.Context]: the nil interface or a context.  Whether a context
    is cancelled or past its deadline shows in what the transport answers. *)
Inductive Context : Type :=
  | ctx_nil
  | ctx_value (id : N).

Module http.

Record Request := mkRequest {
  Method : string;
  URL : string;
  Header : gmap string (list string);
  Body : option string;
  Ctx : Context;
}.

(** A response as this package uses it: the status code, and what
    [io.ReadAll(resp.Body)] returns. *)
Record Response := mkResponse {
  StatusCode : Z;
  ReadAll : string + error;
}.

(** An [http.Client]: its timeout in nanoseconds, and what [Do] answers to a
    request given the requests sent before it (the network and the server
    stand behind this function). *)
Record Client := mkClient {
  Timeout : Z;
  RoundTrip : list Request → Request → Response + error;
}.

(** [httpguts.IsTokenRune]. *)
Definition is_token (c : ascii) : bool :=
  let b := json.byte c in
  json.between 48 57 c || json.between 65 90 c || json.between 97 122 c
  || bool_decide (b ∈ [33; 35; 36; 37; 38; 39; 42; 43; 45; 46; 94; 95; 96; 124; 126]%Z).

Fixpoint all_tokens (s : string) : bool :=
  match s with
  | "" => true
  | String c r => is_token c && all_tokens r
  end.

Definition validMethod (method : string) : bool :=
  negb (String.eqb method "") && all_tokens method.

(** [http.NewRequestWithContext]; [url_Parse] is [url.Parse] of net/url,
    reduced to the error it returns. *)
Definition NewRequestWithContext (url_Parse : string → error)
    (ctx : Context) (method url : string) (body : option string) : Request + error :=
  let method := if String.eqb method "" then "GET" else method in
  if negb (validMethod method) then inr (otherError "net/http: invalid method")
  else match ctx with
       | ctx_nil => inr (otherError "net/http: nil Context")
       | _ =>
           match url_Parse url with
           | nil => inl {| Method := method; URL := url; Header := ∅;
                           Body := body; Ctx := ctx |}
           | err => inr err
           end
       end.

(** [req.Header.Set(key, value)] for a key in canonical form. *)
Definition Header_Set (key value : string) (req : Request) : Request :=
  {| Method := Method req; URL := URL req;
     Header := <[key := [value]]> (Header req);
     Body := Body req; Ctx := Ctx req |}.

End http.

(** ** The client *)

Definition defaultBaseURL : string := "https://api.tedo.ai/v1".
(** [30 * time.Second], in nanoseconds. *)
Definition defaultTimeout : Z := 30 * 1000000000.

(** [type Client struct].  The [Billing] field points back to the service
    that points to this client; the service has no state of its own and is
    not represented.  [httpClient] is the [http.Client] behind the pointer
    of the source.  The pointer is taken not to be nil, as [NewClient] makes
    it: a client whose pointer is nil is not a value of this type, and the
    panic of [c.httpClient.Do] on such a client is outside this model. *)
Record Client := mkClient {
  apiKey : string;
  baseURL : string;
  httpClient : http.Client;
}.

(** What a call can read and change: the client object behind the [*Client]
    pointer, and the requests handed to the transport so far. *)
Record World := mkWorld {
  client : Client;
  wire : list http.Request;
}.

(** Computations on the world. *)
Definition M (A : Type) : Type := World → A * World.

Global Instance M_ret : MRet M := λ A a w, (a, w).
Global Instance M_bind : MBind M := λ A B k m w, let '(a, w') := m w in k a w'.

Definition read {A} (f : Client → A) : M A := λ w, (f (client w), w).
Definition write (f : Client → Client) : M unit :=
  λ w, (tt, {| client := f (client w); wire := wire w |}).

(** [c.httpClient.Do(req)]: the transport answers, and the request has been
    sent. *)
Definition Do (req : http.Request) : M (http.Response + error) :=
  λ w, (http.RoundTrip (httpClient (client w)) (wire w) req,
        {| client := client w; wire := wire w ++ [req] |}).

(** [func NewClient(apiKey string) *Client], given the default transport of
    net/http: the world in which the new client exists. *)
Definition NewClient (DefaultTransport : list http.Request → http.Request → http.Response + error)
    (key : string) : World :=
  {| client := {| apiKey := key; baseURL := defaultBaseURL;
                  httpClient := {| http.Timeout := defaultTimeout;
                                   http.RoundTrip := DefaultTransport |} |};
     wire := [] |}.

(** [func (c *Client) WithBaseURL(url string) *Client]. *)
Definition WithBaseURL (url : string) : M unit :=
  write (λ c, {| apiKey := apiKey c; baseURL := url; httpClient := httpClient c |}).

(** [func (c *Client) WithHTTPClient(httpClient *http.Client) *Client], for
    an argument that is not nil.  The source stores the pointer without a
    check, nil included; what follows a nil argument is not modelled. *)
Definition WithHTTPClient (h : http.Client) : M unit :=
  write (λ c, {| apiKey := apiKey c; baseURL := baseURL c; httpClient := h |}).

(** *** [Error] as a JSON destination *)

Definition set_Code (x : string) (e : Error) : Error :=
  {| StatusCode := StatusCode e; Code := x; Message := Message e; Field := Field e |}.
Definition set_Message (x : string) (e : Error) : Error :=
  {| StatusCode := StatusCode e; Code := Code e; Message := x; Field := Field e |}.
Definition set_Field (x : string) (e : Error) : Error :=
  {| StatusCode := StatusCode e; Code := Code e; Message := Message e; Field := x |}.

(** The fields of [Error] that have a JSON name; [StatusCode] has none. *)
Definition Error_fields : list (json.field Error) :=
  [ json.field_of "code" Code set_Code json.dec_string;
    json.field_of "message" Message set_Message json.dec_string;
    json.field_of "field" Field set_Field json.dec_string ].

Global Instance Error_Unmarshaler : json.Unmarshaler Error :=
  json.dec_struct "tedo.Error" Error_fields.

(** [func parseError(statusCode int, body []byte) error]. *)
Definition parseError (statusCode : Z) (body : string) : error :=
  let '(apiErr, err) := json.Unmarshal body Error_zero in
  let apiErr :=
    match err with
    | nil => apiErr
    | _ => {| StatusCode := 0; Code := "unknown_error"; Message := body; Field := "" |}
    end in
  APIError (Some {| StatusCode := statusCode; Code := Code apiErr;
                    Message := Message apiErr; Field := Field apiErr |}).

(** ** The transport core *)

Section transport.

(** [url.Parse] of net/url, reduced to the error it returns ([nil] when the
    URL is accepted). *)
Variable url_Parse : string → error.

(** [func (c *Client) request(ctx, method, path string, body, result any) error].

    [body] is [None] for the nil interface.  [result] is [None] for the nil
    interface and [Some r] for a pointer to a variable that holds [r]; the
    call returns what the variable holds afterwards, next to the error. *)
Definition request {B R} {MB : json.Marshaler B} {UR : json.Unmarshaler R}
    (ctx : Context) (method path : string) (body : option B) (result : option R)
    : M (option R * error) :=
  match
    match body with
    | Some b =>
        match json.Marshal b with
        | inl jsonBody => inl (Some jsonBody)
        | inr err => inr err
        end
    | None => inl None
    end
  with
  | inr err => mret (result, fmt_Errorf "marshal request body: %w" err)
  | inl bodyReader =>
      base ← read baseURL;
      match http.NewRequestWithContext url_Parse ctx method (base +:+ path) bodyReader with
      | inr err => mret (result, fmt_Errorf "create request: %w" err)
      | inl req =>
          key ← read apiKey;
          let req := http.Header_Set "Authorization" ("Bearer " +:+ key) req in
          let req := http.Header_Set "Content-Type" "application/json" req in
          let req := http.Header_Set "Accept" "application/json" req in
          answer ← Do req;
          match answer with
          | inr err => mret (result, fmt_Errorf "do request: %w" err)
          | inl resp =>
              match http.ReadAll resp with
              | inr err => mret (result, fmt_Errorf "read response: %w" err)
              | inl respBody =>
                  if (400 <=? http.StatusCode resp)%Z then
                    mret (result, parseError (http.StatusCode resp) respBody)
                  else
                    match result with
                    | Some r =>
                        if (0 <? String.length respBody)%nat then
                          let '(r', err) := json.Unmarshal respBody r in
                          match err with
                          | nil => mret (Some r', nil)
                          | _ => mret (Some r', fmt_Errorf "decode response: %w" err)
                          end
                        else mret (result, nil)
                    | None => mret (result, nil)
                    end
              end
          end
      end
  end.

End transport.

(** ** The billing service

    The accessors of the service under [/billing/v1] that deal with
    customers and subscriptions, with the parameter types of the updates.
    The repository holds a second, shorter copy of the customer and
    subscription accessors under [/billing]; it differs from this one in the
    paths and is not embedded.  Field [F] of struct [T] is the projection
    [T_F]. *)

(** A nil [body] or [result] has no type; [Empty_set] stands for it. *)
Global Instance nil_Marshaler : json.Marshaler Empty_set :=
  λ x, match x with end.
Global Instance nil_Unmarshaler : json.Unmarshaler Empty_set :=
  λ _ x, match x with end.

(** A [*T] is written as its pointee, and [null] when nil. *)
Global Instance ptr_Marshaler {T} `{!json.Marshaler T} : json.Marshaler (option T) :=
  λ p, match p with
       | Some x => json.encode x
       | None => inl json.Null
       end.

Definition GuestPlanKey : string := "guest".
Definition GuestPriceKey : string := "guest_monthly_EUR".
Definition FreePlanKey : string := "free".
Definition FreePriceKey : string := "free_monthly_EUR".
Definition BasicPlanKey : string := "basic".
Definition BasicPriceKey : string := "basic_monthly_EUR".

(** [type CreateCustomerParams struct]. *)
Record CreateCustomerParams := mkCreateCustomerParams {
  CreateCustomerParams_Email : string;
  CreateCustomerParams_Name : string;
  CreateCustomerParams_ExternalID : string;
  CreateCustomerParams_Metadata : option (gmap string string);
}.

Definition CreateCustomerParams_value (p : CreateCustomerParams) : json.Value :=
  json.Object
    (json.member "email" (json.enc_string (CreateCustomerParams_Email p))
     ++ json.omitempty_string "name" (CreateCustomerParams_Name p)
     ++ json.omitempty_string "external_id" (CreateCustomerParams_ExternalID p)
     ++ json.omitempty_map "metadata" (CreateCustomerParams_Metadata p))%list.

Global Instance CreateCustomerParams_Marshaler : json.Marshaler CreateCustomerParams :=
  λ p, inl (CreateCustomerParams_value p).

(** [type ListCustomersParams struct]. *)
Record ListCustomersParams := mkListCustomersParams {
  ListCustomersParams_Limit : Z;
  ListCustomersParams_Cursor : string;
}.

(** [type UpdateCustomerParams struct]. *)
Record UpdateCustomerParams := mkUpdateCustomerParams {
  UpdateCustomerParams_Email : option string;
  UpdateCustomerParams_Name : option string;
  UpdateCustomerParams_ExternalID : option string;
  UpdateCustomerParams_Metadata : option (gmap string string);
}.

Definition UpdateCustomerParams_value (p : UpdateCustomerParams) : json.Value :=
  json.Object
    (json.omitempty_ptr "email" json.enc_string (UpdateCustomerParams_Email p)
     ++ json.omitempty_ptr "name" json.enc_string (UpdateCustomerParams_Name p)
     ++ json.omitempty_ptr "external_id" json.enc_string (UpdateCustomerParams_ExternalID p)
     ++ json.omitempty_map "metadata" (UpdateCustomerParams_Metadata p))%list.

Global Instance UpdateCustomerParams_Marshaler : json.Marshaler UpdateCustomerParams :=
  λ p, inl (UpdateCustomerParams_value p).

(** [type UpdatePlanParams struct]. *)
Record UpdatePlanParams := mkUpdatePlanParams {
  UpdatePlanParams_Key : option string;
  UpdatePlanParams_Name : option string;
  UpdatePlanParams_Description : option string;
  UpdatePlanParams_IsActive : option bool;
}.

Definition UpdatePlanParams_value (p : UpdatePlanParams) : json.Value :=
  json.Object
    (json.omitempty_ptr "key" json.enc_string (UpdatePlanParams_Key p)
     ++ json.omitempty_ptr "name" json.enc_string (UpdatePlanParams_Name p)
     ++ json.omitempty_ptr "description" json.enc_string (UpdatePlanParams_Description p)
     ++ json.omitempty_ptr "is_active" json.enc_bool (UpdatePlanParams_IsActive p))%list.

Global Instance UpdatePlanParams_Marshaler : json.Marshaler UpdatePlanParams :=
  λ p, inl (UpdatePlanParams_value p).

(** [type CreateSubscriptionParams struct]. *)
Record CreateSubscriptionParams := mkCreateSubscriptionParams {
  CreateSubscriptionParams_CustomerID : string;
  CreateSubscriptionParams_PriceID : string;
  CreateSubscriptionParams_PlanKey : string;
  CreateSubscriptionParams_PriceKey : string;
  CreateSubscriptionParams_Quantity : Z;
  CreateSubscriptionParams_Metadata : option (gmap string string);
}.

Definition CreateSubscriptionParams_value (p : CreateSubscriptionParams) : json.Value :=
  json.Object
    (json.member "customer_id" (json.enc_string (CreateSubscriptionParams_CustomerID p))
     ++ json.omitempty_string "price_id" (CreateSubscriptionParams_PriceID p)
     ++ json.omitempty_string "plan_key" (CreateSubscriptionParams_PlanKey p)
     ++ json.omitempty_string "price_key" (CreateSubscriptionParams_PriceKey p)
     ++ json.omitempty_int "quantity" (CreateSubscriptionParams_Quantity p)
     ++ json.omitempty_map "metadata" (CreateSubscriptionParams_Metadata p))%list.

Global Instance CreateSubscriptionParams_Marshaler : json.Marshaler CreateSubscriptionParams :=
  λ p, inl (CreateSubscriptionParams_value p).

Section billing.

Variable url_Parse : string → error.

(** [time.Time] of the standard library: its type, its zero value and its
    [UnmarshalJSON] method (the contents of the receiver afterwards, and the
    error). *)
Context {Time : Type}.
Variable Time_zero : Time.
Variable Time_UnmarshalJSON : string → Time → Time * error.

Definition dec_Time : json.Decoder Time := json.dec_unmarshaler Time_UnmarshalJSON.

(** [type Subscription struct]. *)
Record Subscription := mkSubscription {
  Subscription_ID : string;
  Subscription_CustomerID : string;
  Subscription_PriceID : string;
  Subscription_Status : string;
  Subscription_Quantity : Z;
  Subscription_StartedAt : Time;
  Subscription_CanceledAt : option Time;
  Subscription_Metadata : option (gmap string string);
  Subscription_CreatedAt : Time;
}.

Definition Subscription_zero : Subscription :=
  mkSubscription "" "" "" "" 0 Time_zero None None Time_zero.

Definition Subscription_fields : list (json.field Subscription) :=
  [ json.field_of "id" Subscription_ID
      (λ x s, mkSubscription x (Subscription_CustomerID s) (Subscription_PriceID s)
                (Subscription_Status s) (Subscription_Quantity s) (Subscription_StartedAt s)
                (Subscription_CanceledAt s) (Subscription_Metadata s) (Subscription_CreatedAt s))
      json.dec_string;
    json.field_of "customer_id" Subscription_CustomerID
      (λ x s, mkSubscription (Subscription_ID s) x (Subscription_PriceID s)
                (Subscription_Status s) (Subscription_Quantity s) (Subscription_StartedAt s)
                (Subscription_CanceledAt s) (Subscription_Metadata s) (Subscription_CreatedAt s))
      json.dec_string;
    json.field_of "price_id" Subscription_PriceID
      (λ x s, mkSubscription (Subscription_ID s) (Subscription_CustomerID s) x
                (Subscription_Status s) (Subscription_Quantity s) (Subscription_StartedAt s)
                (Subscription_CanceledAt s) (Subscription_Metadata s) (Subscription_CreatedAt s))
      json.dec_string;
    json.field_of "status" Subscription_Status
      (λ x s, mkSubscription (Subscription_ID s) (Subscription_CustomerID s)
                (Subscription_PriceID s) x (Subscription_Quantity s) (Subscription_StartedAt s)
                (Subscription_CanceledAt s) (Subscription_Metadata s) (Subscription_CreatedAt s))
      json.dec_string;
    json.field_of "quantity" Subscription_Quantity
      (λ x s, mkSubscription (Subscription_ID s) (Subscription_CustomerID s)
                (Subscription_PriceID s) (Subscription_Status s) x (Subscription_StartedAt s)
                (Subscription_CanceledAt s) (Subscription_Metadata s) (Subscription_CreatedAt s))
      json.dec_int;
    json.field_of "started_at" Subscription_StartedAt
      (λ x s, mkSubscription (Subscription_ID s) (Subscription_CustomerID s)
                (Subscription_PriceID s) (Subscription_Status s) (Subscription_Quantity s) x
                (Subscription_CanceledAt s) (Subscription_Metadata s) (Subscription_CreatedAt s))
      dec_Time;
    json.field_of "canceled_at" Subscription_CanceledAt
      (λ x s, mkSubscription (Subscription_ID s) (Subscription_CustomerID s)
                (Subscription_PriceID s) (Subscription_Status s) (Subscription_Quantity s)
                (Subscription_StartedAt s) x (Subscription_Metadata s) (Subscription_CreatedAt s))
      (json.dec_ptr Time_zero dec_Time);
    json.field_of "metadata" Subscription_Metadata
      (λ x s, mkSubscription (Subscription_ID s) (Subscription_CustomerID s)
                (Subscription_PriceID s) (Subscription_Status s) (Subscription_Quantity s)
                (Subscription_StartedAt s) (Subscription_CanceledAt s) x (Subscription_CreatedAt s))
      json.dec_map;
    json.field_of "created_at" Subscription_CreatedAt
      (λ x s, mkSubscription (Subscription_ID s) (Subscription_CustomerID s)
                (Subscription_PriceID s) (Subscription_Status s) (Subscription_Quantity s)
                (Subscription_StartedAt s) (Subscription_CanceledAt s) (Subscription_Metadata s) x)
      dec_Time ].

Global Instance Subscription_Unmarshaler : json.Unmarshaler Subscription :=
  json.dec_struct "tedo.Subscription" Subscription_fields.

(** [type Customer struct]. *)
Record Customer := mkCustomer {
  Customer_ID : string;
  Customer_Email : string;
  Customer_Name : string;
  Customer_ExternalID : string;
  Customer_Metadata : option (gmap string string);
  Customer_Subscriptions : list Subscription;
  Customer_CreatedAt : Time;
  Customer_UpdatedAt : Time;
}.

Definition Customer_zero : Customer :=
  mkCustomer "" "" "" "" None [] Time_zero Time_zero.

Definition Customer_fields : list (json.field Customer) :=
  [ json.field_of "id" Customer_ID
      (λ x c, mkCustomer x (Customer_Email c) (Customer_Name c) (Customer_ExternalID c)
                (Customer_Metadata c) (Customer_Subscriptions c) (Customer_CreatedAt c)
                (Customer_UpdatedAt c))
      json.dec_string;
    json.field_of "email" Customer_Email
      (λ x c, mkCustomer (Customer_ID c) x (Customer_Name c) (Customer_ExternalID c)
                (Customer_Metadata c) (Customer_Subscriptions c) (Customer_CreatedAt c)
                (Customer_UpdatedAt c))
      json.dec_string;
    json.field_of "name" Customer_Name
      (λ x c, mkCustomer (Customer_ID c) (Customer_Email c) x (Customer_ExternalID c)
                (Customer_Metadata c) (Customer_Subscriptions c) (Customer_CreatedAt c)
                (Customer_UpdatedAt c))
      json.dec_string;
    json.field_of "external_id" Customer_ExternalID
      (λ x c, mkCustomer (Customer_ID c) (Customer_Email c) (Customer_Name c) x
                (Customer_Metadata c) (Customer_Subscriptions c) (Customer_CreatedAt c)
                (Customer_UpdatedAt c))
      json.dec_string;
    json.field_of "metadata" Customer_Metadata
      (λ x c, mkCustomer (Customer_ID c) (Customer_Email c) (Customer_Name c)
                (Customer_ExternalID c) x (Customer_Subscriptions c) (Customer_CreatedAt c)
                (Customer_UpdatedAt c))
      json.dec_map;
    json.field_of "subscriptions" Customer_Subscriptions
      (λ x c, mkCustomer (Customer_ID c) (Customer_Email c) (Customer_Name c)
                (Customer_ExternalID c) (Customer_Metadata c) x (Customer_CreatedAt c)
                (Customer_UpdatedAt c))
      (json.dec_slice Subscription_zero json.decode);
    json.field_of "created_at" Customer_CreatedAt
      (λ x c, mkCustomer (Customer_ID c) (Customer_Email c) (Customer_Name c)
                (Customer_ExternalID c) (Customer_Metadata c) (Customer_Subscriptions c) x
                (Customer_UpdatedAt c))
      dec_Time;
    json.field_of "updated_at" Customer_UpdatedAt
      (λ x c, mkCustomer (Customer_ID c) (Customer_Email c) (Customer_Name c)
                (Customer_ExternalID c) (Customer_Metadata c) (Customer_Subscriptions c)
                (Customer_CreatedAt c) x)
      dec_Time ].

Global Instance Customer_Unmarshaler : json.Unmarshaler Customer :=
  json.dec_struct "tedo.Customer" Customer_fields.

(** [type CustomerList struct]. *)
Record CustomerList := mkCustomerList {
  CustomerList_Customers : list Customer;
  CustomerList_Total : Z;
  CustomerList_NextCursor : string;
}.

Definition CustomerList_zero : CustomerList := mkCustomerList [] 0 "".

Definition CustomerList_fields : list (json.field CustomerList) :=
  [ json.field_of "customers" CustomerList_Customers
      (λ x l, mkCustomerList x (CustomerList_Total l) (CustomerList_NextCursor l))
      (json.dec_slice Customer_zero json.decode);
    json.field_of "total" CustomerList_Total
      (λ x l, mkCustomerList (CustomerList_Customers l) x (CustomerList_NextCursor l))
      json.dec_int;
    json.field_of "next_cursor" CustomerList_NextCursor
      (λ x l, mkCustomerList (CustomerList_Customers l) (CustomerList_Total l) x)
      json.dec_string ].

Global Instance CustomerList_Unmarshaler : json.Unmarshaler CustomerList :=
  json.dec_struct "tedo.CustomerList" CustomerList_fields.

(** An accessor returns [&v, nil] (here [inl v]) or [nil, err] (here
    [inr err]).  [var v T] followed by a call of [request] with [&v] is a call
    with [Some T_zero]; [request] gives back [Some] of what [v] then holds
    (the zero value stands in the branch that cannot be taken). *)
Definition held {R} (zero : R) (v : option R) : R := default zero v.

(** [func (s *BillingService) CreateCustomer]. *)
Definition CreateCustomer (ctx : Context) (params : option CreateCustomerParams)
    : M (Customer + error) :=
  '(customer, err) ← request url_Parse ctx "POST" "/billing/v1/customers"
                       (Some params) (Some Customer_zero);
  match err with
  | nil => mret (inl (held Customer_zero customer))
  | _ => mret (inr err)
  end.

(** [func (s *BillingService) CreateCustomerForUser]; [fmt.Sprintf] with
    [%d] writes the decimal form of [userID]. *)
Definition CreateCustomerForUser (ctx : Context) (userID : Z) (email name : string)
    : M (string * error) :=
  r ← CreateCustomer ctx
        (Some {| CreateCustomerParams_Email := email;
                 CreateCustomerParams_Name := name;
                 CreateCustomerParams_ExternalID := "user:" +:+ pretty userID;
                 CreateCustomerParams_Metadata := None |});
  match r with
  | inr err => mret ("", fmt_Errorf "failed to create billing customer for user: %w" err)
  | inl customer => mret (Customer_ID customer, nil)
  end.

(** [func (s *BillingService) GetCustomer]. *)
Definition GetCustomer (ctx : Context) (id : string) : M (Customer + error) :=
  '(customer, err) ← request (B := Empty_set) url_Parse ctx "GET"
                       ("/billing/v1/customers/" +:+ id) None (Some Customer_zero);
  match err with
  | nil => mret (inl (held Customer_zero customer))
  | _ => mret (inr err)
  end.

(** The path [ListCustomers] builds before it calls [request]. *)
Definition ListCustomers_path (params : option ListCustomersParams) : string :=
  let path := "/billing/v1/customers" in
  match params with
  | Some p =>
      let query := "" in
      let query :=
        if (0 <? ListCustomersParams_Limit p)%Z
        then query +:+ "limit=" +:+ pretty (ListCustomersParams_Limit p)
        else query in
      let query :=
        if negb (String.eqb (ListCustomersParams_Cursor p) "") then
          let query := if negb (String.eqb query "") then query +:+ "&" else query in
          query +:+ "cursor=" +:+ ListCustomersParams_Cursor p
        else query in
      if negb (String.eqb query "") then path +:+ "?" +:+ query else path
  | None => path
  end.

(** [func (s *BillingService) ListCustomers]. *)
Definition ListCustomers (ctx : Context) (params : option ListCustomersParams)
    : M (CustomerList + error) :=
  let path := ListCustomers_path params in
  '(list, err) ← request (B := Empty_set) url_Parse ctx "GET" path None
                   (Some CustomerList_zero);
  match err with
  | nil => mret (inl (held CustomerList_zero list))
  | _ => mret (inr err)
  end.

(** [func (s *BillingService) UpdateCustomer]. *)
Definition UpdateCustomer (ctx : Context) (id : string) (params : option UpdateCustomerParams)
    : M (Customer + error) :=
  '(customer, err) ← request url_Parse ctx "PATCH" ("/billing/v1/customers/" +:+ id)
                       (Some params) (Some Customer_zero);
  match err with
  | nil => mret (inl (held Customer_zero customer))
  | _ => mret (inr err)
  end.

(** [func (s *BillingService) DeleteCustomer]. *)
Definition DeleteCustomer (ctx : Context) (id : string) : M error :=
  '(_, err) ← request (B := Empty_set) (R := Empty_set) url_Parse ctx "DELETE"
                ("/billing/v1/customers/" +:+ id) None None;
  mret err.

(** [func (s *BillingService) CreateSubscription]. *)
Definition CreateSubscription (ctx : Context) (params : option CreateSubscriptionParams)
    : M (Subscription + error) :=
  '(subscription, err) ← request url_Parse ctx "POST" "/billing/v1/subscriptions"
                           (Some params) (Some Subscription_zero);
  match err with
  | nil => mret (inl (held Subscription_zero subscription))
  | _ => mret (inr err)
  end.

(** [func (s *BillingService) createSubscriptionWithPlan]. *)
Definition createSubscriptionWithPlan (ctx : Context) (customerID planKey priceKey : string)
    : M (string * error) :=
  r ← CreateSubscription ctx
        (Some {| CreateSubscriptionParams_CustomerID := customerID;
                 CreateSubscriptionParams_PriceID := "";
                 CreateSubscriptionParams_PlanKey := planKey;
                 CreateSubscriptionParams_PriceKey := priceKey;
                 CreateSubscriptionParams_Quantity := 0;
                 CreateSubscriptionParams_Metadata := None |});
  match r with
  | inr err => mret ("", fmt_Errorf "failed to create subscription: %w" err)
  | inl subscription => mret (Subscription_ID subscription, nil)
  end.

(** [func (s *BillingService) CreateSubscriptionForWorkspace]. *)
Definition CreateSubscriptionForWorkspace (ctx : Context) (customerID workspaceID : string)
    : M (string * error) :=
  createSubscriptionWithPlan ctx customerID FreePlanKey FreePriceKey.

(** [func (s *BillingService) CreateSubscriptionForGuestWorkspace]. *)
Definition CreateSubscriptionForGuestWorkspace (ctx : Context)
    (customerID workspaceID : string) : M (string * error) :=
  createSubscriptionWithPlan ctx customerID GuestPlanKey GuestPriceKey.

(** [func (s *BillingService) CreateSubscriptionForBasicPlan]. *)
Definition CreateSubscriptionForBasicPlan (ctx : Context) (customerID : string)
    : M (string * error) :=
  createSubscriptionWithPlan ctx customerID BasicPlanKey BasicPriceKey.

(** [func (s *BillingService) GetSubscription]. *)
Definition GetSubscription (ctx : Context) (id : string) : M (Subscription + error) :=
  '(subscription, err) ← request (B := Empty_set) url_Parse ctx "GET"
                           ("/billing/v1/subscriptions/" +:+ id) None (Some Subscription_zero);
  match err with
  | nil => mret (inl (held Subscription_zero subscription))
  | _ => mret (inr err)
  end.

(** [func (s *BillingService) CancelSubscription]. *)
Definition CancelSubscription (ctx : Context) (id : string) : M (Subscription + error) :=
  '(subscription, err) ← request (B := Empty_set) url_Parse ctx "DELETE"
                           ("/billing/v1/subscriptions/" +:+ id) None (Some Subscription_zero);
  match err with
  | nil => mret (inl (held Subscription_zero subscription))
  | _ => mret (inr err)
  end.

(** *** The convenience wrappers as the specification words them *)

(** [CreateCustomerForUser] as sugar: [CreateCustomer] on the pre-filled
    parameters, then the customer's ID, or the empty string and an error. *)
Definition CreateCustomerForUser_sugar (ctx : Context) (userID : Z) (email name : string)
    : M (string * error) :=
  λ w,
    let params := {| CreateCustomerParams_Email := email;
                     CreateCustomerParams_Name := name;
                     CreateCustomerParams_ExternalID := "user:" +:+ pretty userID;
                     CreateCustomerParams_Metadata := None |} in
    match CreateCustomer ctx (Some params) w with
    | (inl customer, w') => ((Customer_ID customer, nil), w')
    | (inr err, w') =>
        (("", wrapError "failed to create billing customer for user: %w" err), w')
    end.

End billing.

(** ** The rest of the billing service

    The remaining structs and accessors of the file under [/billing/v1]:
    plans, prices, entitlements, checkout and portal links, the entitlement
    check and usage. *)

(** [type CreatePlanParams struct]. *)
Record CreatePlanParams := mkCreatePlanParams {
  CreatePlanParams_Key : string;
  CreatePlanParams_Name : string;
  CreatePlanParams_Description : string;
}.

Definition CreatePlanParams_value (p : CreatePlanParams) : json.Value :=
  json.Object
    (json.member "key" (json.enc_string (CreatePlanParams_Key p))
     ++ json.member "name" (json.enc_string (CreatePlanParams_Name p))
     ++ json.omitempty_string "description" (CreatePlanParams_Description p))%list.

Global Instance CreatePlanParams_Marshaler : json.Marshaler CreatePlanParams :=
  λ p, inl (CreatePlanParams_value p).

(** [type CreatePriceParams struct]. *)
Record CreatePriceParams := mkCreatePriceParams {
  CreatePriceParams_Key : string;
  CreatePriceParams_Amount : Z;
  CreatePriceParams_Currency : string;
  CreatePriceParams_Interval : string;
  CreatePriceParams_IntervalCount : Z;
  CreatePriceParams_TrialDays : Z;
}.

Definition CreatePriceParams_value (p : CreatePriceParams) : json.Value :=
  json.Object
    (json.member "key" (json.enc_string (CreatePriceParams_Key p))
     ++ json.member "amount" (json.enc_int (CreatePriceParams_Amount p))
     ++ json.omitempty_string "currency" (CreatePriceParams_Currency p)
     ++ json.omitempty_string "interval" (CreatePriceParams_Interval p)
     ++ json.omitempty_int "interval_count" (CreatePriceParams_IntervalCount p)
     ++ json.omitempty_int "trial_days" (CreatePriceParams_TrialDays p))%list.

Global Instance CreatePriceParams_Marshaler : json.Marshaler CreatePriceParams :=
  λ p, inl (CreatePriceParams_value p).

(** [type CreateEntitlementParams struct]. *)
Record CreateEntitlementParams := mkCreateEntitlementParams {
  CreateEntitlementParams_Key : string;
  CreateEntitlementParams_ValueBool : option bool;
  CreateEntitlementParams_ValueInt : option Z;
  CreateEntitlementParams_OveragePrice : Z;
  CreateEntitlementParams_OverageUnit : Z;
}.

Definition CreateEntitlementParams_value (p : CreateEntitlementParams) : json.Value :=
  json.Object
    (json.member "key" (json.enc_string (CreateEntitlementParams_Key p))
     ++ json.omitempty_ptr "value_bool" json.enc_bool (CreateEntitlementParams_ValueBool p)
     ++ json.omitempty_ptr "value_int" json.enc_int (CreateEntitlementParams_ValueInt p)
     ++ json.omitempty_int "overage_price" (CreateEntitlementParams_OveragePrice p)
     ++ json.omitempty_int "overage_unit" (CreateEntitlementParams_OverageUnit p))%list.

Global Instance CreateEntitlementParams_Marshaler : json.Marshaler CreateEntitlementParams :=
  λ p, inl (CreateEntitlementParams_value p).

(** [type CreateCheckoutLinkParams struct]. *)
Record CreateCheckoutLinkParams := mkCreateCheckoutLinkParams {
  CreateCheckoutLinkParams_ExpiresInHours : Z;
}.

Definition CreateCheckoutLinkParams_value (p : CreateCheckoutLinkParams) : json.Value :=
  json.Object
    (json.omitempty_int "expires_in_hours" (CreateCheckoutLinkParams_ExpiresInHours p)).

Global Instance CreateCheckoutLinkParams_Marshaler : json.Marshaler CreateCheckoutLinkParams :=
  λ p, inl (CreateCheckoutLinkParams_value p).

(** [type CreatePortalLinkParams struct]. *)
Record CreatePortalLinkParams := mkCreatePortalLinkParams {
  CreatePortalLinkParams_ExpiresInHours : Z;
}.

Definition CreatePortalLinkParams_value (p : CreatePortalLinkParams) : json.Value :=
  json.Object
    (json.omitempty_int "expires_in_hours" (CreatePortalLinkParams_ExpiresInHours p)).

Global Instance CreatePortalLinkParams_Marshaler : json.Marshaler CreatePortalLinkParams :=
  λ p, inl (CreatePortalLinkParams_value p).

(** [type CheckEntitlementParams struct]. *)
Record CheckEntitlementParams := mkCheckEntitlementParams {
  CheckEntitlementParams_CustomerID : string;
  CheckEntitlementParams_EntitlementKey : string;
}.

Definition CheckEntitlementParams_value (p : CheckEntitlementParams) : json.Value :=
  json.Object
    (json.member "customer_id" (json.enc_string (CheckEntitlementParams_CustomerID p))
     ++ json.member "entitlement_key"
          (json.enc_string (CheckEntitlementParams_EntitlementKey p)))%list.

Global Instance CheckEntitlementParams_Marshaler : json.Marshaler CheckEntitlementParams :=
  λ p, inl (CheckEntitlementParams_value p).

(** [type GetUsageSummaryParams struct]; it has no JSON form. *)
Record GetUsageSummaryParams := mkGetUsageSummaryParams {
  GetUsageSummaryParams_SubscriptionID : string;
  GetUsageSummaryParams_ProductKey : string;
}.

Section billing_rest.

Variable url_Parse : string → error.

(** [time.Time]: besides its zero value and its [UnmarshalJSON] method, the
    JSON value that the encoder writes from its [MarshalJSON] method, or the
    error of that method. *)
Context {Time : Type}.
Variable Time_zero : Time.
Variable Time_UnmarshalJSON : string → Time → Time * error.
Variable Time_MarshalJSON : Time → json.Value + error.

(** The values of the empty interface [any] that the decoder makes:
    the nil interface, and what the decoder stores for a JSON value, with the
    type mismatch it saves (a number that [float64] cannot hold). *)
Context {Any : Type}.
Variable Any_nil : Any.
Variable Any_of_JSON : json.Value → Any * error.

(** A field of type [any]: [null] stores the nil interface; any other value
    is stored as the decoder makes it, and a mismatch is saved. *)
Definition dec_Any : json.Decoder Any := λ v old st,
  match v with
  | json.Null => (Any_nil, st)
  | _ =>
      let '(x, e) := Any_of_JSON v in
      (x, match e with nil => st | _ => json.saveError e st end)
  end.

(** [type RecordUsageParams struct]. *)
Record RecordUsageParams := mkRecordUsageParams {
  RecordUsageParams_SubscriptionID : string;
  RecordUsageParams_ProductKey : string;
  RecordUsageParams_Quantity : Z;
  RecordUsageParams_Timestamp : option Time;
  RecordUsageParams_IdempotencyKey : string;
}.

(** The members of the object written for [RecordUsageParams], given the
    member written for the timestamp. *)
Definition RecordUsageParams_members (p : RecordUsageParams)
    (timestamp : list (string * json.Value)) : json.Value :=
  json.Object
    (json.member "subscription_id" (json.enc_string (RecordUsageParams_SubscriptionID p))
     ++ json.omitempty_string "product_key" (RecordUsageParams_ProductKey p)
     ++ json.member "quantity" (json.enc_int (RecordUsageParams_Quantity p))
     ++ timestamp
     ++ json.omitempty_string "idempotency_key" (RecordUsageParams_IdempotencyKey p))%list.

(** A timestamp that [MarshalJSON] refuses makes [json.Marshal] fail with a
    [*json.MarshalerError]. *)
Global Instance RecordUsageParams_Marshaler : json.Marshaler RecordUsageParams :=
  λ p, match RecordUsageParams_Timestamp p with
       | None => inl (RecordUsageParams_members p [])
       | Some t =>
           match Time_MarshalJSON t with
           | inl v => inl (RecordUsageParams_members p (json.member "timestamp" v))
           | inr _ => inr (otherError "json: error calling MarshalJSON for type *time.Time")
           end
       end.

(** [type Price struct]. *)
Record Price := mkPrice {
  Price_ID : string;
  Price_PlanID : string;
  Price_Key : string;
  Price_Amount : Z;
  Price_Currency : string;
  Price_Interval : string;
  Price_IntervalCount : Z;
  Price_TrialDays : Z;
  Price_CreatedAt : Time;
}.

Definition Price_zero : Price :=
  mkPrice "" "" "" 0 "" "" 0 0 Time_zero.

Definition Price_fields : list (json.field Price) :=
  [ json.field_of "id" Price_ID
      (λ x r, mkPrice x (Price_PlanID r) (Price_Key r) (Price_Amount r) (Price_Currency r)
         (Price_Interval r) (Price_IntervalCount r) (Price_TrialDays r) (Price_CreatedAt r))
      json.dec_string;
    json.field_of "plan_id" Price_PlanID
      (λ x r, mkPrice (Price_ID r) x (Price_Key r) (Price_Amount r) (Price_Currency r)
         (Price_Interval r) (Price_IntervalCount r) (Price_TrialDays r) (Price_CreatedAt r))
      json.dec_string;
    json.field_of "key" Price_Key
      (λ x r, mkPrice (Price_ID r) (Price_PlanID r) x (Price_Amount r) (Price_Currency r)
         (Price_Interval r) (Price_IntervalCount r) (Price_TrialDays r) (Price_CreatedAt r))
      json.dec_string;
    json.field_of "amount" Price_Amount
      (λ x r, mkPrice (Price_ID r) (Price_PlanID r) (Price_Key r) x (Price_Currency r)
         (Price_Interval r) (Price_IntervalCount r) (Price_TrialDays r) (Price_CreatedAt r))
      json.dec_int;
    json.field_of "currency" Price_Currency
      (λ x r, mkPrice (Price_ID r) (Price_PlanID r) (Price_Key r) (Price_Amount r) x
         (Price_Interval r) (Price_IntervalCount r) (Price_TrialDays r) (Price_CreatedAt r))
      json.dec_string;
    json.field_of "interval" Price_Interval
      (λ x r, mkPrice (Price_ID r) (Price_PlanID r) (Price_Key r) (Price_Amount r)
         (Price_Currency r) x (Price_IntervalCount r) (Price_TrialDays r)
         (Price_CreatedAt r))
      json.dec_string;
    json.field_of "interval_count" Price_IntervalCount
      (λ x r, mkPrice (Price_ID r) (Price_PlanID r) (Price_Key r) (Price_Amount r)
         (Price_Currency r) (Price_Interval r) x (Price_TrialDays r) (Price_CreatedAt r))
      json.dec_int;
    json.field_of "trial_days" Price_TrialDays
      (λ x r, mkPrice (Price_ID r) (Price_PlanID r) (Price_Key r) (Price_Amount r)
         (Price_Currency r) (Price_Interval r) (Price_IntervalCount r) x
         (Price_CreatedAt r))
      json.dec_int;
    json.field_of "created_at" Price_CreatedAt
      (λ x r, mkPrice (Price_ID r) (Price_PlanID r) (Price_Key r) (Price_Amount r)
         (Price_Currency r) (Price_Interval r) (Price_IntervalCount r) (Price_TrialDays r)
         x)
      (dec_Time Time_UnmarshalJSON) ].

Global Instance Price_Unmarshaler : json.Unmarshaler Price :=
  json.dec_struct "tedo.Price" Price_fields.

(** [type Entitlement struct]. *)
Record Entitlement := mkEntitlement {
  Entitlement_ID : string;
  Entitlement_PlanID : string;
  Entitlement_Key : string;
  Entitlement_ValueBool : option bool;
  Entitlement_ValueInt : option Z;
  Entitlement_OveragePrice : Z;
  Entitlement_OverageUnit : Z;
  Entitlement_CreatedAt : Time;
}.

Definition Entitlement_zero : Entitlement :=
  mkEntitlement "" "" "" None None 0 0 Time_zero.

Definition Entitlement_fields : list (json.field Entitlement) :=
  [ json.field_of "id" Entitlement_ID
      (λ x r, mkEntitlement x (Entitlement_PlanID r) (Entitlement_Key r)
         (Entitlement_ValueBool r) (Entitlement_ValueInt r) (Entitlement_OveragePrice r)
         (Entitlement_OverageUnit r) (Entitlement_CreatedAt r))
      json.dec_string;
    json.field_of "plan_id" Entitlement_PlanID
      (λ x r, mkEntitlement (Entitlement_ID r) x (Entitlement_Key r)
         (Entitlement_ValueBool r) (Entitlement_ValueInt r) (Entitlement_OveragePrice r)
         (Entitlement_OverageUnit r) (Entitlement_CreatedAt r))
      json.dec_string;
    json.field_of "key" Entitlement_Key
      (λ x r, mkEntitlement (Entitlement_ID r) (Entitlement_PlanID r) x
         (Entitlement_ValueBool r) (Entitlement_ValueInt r) (Entitlement_OveragePrice r)
         (Entitlement_OverageUnit r) (Entitlement_CreatedAt r))
      json.dec_string;
    json.field_of "value_bool" Entitlement_ValueBool
      (λ x r, mkEntitlement (Entitlement_ID r) (Entitlement_PlanID r) (Entitlement_Key r) x
         (Entitlement_ValueInt r) (Entitlement_OveragePrice r) (Entitlement_OverageUnit r)
         (Entitlement_CreatedAt r))
      (json.dec_ptr false json.dec_bool);
    json.field_of "value_int" Entitlement_ValueInt
      (λ x r, mkEntitlement (Entitlement_ID r) (Entitlement_PlanID r) (Entitlement_Key r)
         (Entitlement_ValueBool r) x (Entitlement_OveragePrice r)
         (Entitlement_OverageUnit r) (Entitlement_CreatedAt r))
      (json.dec_ptr 0 json.dec_int);
    json.field_of "overage_price" Entitlement_OveragePrice
      (λ x r, mkEntitlement (Entitlement_ID r) (Entitlement_PlanID r) (Entitlement_Key r)
         (Entitlement_ValueBool r) (Entitlement_ValueInt r) x (Entitlement_OverageUnit r)
         (Entitlement_CreatedAt r))
      json.dec_int;
    json.field_of "overage_unit" Entitlement_OverageUnit
      (λ x r, mkEntitlement (Entitlement_ID r) (Entitlement_PlanID r) (Entitlement_Key r)
         (Entitlement_ValueBool r) (Entitlement_ValueInt r) (Entitlement_OveragePrice r) x
         (Entitlement_CreatedAt r))
      json.dec_int;
    json.field_of "created_at" Entitlement_CreatedAt
      (λ x r, mkEntitlement (Entitlement_ID r) (Entitlement_PlanID r) (Entitlement_Key r)
         (Entitlement_ValueBool r) (Entitlement_ValueInt r) (Entitlement_OveragePrice r)
         (Entitlement_OverageUnit r) x)
      (dec_Time Time_UnmarshalJSON) ].

Global Instance Entitlement_Unmarshaler : json.Unmarshaler Entitlement :=
  json.dec_struct "tedo.Entitlement" Entitlement_fields.

(** [type Plan struct]. *)
Record Plan := mkPlan {
  Plan_ID : string;
  Plan_Key : string;
  Plan_Name : string;
  Plan_Description : string;
  Plan_IsActive : bool;
  Plan_Prices : list Price;
  Plan_Entitlements : list Entitlement;
  Plan_CreatedAt : Time;
  Plan_UpdatedAt : Time;
}.

Definition Plan_zero : Plan :=
  mkPlan "" "" "" "" false [] [] Time_zero Time_zero.

Definition Plan_fields : list (json.field Plan) :=
  [ json.field_of "id" Plan_ID
      (λ x r, mkPlan x (Plan_Key r) (Plan_Name r) (Plan_Description r) (Plan_IsActive r)
         (Plan_Prices r) (Plan_Entitlements r) (Plan_CreatedAt r) (Plan_UpdatedAt r))
      json.dec_string;
    json.field_of "key" Plan_Key
      (λ x r, mkPlan (Plan_ID r) x (Plan_Name r) (Plan_Description r) (Plan_IsActive r)
         (Plan_Prices r) (Plan_Entitlements r) (Plan_CreatedAt r) (Plan_UpdatedAt r))
      json.dec_string;
    json.field_of "name" Plan_Name
      (λ x r, mkPlan (Plan_ID r) (Plan_Key r) x (Plan_Description r) (Plan_IsActive r)
         (Plan_Prices r) (Plan_Entitlements r) (Plan_CreatedAt r) (Plan_UpdatedAt r))
      json.dec_string;
    json.field_of "description" Plan_Description
      (λ x r, mkPlan (Plan_ID r) (Plan_Key r) (Plan_Name r) x (Plan_IsActive r)
         (Plan_Prices r) (Plan_Entitlements r) (Plan_CreatedAt r) (Plan_UpdatedAt r))
      json.dec_string;
    json.field_of "is_active" Plan_IsActive
      (λ x r, mkPlan (Plan_ID r) (Plan_Key r) (Plan_Name r) (Plan_Description r) x
         (Plan_Prices r) (Plan_Entitlements r) (Plan_CreatedAt r) (Plan_UpdatedAt r))
      json.dec_bool;
    json.field_of "prices" Plan_Prices
      (λ x r, mkPlan (Plan_ID r) (Plan_Key r) (Plan_Name r) (Plan_Description r)
         (Plan_IsActive r) x (Plan_Entitlements r) (Plan_CreatedAt r) (Plan_UpdatedAt r))
      (json.dec_slice Price_zero json.decode);
    json.field_of "entitlements" Plan_Entitlements
      (λ x r, mkPlan (Plan_ID r) (Plan_Key r) (Plan_Name r) (Plan_Description r)
         (Plan_IsActive r) (Plan_Prices r) x (Plan_CreatedAt r) (Plan_UpdatedAt r))
      (json.dec_slice Entitlement_zero json.decode);
    json.field_of "created_at" Plan_CreatedAt
      (λ x r, mkPlan (Plan_ID r) (Plan_Key r) (Plan_Name r) (Plan_Description r)
         (Plan_IsActive r) (Plan_Prices r) (Plan_Entitlements r) x (Plan_UpdatedAt r))
      (dec_Time Time_UnmarshalJSON);
    json.field_of "updated_at" Plan_UpdatedAt
      (λ x r, mkPlan (Plan_ID r) (Plan_Key r) (Plan_Name r) (Plan_Description r)
         (Plan_IsActive r) (Plan_Prices r) (Plan_Entitlements r) (Plan_CreatedAt r) x)
      (dec_Time Time_UnmarshalJSON) ].

Global Instance Plan_Unmarshaler : json.Unmarshaler Plan :=
  json.dec_struct "tedo.Plan" Plan_fields.

(** [type PlanList struct]. *)
Record PlanList := mkPlanList {
  PlanList_Plans : list Plan;
  PlanList_Total : Z;
}.

Definition PlanList_zero : PlanList :=
  mkPlanList [] 0.

Definition PlanList_fields : list (json.field PlanList) :=
  [ json.field_of "plans" PlanList_Plans
      (λ x r, mkPlanList x (PlanList_Total r))
      (json.dec_slice Plan_zero json.decode);
    json.field_of "total" PlanList_Total
      (λ x r, mkPlanList (PlanList_Plans r) x)
      json.dec_int ].

Global Instance PlanList_Unmarshaler : json.Unmarshaler PlanList :=
  json.dec_struct "tedo.PlanList" PlanList_fields.

(** [type PriceList struct]. *)
Record PriceList := mkPriceList {
  PriceList_Prices : list Price;
  PriceList_Total : Z;
}.

Definition PriceList_zero : PriceList :=
  mkPriceList [] 0.

Definition PriceList_fields : list (json.field PriceList) :=
  [ json.field_of "prices" PriceList_Prices
      (λ x r, mkPriceList x (PriceList_Total r))
      (json.dec_slice Price_zero json.decode);
    json.field_of "total" PriceList_Total
      (λ x r, mkPriceList (PriceList_Prices r) x)
      json.dec_int ].

Global Instance PriceList_Unmarshaler : json.Unmarshaler PriceList :=
  json.dec_struct "tedo.PriceList" PriceList_fields.

(** [type EntitlementList struct]. *)
Record EntitlementList := mkEntitlementList {
  EntitlementList_Entitlements : list Entitlement;
  EntitlementList_Total : Z;
}.

Definition EntitlementList_zero : EntitlementList :=
  mkEntitlementList [] 0.

Definition EntitlementList_fields : list (json.field EntitlementList) :=
  [ json.field_of "entitlements" EntitlementList_Entitlements
      (λ x r, mkEntitlementList x (EntitlementList_Total r))
      (json.dec_slice Entitlement_zero json.decode);
    json.field_of "total" EntitlementList_Total
      (λ x r, mkEntitlementList (EntitlementList_Entitlements r) x)
      json.dec_int ].

Global Instance EntitlementList_Unmarshaler : json.Unmarshaler EntitlementList :=
  json.dec_struct "tedo.EntitlementList" EntitlementList_fields.

(** [type CheckoutLink struct]. *)
Record CheckoutLink := mkCheckoutLink {
  CheckoutLink_CheckoutURL : string;
  CheckoutLink_Token : string;
  CheckoutLink_ExpiresAt : Time;
}.

Definition CheckoutLink_zero : CheckoutLink :=
  mkCheckoutLink "" "" Time_zero.

Definition CheckoutLink_fields : list (json.field CheckoutLink) :=
  [ json.field_of "checkout_url" CheckoutLink_CheckoutURL
      (λ x r, mkCheckoutLink x (CheckoutLink_Token r) (CheckoutLink_ExpiresAt r))
      json.dec_string;
    json.field_of "token" CheckoutLink_Token
      (λ x r, mkCheckoutLink (CheckoutLink_CheckoutURL r) x (CheckoutLink_ExpiresAt r))
      json.dec_string;
    json.field_of "expires_at" CheckoutLink_ExpiresAt
      (λ x r, mkCheckoutLink (CheckoutLink_CheckoutURL r) (CheckoutLink_Token r) x)
      (dec_Time Time_UnmarshalJSON) ].

Global Instance CheckoutLink_Unmarshaler : json.Unmarshaler CheckoutLink :=
  json.dec_struct "tedo.CheckoutLink" CheckoutLink_fields.

(** [type EntitlementCheck struct]. *)
Record EntitlementCheck := mkEntitlementCheck {
  EntitlementCheck_HasAccess : bool;
  EntitlementCheck_Value : Any;
  EntitlementCheck_PlanName : string;
}.

Definition EntitlementCheck_zero : EntitlementCheck :=
  mkEntitlementCheck false Any_nil "".

Definition EntitlementCheck_fields : list (json.field EntitlementCheck) :=
  [ json.field_of "has_access" EntitlementCheck_HasAccess
      (λ x r, mkEntitlementCheck x (EntitlementCheck_Value r) (EntitlementCheck_PlanName r))
      json.dec_bool;
    json.field_of "value" EntitlementCheck_Value
      (λ x r, mkEntitlementCheck (EntitlementCheck_HasAccess r) x
         (EntitlementCheck_PlanName r))
      dec_Any;
    json.field_of "plan_name" EntitlementCheck_PlanName
      (λ x r, mkEntitlementCheck (EntitlementCheck_HasAccess r) (EntitlementCheck_Value r)
         x)
      json.dec_string ].

Global Instance EntitlementCheck_Unmarshaler : json.Unmarshaler EntitlementCheck :=
  json.dec_struct "tedo.EntitlementCheck" EntitlementCheck_fields.

(** [type UsageRecord struct]. *)
Record UsageRecord := mkUsageRecord {
  UsageRecord_ID : string;
  UsageRecord_CustomerID : string;
  UsageRecord_SubscriptionID : string;
  UsageRecord_ProductKey : string;
  UsageRecord_Quantity : Z;
  UsageRecord_Timestamp : Time;
  UsageRecord_IdempotencyKey : string;
  UsageRecord_CreatedAt : Time;
}.

Definition UsageRecord_zero : UsageRecord :=
  mkUsageRecord "" "" "" "" 0 Time_zero "" Time_zero.

Definition UsageRecord_fields : list (json.field UsageRecord) :=
  [ json.field_of "id" UsageRecord_ID
      (λ x r, mkUsageRecord x (UsageRecord_CustomerID r) (UsageRecord_SubscriptionID r)
         (UsageRecord_ProductKey r) (UsageRecord_Quantity r) (UsageRecord_Timestamp r)
         (UsageRecord_IdempotencyKey r) (UsageRecord_CreatedAt r))
      json.dec_string;
    json.field_of "customer_id" UsageRecord_CustomerID
      (λ x r, mkUsageRecord (UsageRecord_ID r) x (UsageRecord_SubscriptionID r)
         (UsageRecord_ProductKey r) (UsageRecord_Quantity r) (UsageRecord_Timestamp r)
         (UsageRecord_IdempotencyKey r) (UsageRecord_CreatedAt r))
      json.dec_string;
    json.field_of "subscription_id" UsageRecord_SubscriptionID
      (λ x r, mkUsageRecord (UsageRecord_ID r) (UsageRecord_CustomerID r) x
         (UsageRecord_ProductKey r) (UsageRecord_Quantity r) (UsageRecord_Timestamp r)
         (UsageRecord_IdempotencyKey r) (UsageRecord_CreatedAt r))
      json.dec_string;
    json.field_of "product_key" UsageRecord_ProductKey
      (λ x r, mkUsageRecord (UsageRecord_ID r) (UsageRecord_CustomerID r)
         (UsageRecord_SubscriptionID r) x (UsageRecord_Quantity r) (UsageRecord_Timestamp r)
         (UsageRecord_IdempotencyKey r) (UsageRecord_CreatedAt r))
      json.dec_string;
    json.field_of "quantity" UsageRecord_Quantity
      (λ x r, mkUsageRecord (UsageRecord_ID r) (UsageRecord_CustomerID r)
         (UsageRecord_SubscriptionID r) (UsageRecord_ProductKey r) x
         (UsageRecord_Timestamp r) (UsageRecord_IdempotencyKey r) (UsageRecord_CreatedAt r))
      json.dec_int;
    json.field_of "timestamp" UsageRecord_Timestamp
      (λ x r, mkUsageRecord (UsageRecord_ID r) (UsageRecord_CustomerID r)
         (UsageRecord_SubscriptionID r) (UsageRecord_ProductKey r) (UsageRecord_Quantity r)
         x (UsageRecord_IdempotencyKey r) (UsageRecord_CreatedAt r))
      (dec_Time Time_UnmarshalJSON);
    json.field_of "idempotency_key" UsageRecord_IdempotencyKey
      (λ x r, mkUsageRecord (UsageRecord_ID r) (UsageRecord_CustomerID r)
         (UsageRecord_SubscriptionID r) (UsageRecord_ProductKey r) (UsageRecord_Quantity r)
         (UsageRecord_Timestamp r) x (UsageRecord_CreatedAt r))
      json.dec_string;
    json.field_of "created_at" UsageRecord_CreatedAt
      (λ x r, mkUsageRecord (UsageRecord_ID r) (UsageRecord_CustomerID r)
         (UsageRecord_SubscriptionID r) (UsageRecord_ProductKey r) (UsageRecord_Quantity r)
         (UsageRecord_Timestamp r) (UsageRecord_IdempotencyKey r) x)
      (dec_Time Time_UnmarshalJSON) ].

Global Instance UsageRecord_Unmarshaler : json.Unmarshaler UsageRecord :=
  json.dec_struct "tedo.UsageRecord" UsageRecord_fields.

(** [type UsageSummary struct]. *)
Record UsageSummary := mkUsageSummary {
  UsageSummary_SubscriptionID : string;
  UsageSummary_ProductKey : string;
  UsageSummary_TotalUsage : Z;
  UsageSummary_RecordCount : Z;
  UsageSummary_PeriodStart : string;
  UsageSummary_PeriodEnd : string;
}.

Definition UsageSummary_zero : UsageSummary :=
  mkUsageSummary "" "" 0 0 "" "".

Definition UsageSummary_fields : list (json.field UsageSummary) :=
  [ json.field_of "subscription_id" UsageSummary_SubscriptionID
      (λ x r, mkUsageSummary x (UsageSummary_ProductKey r) (UsageSummary_TotalUsage r)
         (UsageSummary_RecordCount r) (UsageSummary_PeriodStart r)
         (UsageSummary_PeriodEnd r))
      json.dec_string;
    json.field_of "product_key" UsageSummary_ProductKey
      (λ x r, mkUsageSummary (UsageSummary_SubscriptionID r) x (UsageSummary_TotalUsage r)
         (UsageSummary_RecordCount r) (UsageSummary_PeriodStart r)
         (UsageSummary_PeriodEnd r))
      json.dec_string;
    json.field_of "total_usage" UsageSummary_TotalUsage
      (λ x r, mkUsageSummary (UsageSummary_SubscriptionID r) (UsageSummary_ProductKey r) x
         (UsageSummary_RecordCount r) (UsageSummary_PeriodStart r)
         (UsageSummary_PeriodEnd r))
      json.dec_int;
    json.field_of "record_count" UsageSummary_RecordCount
      (λ x r, mkUsageSummary (UsageSummary_SubscriptionID r) (UsageSummary_ProductKey r)
         (UsageSummary_TotalUsage r) x (UsageSummary_PeriodStart r)
         (UsageSummary_PeriodEnd r))
      json.dec_int;
    json.field_of "period_start" UsageSummary_PeriodStart
      (λ x r, mkUsageSummary (UsageSummary_SubscriptionID r) (UsageSummary_ProductKey r)
         (UsageSummary_TotalUsage r) (UsageSummary_RecordCount r) x
         (UsageSummary_PeriodEnd r))
      json.dec_string;
    json.field_of "period_end" UsageSummary_PeriodEnd
      (λ x r, mkUsageSummary (UsageSummary_SubscriptionID r) (UsageSummary_ProductKey r)
         (UsageSummary_TotalUsage r) (UsageSummary_RecordCount r)
         (UsageSummary_PeriodStart r) x)
      json.dec_string ].

Global Instance UsageSummary_Unmarshaler : json.Unmarshaler UsageSummary :=
  json.dec_struct "tedo.UsageSummary" UsageSummary_fields.

(** [type PortalLink struct]. *)
Record PortalLink := mkPortalLink {
  PortalLink_PortalURL : string;
  PortalLink_Token : string;
  PortalLink_ExpiresAt : Time;
}.

Definition PortalLink_zero : PortalLink :=
  mkPortalLink "" "" Time_zero.

Definition PortalLink_fields : list (json.field PortalLink) :=
  [ json.field_of "portal_url" PortalLink_PortalURL
      (λ x r, mkPortalLink x (PortalLink_Token r) (PortalLink_ExpiresAt r))
      json.dec_string;
    json.field_of "token" PortalLink_Token
      (λ x r, mkPortalLink (PortalLink_PortalURL r) x (PortalLink_ExpiresAt r))
      json.dec_string;
    json.field_of "expires_at" PortalLink_ExpiresAt
      (λ x r, mkPortalLink (PortalLink_PortalURL r) (PortalLink_Token r) x)
      (dec_Time Time_UnmarshalJSON) ].

Global Instance PortalLink_Unmarshaler : json.Unmarshaler PortalLink :=
  json.dec_struct "tedo.PortalLink" PortalLink_fields.

(** [func (s *BillingService) CreatePlan]. *)
Definition CreatePlan (ctx : Context) (params : option CreatePlanParams) : M (Plan + error) :=
  '(plan, err) ← request url_Parse ctx "POST"
      "/billing/v1/plans" (Some params) (Some Plan_zero);
  match err with
  | nil => mret (inl (held Plan_zero plan))
  | _ => mret (inr err)
  end.

(** [func (s *BillingService) ListPlans]. *)
Definition ListPlans (ctx : Context) : M (PlanList + error) :=
  '(list, err) ← request (B := Empty_set) url_Parse ctx "GET"
      "/billing/v1/plans" None (Some PlanList_zero);
  match err with
  | nil => mret (inl (held PlanList_zero list))
  | _ => mret (inr err)
  end.

(** [func (s *BillingService) GetPlan]. *)
Definition GetPlan (ctx : Context) (id : string) : M (Plan + error) :=
  '(plan, err) ← request (B := Empty_set) url_Parse ctx "GET"
      ("/billing/v1/plans/" +:+ id) None (Some Plan_zero);
  match err with
  | nil => mret (inl (held Plan_zero plan))
  | _ => mret (inr err)
  end.

(** [func (s *BillingService) UpdatePlan]. *)
Definition UpdatePlan (ctx : Context) (id : string) (params : option UpdatePlanParams)
    : M (Plan + error) :=
  '(plan, err) ← request url_Parse ctx "PATCH"
      ("/billing/v1/plans/" +:+ id) (Some params) (Some Plan_zero);
  match err with
  | nil => mret (inl (held Plan_zero plan))
  | _ => mret (inr err)
  end.

(** [func (s *BillingService) DeletePlan]. *)
Definition DeletePlan (ctx : Context) (id : string) : M error :=
  '(_, err) ← request (B := Empty_set) (R := Empty_set) url_Parse ctx "DELETE"
      ("/billing/v1/plans/" +:+ id) None None;
  mret err.

(** [func (s *BillingService) CreatePrice]. *)
Definition CreatePrice (ctx : Context) (planID : string) (params : option CreatePriceParams)
    : M (Price + error) :=
  '(price, err) ← request url_Parse ctx "POST"
      (("/billing/v1/plans/" +:+ planID) +:+ "/prices") (Some params) (Some Price_zero);
  match err with
  | nil => mret (inl (held Price_zero price))
  | _ => mret (inr err)
  end.

(** [func (s *BillingService) ListPrices]. *)
Definition ListPrices (ctx : Context) (planID : string) : M (PriceList + error) :=
  '(list, err) ← request (B := Empty_set) url_Parse ctx "GET"
      (("/billing/v1/plans/" +:+ planID) +:+ "/prices") None (Some PriceList_zero);
  match err with
  | nil => mret (inl (held PriceList_zero list))
  | _ => mret (inr err)
  end.

(** [func (s *BillingService) ArchivePrice]. *)
Definition ArchivePrice (ctx : Context) (planID priceID : string) : M error :=
  '(_, err) ← request (B := Empty_set) (R := Empty_set) url_Parse ctx "DELETE"
      ((("/billing/v1/plans/" +:+ planID) +:+ "/prices/") +:+ priceID) None None;
  mret err.

(** [func (s *BillingService) CreateEntitlement]. *)
Definition CreateEntitlement (ctx : Context) (planID : string)
    (params : option CreateEntitlementParams)
    : M (Entitlement + error) :=
  '(entitlement, err) ← request url_Parse ctx "POST"
      (("/billing/v1/plans/" +:+ planID) +:+ "/entitlements") (Some params) (Some Entitlement_zero);
  match err with
  | nil => mret (inl (held Entitlement_zero entitlement))
  | _ => mret (inr err)
  end.

(** [func (s *BillingService) ListEntitlements]. *)
Definition ListEntitlements (ctx : Context) (planID : string) : M (EntitlementList + error) :=
  '(list, err) ← request (B := Empty_set) url_Parse ctx "GET"
      (("/billing/v1/plans/" +:+ planID) +:+ "/entitlements") None (Some EntitlementList_zero);
  match err with
  | nil => mret (inl (held EntitlementList_zero list))
  | _ => mret (inr err)
  end.

(** [func (s *BillingService) ArchiveEntitlement]. *)
Definition ArchiveEntitlement (ctx : Context) (planID entitlementID : string) : M error :=
  '(_, err) ← request (B := Empty_set) (R := Empty_set) url_Parse ctx "DELETE"
      ((("/billing/v1/plans/" +:+ planID) +:+ "/entitlements/") +:+ entitlementID) None None;
  mret err.

(** [func (s *BillingService) CreateCheckoutLink]. *)
Definition CreateCheckoutLink (ctx : Context) (subscriptionID : string)
    (params : option CreateCheckoutLinkParams)
    : M (CheckoutLink + error) :=
  '(link, err) ← request url_Parse ctx "POST"
      (("/billing/v1/subscriptions/" +:+ subscriptionID) +:+ "/checkout-link")
      (Some params) (Some CheckoutLink_zero);
  match err with
  | nil => mret (inl (held CheckoutLink_zero link))
  | _ => mret (inr err)
  end.

(** [func (s *BillingService) CheckEntitlement]. *)
Definition CheckEntitlement (ctx : Context) (params : option CheckEntitlementParams)
    : M (EntitlementCheck + error) :=
  '(result, err) ← request url_Parse ctx "POST"
      "/billing/v1/entitlements/check" (Some params) (Some EntitlementCheck_zero);
  match err with
  | nil => mret (inl (held EntitlementCheck_zero result))
  | _ => mret (inr err)
  end.

(** [func (s *BillingService) RecordUsage]. *)
Definition RecordUsage (ctx : Context) (params : option RecordUsageParams)
    : M (UsageRecord + error) :=
  '(record, err) ← request url_Parse ctx "POST"
      "/billing/v1/usage" (Some params) (Some UsageRecord_zero);
  match err with
  | nil => mret (inl (held UsageRecord_zero record))
  | _ => mret (inr err)
  end.

(** [func (s *BillingService) CreatePortalLink]. *)
Definition CreatePortalLink (ctx : Context) (customerID : string)
    (params : option CreatePortalLinkParams)
    : M (PortalLink + error) :=
  '(link, err) ← request url_Parse ctx "POST"
      (("/billing/v1/customers/" +:+ customerID) +:+ "/portal-link")
      (Some params) (Some PortalLink_zero);
  match err with
  | nil => mret (inl (held PortalLink_zero link))
  | _ => mret (inr err)
  end.

(** [func (s *BillingService) CheckEntitlementByKey]. *)
Definition CheckEntitlementByKey (ctx : Context) (customerID entitlementKey : string)
    : M (EntitlementCheck + error) :=
  CheckEntitlement ctx
    (Some {| CheckEntitlementParams_CustomerID := customerID;
             CheckEntitlementParams_EntitlementKey := entitlementKey |}).

(** [func (s *BillingService) RecordUsageByKey]. *)
Definition RecordUsageByKey (ctx : Context) (subscriptionID productKey : string)
    (quantity : Z) (idempotencyKey : string) : M (UsageRecord + error) :=
  RecordUsage ctx
    (Some {| RecordUsageParams_SubscriptionID := subscriptionID;
             RecordUsageParams_ProductKey := productKey;
             RecordUsageParams_Quantity := quantity;
             RecordUsageParams_Timestamp := None;
             RecordUsageParams_IdempotencyKey := idempotencyKey |}).

(** [func (s *BillingService) GetUsageSummary].  The function reads
    [params.SubscriptionID] before anything else; with a nil [params] that is
    a nil-pointer dereference, and the call panics ([None]). *)
Definition GetUsageSummary (ctx : Context) (params : option GetUsageSummaryParams)
    : M (option (UsageSummary + error)) :=
  match params with
  | None => mret None
  | Some p =>
      let path := "/billing/v1/usage?subscription_id="
                  +:+ GetUsageSummaryParams_SubscriptionID p in
      let path :=
        if negb (String.eqb (GetUsageSummaryParams_ProductKey p) "")
        then path +:+ ("&product_key=" +:+ GetUsageSummaryParams_ProductKey p)
        else path in
      '(summary, err) ← request (B := Empty_set) url_Parse ctx "GET" path None
                          (Some UsageSummary_zero);
      match err with
      | nil => mret (Some (inl (held UsageSummary_zero summary)))
      | _ => mret (Some (inr err))
      end
  end.

(** [func (s *BillingService) GetUsageSummaryByKey]. *)
Definition GetUsageSummaryByKey (ctx : Context) (subscriptionID productKey : string)
    : M (option (UsageSummary + error)) :=
  GetUsageSummary ctx
    (Some {| GetUsageSummaryParams_SubscriptionID := subscriptionID;
             GetUsageSummaryParams_ProductKey := productKey |}).

End billing_rest.

(** ** Specification-side definitions *)

(** The request that [request] hands to the transport (or the error it
    returns before it has one): the marshalled body, the URL under the base
    URL, and the three headers. *)
Definition outgoing {B} `{!json.Marshaler B} (url_Parse : string → error) (c : Client)
    (ctx : Context) (method path : string) (body : option B) : http.Request + error :=
  match
    match body with
    | Some b =>
        match json.Marshal b with
        | inl jsonBody => inl (Some jsonBody)
        | inr err => inr err
        end
    | None => inl None
    end
  with
  | inr err => inr (wrapError "marshal request body: %w" err)
  | inl bodyReader =>
      match http.NewRequestWithContext url_Parse ctx method (baseURL c +:+ path) bodyReader with
      | inr err => inr (wrapError "create request: %w" err)
      | inl req =>
          inl (http.Header_Set "Accept" "application/json"
                 (http.Header_Set "Content-Type" "application/json"
                    (http.Header_Set "Authorization" ("Bearer " +:+ apiKey c) req)))
      end
  end.

(** The world after [req] has been sent. *)
Definition sent (req : http.Request) (w : World) : World :=
  {| client := client w; wire := wire w ++ [req] |}.

(** The decoder has met no error. *)
Definition clean (st : json.dstate) : Prop :=
  json.savedError st = nil ∧ json.stopError st = nil.

(** The object key [k] (as written in the text) names the field [name]. *)
Definition names (name k : string) : bool :=
  match json.unquote k with
  | Some key => String.eqb (json.foldName name) (json.foldName key)
  | None => false
  end.

(** The string a JSON object gives for [name]: the text of the last member
    so named that holds a string, [dflt] when there is none. *)
Definition member_step (name : string) (cur : string) (kv : string * json.Value) : string :=
  if names name (fst kv) then
    match snd kv with
    | json.Str raw => default cur (json.unquote raw)
    | _ => cur
    end
  else cur.

Definition member_string (name : string) (ms : list (string * json.Value)) (dflt : string)
    : string :=
  foldl (member_step name) dflt ms.

(** *** What a JSON value says

    The Go value that a JSON value gives for a destination of each kind,
    next to the value [cur] that the destination held: [null] and a value of
    another kind leave a string, a number or a boolean as it was; [null]
    makes a pointer, a map or a slice nil. *)

Definition says_string (v : json.Value) (cur : string) : string :=
  match v with
  | json.Str raw => default cur (json.unquote raw)
  | _ => cur
  end.

Definition says_int (v : json.Value) (cur : Z) : Z :=
  match v with
  | json.Number lit => default cur (json.ParseInt lit)
  | _ => cur
  end.

Definition says_bool (v : json.Value) (cur : bool) : bool :=
  match v with
  | json.Bool b => b
  | _ => cur
  end.

Definition says_ptr {T} (zero : T) (says : json.Value → T → T) (v : json.Value)
    (cur : option T) : option T :=
  match v with
  | json.Null => None
  | _ => Some (says v (default zero cur))
  end.

(** A map takes the members of an object in the order of the text, over
    the entries it had. *)
Definition says_entry (m : gmap string string) (kv : string * json.Value)
    : gmap string string :=
  match json.unquote kv.1 with
  | Some k => <[k := says_string kv.2 ""]> m
  | None => m
  end.

Definition says_map (v : json.Value) (cur : option (gmap string string))
    : option (gmap string string) :=
  match v with
  | json.Null => None
  | json.Object ms => Some (foldl says_entry (default ∅ cur) ms)
  | _ => cur
  end.

(** A slice has the length of the array; its element [i] is read over the
    element [i] it had, or over the zero value. *)
Definition says_slice {T} (zero : T) (says : json.Value → T → T) (v : json.Value)
    (cur : list T) : list T :=
  match v with
  | json.Null => []
  | json.Array vs => imap (λ i x, says x (default zero (cur !! i))) vs
  | _ => cur
  end.

(** What the members [ms] of an object say for the field named [name]:
    each member so named, names being compared without regard to case, is
    read in the order of the text over what the field holds by then. *)
Definition said {A} (says : json.Value → A → A) (name : string)
    (ms : list (string * json.Value)) (cur : A) : A :=
  foldl (λ cur kv, if names name kv.1 then says kv.2 cur else cur) cur ms.

(** *** What a JSON value says for the structs

    For each struct that [request] decodes into, the struct that a JSON
    value gives next to the struct [cur] that the destination held: every
    field is read from the members of the object that bear the name in its
    [json] tag; [null] and a value that is not an object leave the struct as
    it was. *)

Section readings.

Context {Time : Type}.
Variable Time_zero : Time.
Variable Time_UnmarshalJSON : string → Time → Time * error.
Context {Any : Type}.
Variable Any_nil : Any.
Variable Any_of_JSON : json.Value → Any * error.

(** A [time.Time] is what its [UnmarshalJSON] method makes of the text of
    the value; an [any] is the nil interface for [null], else the value the
    decoder makes. *)
Definition says_Time (v : json.Value) (cur : Time) : Time :=
  (Time_UnmarshalJSON (json.render v) cur).1.

Definition says_Any (v : json.Value) (cur : Any) : Any :=
  match v with
  | json.Null => Any_nil
  | _ => (Any_of_JSON v).1
  end.

Definition says_Subscription (v : json.Value) (cur : Subscription) : Subscription :=
  match v with
  | json.Object ms =>
      {|
         Subscription_ID := said says_string "id" ms (Subscription_ID cur);
         Subscription_CustomerID :=
           said says_string "customer_id" ms (Subscription_CustomerID cur);
         Subscription_PriceID := said says_string "price_id" ms (Subscription_PriceID cur);
         Subscription_Status := said says_string "status" ms (Subscription_Status cur);
         Subscription_Quantity := said says_int "quantity" ms (Subscription_Quantity cur);
         Subscription_StartedAt := said says_Time "started_at" ms (Subscription_StartedAt cur);
         Subscription_CanceledAt :=
           said (says_ptr Time_zero says_Time) "canceled_at" ms (Subscription_CanceledAt cur);
         Subscription_Metadata := said says_map "metadata" ms (Subscription_Metadata cur);
         Subscription_CreatedAt := said says_Time "created_at" ms (Subscription_CreatedAt cur)
      |}
  | _ => cur
  end.

Definition says_Customer (v : json.Value) (cur : Customer) : Customer :=
  match v with
  | json.Object ms =>
      {|
         Customer_ID := said says_string "id" ms (Customer_ID cur);
         Customer_Email := said says_string "email" ms (Customer_Email cur);
         Customer_Name := said says_string "name" ms (Customer_Name cur);
         Customer_ExternalID := said says_string "external_id" ms (Customer_ExternalID cur);
         Customer_Metadata := said says_map "metadata" ms (Customer_Metadata cur);
         Customer_Subscriptions :=
           said (says_slice (Subscription_zero Time_zero) says_Subscription)
             "subscriptions" ms (Customer_Subscriptions cur);
         Customer_CreatedAt := said says_Time "created_at" ms (Customer_CreatedAt cur);
         Customer_UpdatedAt := said says_Time "updated_at" ms (Customer_UpdatedAt cur)
      |}
  | _ => cur
  end.

Definition says_CustomerList (v : json.Value) (cur : CustomerList) : CustomerList :=
  match v with
  | json.Object ms =>
      {|
         CustomerList_Customers :=
           said (says_slice (Customer_zero Time_zero) says_Customer)
             "customers" ms (CustomerList_Customers cur);
         CustomerList_Total := said says_int "total" ms (CustomerList_Total cur);
         CustomerList_NextCursor :=
           said says_string "next_cursor" ms (CustomerList_NextCursor cur)
      |}
  | _ => cur
  end.

Definition says_Price (v : json.Value) (cur : Price) : Price :=
  match v with
  | json.Object ms =>
      {|
         Price_ID := said says_string "id" ms (Price_ID cur);
         Price_PlanID := said says_string "plan_id" ms (Price_PlanID cur);
         Price_Key := said says_string "key" ms (Price_Key cur);
         Price_Amount := said says_int "amount" ms (Price_Amount cur);
         Price_Currency := said says_string "currency" ms (Price_Currency cur);
         Price_Interval := said says_string "interval" ms (Price_Interval cur);
         Price_IntervalCount := said says_int "interval_count" ms (Price_IntervalCount cur);
         Price_TrialDays := said says_int "trial_days" ms (Price_TrialDays cur);
         Price_CreatedAt := said says_Time "created_at" ms (Price_CreatedAt cur)
      |}
  | _ => cur
  end.

Definition says_Entitlement (v : json.Value) (cur : Entitlement) : Entitlement :=
  match v with
  | json.Object ms =>
      {|
         Entitlement_ID := said says_string "id" ms (Entitlement_ID cur);
         Entitlement_PlanID := said says_string "plan_id" ms (Entitlement_PlanID cur);
         Entitlement_Key := said says_string "key" ms (Entitlement_Key cur);
         Entitlement_ValueBool :=
           said (says_ptr false says_bool) "value_bool" ms (Entitlement_ValueBool cur);
         Entitlement_ValueInt :=
           said (says_ptr 0 says_int) "value_int" ms (Entitlement_ValueInt cur);
         Entitlement_OveragePrice :=
           said says_int "overage_price" ms (Entitlement_OveragePrice cur);
         Entitlement_OverageUnit :=
           said says_int "overage_unit" ms (Entitlement_OverageUnit cur);
         Entitlement_CreatedAt := said says_Time "created_at" ms (Entitlement_CreatedAt cur)
      |}
  | _ => cur
  end.

Definition says_Plan (v : json.Value) (cur : Plan) : Plan :=
  match v with
  | json.Object ms =>
      {|
         Plan_ID := said says_string "id" ms (Plan_ID cur);
         Plan_Key := said says_string "key" ms (Plan_Key cur);
         Plan_Name := said says_string "name" ms (Plan_Name cur);
         Plan_Description := said says_string "description" ms (Plan_Description cur);
         Plan_IsActive := said says_bool "is_active" ms (Plan_IsActive cur);
         Plan_Prices :=
           said (says_slice (Price_zero Time_zero) says_Price) "prices" ms (Plan_Prices cur);
         Plan_Entitlements :=
           said (says_slice (Entitlement_zero Time_zero) says_Entitlement)
             "entitlements" ms (Plan_Entitlements cur);
         Plan_CreatedAt := said says_Time "created_at" ms (Plan_CreatedAt cur);
         Plan_UpdatedAt := said says_Time "updated_at" ms (Plan_UpdatedAt cur)
      |}
  | _ => cur
  end.

Definition says_PlanList (v : json.Value) (cur : PlanList) : PlanList :=
  match v with
  | json.Object ms =>
      {|
         PlanList_Plans :=
           said (says_slice (Plan_zero Time_zero) says_Plan) "plans" ms (PlanList_Plans cur);
         PlanList_Total := said says_int "total" ms (PlanList_Total cur)
      |}
  | _ => cur
  end.

Definition says_PriceList (v : json.Value) (cur : PriceList) : PriceList :=
  match v with
  | json.Object ms =>
      {|
         PriceList_Prices :=
           said (says_slice (Price_zero Time_zero) says_Price)
             "prices" ms (PriceList_Prices cur);
         PriceList_Total := said says_int "total" ms (PriceList_Total cur)
      |}
  | _ => cur
  end.

Definition says_EntitlementList (v : json.Value) (cur : EntitlementList) : EntitlementList :=
  match v with
  | json.Object ms =>
      {|
         EntitlementList_Entitlements :=
           said (says_slice (Entitlement_zero Time_zero) says_Entitlement)
             "entitlements" ms (EntitlementList_Entitlements cur);
         EntitlementList_Total := said says_int "total" ms (EntitlementList_Total cur)
      |}
  | _ => cur
  end.

Definition says_CheckoutLink (v : json.Value) (cur : CheckoutLink) : CheckoutLink :=
  match v with
  | json.Object ms =>
      {|
         CheckoutLink_CheckoutURL :=
           said says_string "checkout_url" ms (CheckoutLink_CheckoutURL cur);
         CheckoutLink_Token := said says_string "token" ms (CheckoutLink_Token cur);
         CheckoutLink_ExpiresAt := said says_Time "expires_at" ms (CheckoutLink_ExpiresAt cur)
      |}
  | _ => cur
  end.

Definition says_EntitlementCheck (v : json.Value) (cur : EntitlementCheck) : EntitlementCheck :=
  match v with
  | json.Object ms =>
      {|
         EntitlementCheck_HasAccess :=
           said says_bool "has_access" ms (EntitlementCheck_HasAccess cur);
         EntitlementCheck_Value := said says_Any "value" ms (EntitlementCheck_Value cur);
         EntitlementCheck_PlanName :=
           said says_string "plan_name" ms (EntitlementCheck_PlanName cur)
      |}
  | _ => cur
  end.

Definition says_UsageRecord (v : json.Value) (cur : UsageRecord) : UsageRecord :=
  match v with
  | json.Object ms =>
      {|
         UsageRecord_ID := said says_string "id" ms (UsageRecord_ID cur);
         UsageRecord_CustomerID :=
           said says_string "customer_id" ms (UsageRecord_CustomerID cur);
         UsageRecord_SubscriptionID :=
           said says_string "subscription_id" ms (UsageRecord_SubscriptionID cur);
         UsageRecord_ProductKey :=
           said says_string "product_key" ms (UsageRecord_ProductKey cur);
         UsageRecord_Quantity := said says_int "quantity" ms (UsageRecord_Quantity cur);
         UsageRecord_Timestamp := said says_Time "timestamp" ms (UsageRecord_Timestamp cur);
         UsageRecord_IdempotencyKey :=
           said says_string "idempotency_key" ms (UsageRecord_IdempotencyKey cur);
         UsageRecord_CreatedAt := said says_Time "created_at" ms (UsageRecord_CreatedAt cur)
      |}
  | _ => cur
  end.

Definition says_UsageSummary (v : json.Value) (cur : UsageSummary) : UsageSummary :=
  match v with
  | json.Object ms =>
      {|
         UsageSummary_SubscriptionID :=
           said says_string "subscription_id" ms (UsageSummary_SubscriptionID cur);
         UsageSummary_ProductKey :=
           said says_string "product_key" ms (UsageSummary_ProductKey cur);
         UsageSummary_TotalUsage := said says_int "total_usage" ms (UsageSummary_TotalUsage cur);
         UsageSummary_RecordCount :=
           said says_int "record_count" ms (UsageSummary_RecordCount cur);
         UsageSummary_PeriodStart :=
           said says_string "period_start" ms (UsageSummary_PeriodStart cur);
         UsageSummary_PeriodEnd := said says_string "period_end" ms (UsageSummary_PeriodEnd cur)
      |}
  | _ => cur
  end.

Definition says_PortalLink (v : json.Value) (cur : PortalLink) : PortalLink :=
  match v with
  | json.Object ms =>
      {|
         PortalLink_PortalURL := said says_string "portal_url" ms (PortalLink_PortalURL cur);
         PortalLink_Token := said says_string "token" ms (PortalLink_Token cur);
         PortalLink_ExpiresAt := said says_Time "expires_at" ms (PortalLink_ExpiresAt cur)
      |}
  | _ => cur
  end.

End readings.

(** The query string of [ListCustomers] as the specification words it: the
    components that are present, in order, joined by an ampersand and
    prefixed by a question mark; nothing when none is present. *)
Definition ListCustomers_query (limit : Z) (cursor : string) : string :=
  let parts :=
    ((if (0 <? limit)%Z then ["limit=" +:+ pretty limit] else [])
     ++ (if negb (String.eqb cursor "") then ["cursor=" +:+ cursor] else []))%list in
  match parts with
  | [] => ""
  | _ => "?" +:+ json.join "&" parts
  end.

(** The optional fields of the update parameters that are set: the non-nil
    pointers and the non-nil map. *)
Definition when_set {A} (name : string) (p : option A) : list string :=
  match p with
  | Some _ => [name]
  | None => []
  end.

Definition UpdateCustomerParams_set (p : UpdateCustomerParams) : list string :=
  (when_set "email" (UpdateCustomerParams_Email p)
   ++ when_set "name" (UpdateCustomerParams_Name p)
   ++ when_set "external_id" (UpdateCustomerParams_ExternalID p)
   ++ when_set "metadata" (UpdateCustomerParams_Metadata p))%list.

Definition UpdatePlanParams_set (p : UpdatePlanParams) : list string :=
  (when_set "key" (UpdatePlanParams_Key p)
   ++ when_set "name" (UpdatePlanParams_Name p)
   ++ when_set "description" (UpdatePlanParams_Description p)
   ++ when_set "is_active" (UpdatePlanParams_IsActive p))%list.

(** The names of the members of a JSON object, as written. *)
Definition member_names (v : json.Value) : list string :=
  match v with
  | json.Object ms => fst <$> ms
  | _ => []
  end.

(** The members of a JSON object. *)
Definition members_of (v : json.Value) : list (string * json.Value) :=
  match v with
  | json.Object ms => ms
  | _ => []
  end.

(** A JSON object with the single member [name], holding [v], as text. *)
Definition single_member (name : string) (v : json.Value) : string :=
  "{" +:+ json.in_quotes name +:+ ":" +:+ json.render v +:+ "}".

(** What [request] does with the answer to the request it sent. *)
Definition outcome {R} `{!json.Unmarshaler R} (result : option R)
    (answer : http.Response + error) : option R * error :=
  match answer with
  | inr err => (result, wrapError "do request: %w" err)
  | inl resp =>
      match http.ReadAll resp with
      | inr err => (result, wrapError "read response: %w" err)
      | inl respBody =>
          if (400 <=? http.StatusCode resp)%Z then
            (result, parseError (http.StatusCode resp) respBody)
          else
            match result with
            | Some r =>
                if (0 <? String.length respBody)%nat then
                  let '(r', err) := json.Unmarshal respBody r in
                  (Some r', match err with
                            | nil => nil
                            | _ => wrapError "decode response: %w" err
                            end)
                else (result, nil)
            | None => (result, nil)
            end
      end
  end.

(** *** The accessors as one family *)

(** The body [request] hands to [http.NewRequestWithContext]: none for the
    nil interface, else the text [json.Marshal] writes, or its error. *)
Definition marshalled {B} {MB : json.Marshaler B} (body : option B) : option string + error :=
  match body with
  | Some b =>
      match json.Marshal b with
      | inl jsonBody => inl (Some jsonBody)
      | inr err => inr err
      end
  | None => inl None
  end.

(** The request made of a body so written; [outgoing] is [prepared] of
    [marshalled]. *)
Definition prepared (url_Parse : string → error) (c : Client) (ctx : Context)
    (method path : string) (bodyReader : option string + error) : http.Request + error :=
  match bodyReader with
  | inr err => inr (wrapError "marshal request body: %w" err)
  | inl bodyReader =>
      match http.NewRequestWithContext url_Parse ctx method (baseURL c +:+ path) bodyReader with
      | inr err => inr (wrapError "create request: %w" err)
      | inl req =>
          inl (http.Header_Set "Accept" "application/json"
                 (http.Header_Set "Content-Type" "application/json"
                    (http.Header_Set "Authorization" ("Bearer " +:+ apiKey c) req)))
      end
  end.

(** The status of the response that [request] reads, when the request can
    be made, the transport answers it and the body of the answer can be
    read. *)
Definition answer_status {B} `{!json.Marshaler B} (url_Parse : string → error) (w : World)
    (ctx : Context) (method path : string) (body : option B) : option Z :=
  match outgoing url_Parse (client w) ctx method path body with
  | inl req =>
      match http.RoundTrip (httpClient (client w)) (wire w) req with
      | inl resp =>
          match http.ReadAll resp with
          | inl _ => Some (http.StatusCode resp)
          | inr _ => None
          end
      | inr _ => None
      end
  | inr _ => None
  end.

(** The formats with which [request] wraps the errors it meets before it
    hands a request to the transport, and after. *)
Definition wrapped_before : list string :=
  ["marshal request body: %w"; "create request: %w"].
Definition wrapped_after : list string :=
  ["do request: %w"; "read response: %w"; "decode response: %w"].

(** The three headers of every request. *)
Definition request_headers (key : string) : gmap string (list string) :=
  <["Accept" := ["application/json"]]>
    (<["Content-Type" := ["application/json"]]>
       (<["Authorization" := ["Bearer " +:+ key]]> ∅)).

(** [s] begins with [p]. *)
Definition begins_with (p s : string) : Prop := ∃ rest, s = p +:+ rest.

(** The error of a result. *)
Definition failure {R} (r : R + error) : error :=
  match r with
  | inl _ => nil
  | inr err => err
  end.

Section calls.

Variable url_Parse : string → error.
Context {Time : Type}.
Variable Time_zero : Time.
Variable Time_UnmarshalJSON : string → Time → Time * error.
Variable Time_MarshalJSON : Time → json.Value + error.
Context {Any : Type}.
Variable Any_nil : Any.
Variable Any_of_JSON : json.Value → Any * error.

(** A call of an exported accessor of the billing service, with its
    arguments but for the context. *)
Inductive call : Type :=
  | call_CreatePlan (params : option CreatePlanParams)
  | call_ListPlans
  | call_GetPlan (id : string)
  | call_UpdatePlan (id : string) (params : option UpdatePlanParams)
  | call_DeletePlan (id : string)
  | call_CreatePrice (planID : string) (params : option CreatePriceParams)
  | call_ListPrices (planID : string)
  | call_ArchivePrice (planID priceID : string)
  | call_CreateEntitlement (planID : string) (params : option CreateEntitlementParams)
  | call_ListEntitlements (planID : string)
  | call_ArchiveEntitlement (planID entitlementID : string)
  | call_CreateCustomer (params : option CreateCustomerParams)
  | call_CreateCustomerForUser (userID : Z) (email name : string)
  | call_GetCustomer (id : string)
  | call_ListCustomers (params : option ListCustomersParams)
  | call_UpdateCustomer (id : string) (params : option UpdateCustomerParams)
  | call_DeleteCustomer (id : string)
  | call_CreateSubscription (params : option CreateSubscriptionParams)
  | call_CreateSubscriptionForWorkspace (customerID workspaceID : string)
  | call_CreateSubscriptionForGuestWorkspace (customerID workspaceID : string)
  | call_CreateSubscriptionForBasicPlan (customerID : string)
  | call_GetSubscription (id : string)
  | call_CancelSubscription (id : string)
  | call_CreateCheckoutLink (subscriptionID : string) (params : option CreateCheckoutLinkParams)
  | call_CheckEntitlement (params : option CheckEntitlementParams)
  | call_CheckEntitlementByKey (customerID entitlementKey : string)
  | call_RecordUsage (params : option (@RecordUsageParams Time))
  | call_RecordUsageByKey (subscriptionID productKey : string) (quantity : Z)
      (idempotencyKey : string)
  | call_GetUsageSummary (params : option GetUsageSummaryParams)
  | call_GetUsageSummaryByKey (subscriptionID productKey : string)
  | call_CreatePortalLink (customerID : string) (params : option CreatePortalLinkParams).

(** The call made, and the error it returns; [None] when it panics. *)
Definition run (ctx : Context) (c : call) : M (option error) :=
  match c with
  | call_CreatePlan params =>
      r ← CreatePlan url_Parse Time_zero Time_UnmarshalJSON ctx params;
      mret (Some (failure r))
  | call_ListPlans =>
      r ← ListPlans url_Parse Time_zero Time_UnmarshalJSON ctx; mret (Some (failure r))
  | call_GetPlan id =>
      r ← GetPlan url_Parse Time_zero Time_UnmarshalJSON ctx id; mret (Some (failure r))
  | call_UpdatePlan id params =>
      r ← UpdatePlan url_Parse Time_zero Time_UnmarshalJSON ctx id params;
      mret (Some (failure r))
  | call_DeletePlan id =>
      err ← DeletePlan url_Parse ctx id; mret (Some err)
  | call_CreatePrice planID params =>
      r ← CreatePrice url_Parse Time_zero Time_UnmarshalJSON ctx planID params;
      mret (Some (failure r))
  | call_ListPrices planID =>
      r ← ListPrices url_Parse Time_zero Time_UnmarshalJSON ctx planID;
      mret (Some (failure r))
  | call_ArchivePrice planID priceID =>
      err ← ArchivePrice url_Parse ctx planID priceID; mret (Some err)
  | call_CreateEntitlement planID params =>
      r ← CreateEntitlement url_Parse Time_zero Time_UnmarshalJSON ctx planID params;
      mret (Some (failure r))
  | call_ListEntitlements planID =>
      r ← ListEntitlements url_Parse Time_zero Time_UnmarshalJSON ctx planID;
      mret (Some (failure r))
  | call_ArchiveEntitlement planID entitlementID =>
      err ← ArchiveEntitlement url_Parse ctx planID entitlementID; mret (Some err)
  | call_CreateCustomer params =>
      r ← CreateCustomer url_Parse Time_zero Time_UnmarshalJSON ctx params;
      mret (Some (failure r))
  | call_CreateCustomerForUser userID email name =>
      r ← CreateCustomerForUser url_Parse Time_zero Time_UnmarshalJSON ctx userID email name;
      mret (Some r.2)
  | call_GetCustomer id =>
      r ← GetCustomer url_Parse Time_zero Time_UnmarshalJSON ctx id; mret (Some (failure r))
  | call_ListCustomers params =>
      r ← ListCustomers url_Parse Time_zero Time_UnmarshalJSON ctx params;
      mret (Some (failure r))
  | call_UpdateCustomer id params =>
      r ← UpdateCustomer url_Parse Time_zero Time_UnmarshalJSON ctx id params;
      mret (Some (failure r))
  | call_DeleteCustomer id =>
      err ← DeleteCustomer url_Parse ctx id; mret (Some err)
  | call_CreateSubscription params =>
      r ← CreateSubscription url_Parse Time_zero Time_UnmarshalJSON ctx params;
      mret (Some (failure r))
  | call_CreateSubscriptionForWorkspace customerID workspaceID =>
      r ← CreateSubscriptionForWorkspace url_Parse Time_zero Time_UnmarshalJSON ctx
            customerID workspaceID;
      mret (Some r.2)
  | call_CreateSubscriptionForGuestWorkspace customerID workspaceID =>
      r ← CreateSubscriptionForGuestWorkspace url_Parse Time_zero Time_UnmarshalJSON ctx
            customerID workspaceID;
      mret (Some r.2)
  | call_CreateSubscriptionForBasicPlan customerID =>
      r ← CreateSubscriptionForBasicPlan url_Parse Time_zero Time_UnmarshalJSON ctx
            customerID;
      mret (Some r.2)
  | call_GetSubscription id =>
      r ← GetSubscription url_Parse Time_zero Time_UnmarshalJSON ctx id;
      mret (Some (failure r))
  | call_CancelSubscription id =>
      r ← CancelSubscription url_Parse Time_zero Time_UnmarshalJSON ctx id;
      mret (Some (failure r))
  | call_CreateCheckoutLink subscriptionID params =>
      r ← CreateCheckoutLink url_Parse Time_zero Time_UnmarshalJSON ctx subscriptionID
            params;
      mret (Some (failure r))
  | call_CheckEntitlement params =>
      r ← CheckEntitlement url_Parse Any_nil Any_of_JSON ctx params;
      mret (Some (failure r))
  | call_CheckEntitlementByKey customerID entitlementKey =>
      r ← CheckEntitlementByKey url_Parse Any_nil Any_of_JSON ctx customerID entitlementKey;
      mret (Some (failure r))
  | call_RecordUsage params =>
      r ← RecordUsage url_Parse Time_zero Time_UnmarshalJSON Time_MarshalJSON ctx params;
      mret (Some (failure r))
  | call_RecordUsageByKey subscriptionID productKey quantity idempotencyKey =>
      r ← RecordUsageByKey url_Parse Time_zero Time_UnmarshalJSON Time_MarshalJSON ctx
            subscriptionID productKey quantity idempotencyKey;
      mret (Some (failure r))
  | call_GetUsageSummary params =>
      r ← GetUsageSummary url_Parse ctx params; mret (failure <$> r)
  | call_GetUsageSummaryByKey subscriptionID productKey =>
      r ← GetUsageSummaryByKey url_Parse ctx subscriptionID productKey;
      mret (failure <$> r)
  | call_CreatePortalLink customerID params =>
      r ← CreatePortalLink url_Parse Time_zero Time_UnmarshalJSON ctx customerID params;
      mret (Some (failure r))
  end.

(** The endpoint of each call: the method, the path under the base URL and
    the body of the request it makes. *)
Definition method_of (c : call) : string :=
  match c with
  | call_ListPlans | call_GetPlan _ | call_ListPrices _ | call_ListEntitlements _
  | call_GetCustomer _ | call_ListCustomers _ | call_GetSubscription _
  | call_GetUsageSummary _ | call_GetUsageSummaryByKey _ _ => "GET"
  | call_CreatePlan _ | call_CreatePrice _ _ | call_CreateEntitlement _ _
  | call_CreateCustomer _ | call_CreateCustomerForUser _ _ _ | call_CreateSubscription _
  | call_CreateSubscriptionForWorkspace _ _ | call_CreateSubscriptionForGuestWorkspace _ _
  | call_CreateSubscriptionForBasicPlan _ | call_CreateCheckoutLink _ _
  | call_CheckEntitlement _ | call_CheckEntitlementByKey _ _ | call_RecordUsage _
  | call_RecordUsageByKey _ _ _ _ | call_CreatePortalLink _ _ => "POST"
  | call_UpdatePlan _ _ | call_UpdateCustomer _ _ => "PATCH"
  | call_DeletePlan _ | call_ArchivePrice _ _ | call_ArchiveEntitlement _ _
  | call_DeleteCustomer _ | call_CancelSubscription _ => "DELETE"
  end.

(** The query of the usage summary. *)
Definition usage_query (subscriptionID productKey : string) : string :=
  "?subscription_id=" +:+ subscriptionID
  +:+ (if String.eqb productKey "" then "" else "&product_key=" +:+ productKey).

Definition path_of (c : call) : string :=
  match c with
  | call_CreatePlan _ | call_ListPlans => "/billing/v1/plans"
  | call_GetPlan id | call_UpdatePlan id _ | call_DeletePlan id => "/billing/v1/plans/" +:+ id
  | call_CreatePrice planID _ | call_ListPrices planID =>
      "/billing/v1/plans/" +:+ planID +:+ "/prices"
  | call_ArchivePrice planID priceID =>
      "/billing/v1/plans/" +:+ planID +:+ "/prices/" +:+ priceID
  | call_CreateEntitlement planID _ | call_ListEntitlements planID =>
      "/billing/v1/plans/" +:+ planID +:+ "/entitlements"
  | call_ArchiveEntitlement planID entitlementID =>
      "/billing/v1/plans/" +:+ planID +:+ "/entitlements/" +:+ entitlementID
  | call_CreateCustomer _ | call_CreateCustomerForUser _ _ _ => "/billing/v1/customers"
  | call_ListCustomers params => ListCustomers_path params
  | call_GetCustomer id | call_UpdateCustomer id _ | call_DeleteCustomer id =>
      "/billing/v1/customers/" +:+ id
  | call_CreateSubscription _ | call_CreateSubscriptionForWorkspace _ _
  | call_CreateSubscriptionForGuestWorkspace _ _ | call_CreateSubscriptionForBasicPlan _ =>
      "/billing/v1/subscriptions"
  | call_GetSubscription id | call_CancelSubscription id =>
      "/billing/v1/subscriptions/" +:+ id
  | call_CreateCheckoutLink subscriptionID _ =>
      "/billing/v1/subscriptions/" +:+ subscriptionID +:+ "/checkout-link"
  | call_CheckEntitlement _ | call_CheckEntitlementByKey _ _ =>
      "/billing/v1/entitlements/check"
  | call_RecordUsage _ | call_RecordUsageByKey _ _ _ _ => "/billing/v1/usage"
  | call_GetUsageSummary None => "/billing/v1/usage"
  | call_GetUsageSummary (Some p) =>
      "/billing/v1/usage"
      +:+ usage_query (GetUsageSummaryParams_SubscriptionID p)
            (GetUsageSummaryParams_ProductKey p)
  | call_GetUsageSummaryByKey subscriptionID productKey =>
      "/billing/v1/usage" +:+ usage_query subscriptionID productKey
  | call_CreatePortalLink customerID _ =>
      "/billing/v1/customers/" +:+ customerID +:+ "/portal-link"
  end.

(** The parameters the subscription wrappers fill in. *)
Definition plan_subscription (customerID planKey priceKey : string)
    : CreateSubscriptionParams :=
  {| CreateSubscriptionParams_CustomerID := customerID;
     CreateSubscriptionParams_PriceID := "";
     CreateSubscriptionParams_PlanKey := planKey;
     CreateSubscriptionParams_PriceKey := priceKey;
     CreateSubscriptionParams_Quantity := 0;
     CreateSubscriptionParams_Metadata := None |}.

Definition body_of (c : call) : option string + error :=
  match c with
  | call_CreatePlan params => marshalled (Some params)
  | call_UpdatePlan _ params => marshalled (Some params)
  | call_CreatePrice _ params => marshalled (Some params)
  | call_CreateEntitlement _ params => marshalled (Some params)
  | call_CreateCustomer params => marshalled (Some params)
  | call_CreateCustomerForUser userID email name =>
      marshalled
        (Some (Some {| CreateCustomerParams_Email := email;
                       CreateCustomerParams_Name := name;
                       CreateCustomerParams_ExternalID := "user:" +:+ pretty userID;
                       CreateCustomerParams_Metadata := None |}))
  | call_UpdateCustomer _ params => marshalled (Some params)
  | call_CreateSubscription params => marshalled (Some params)
  | call_CreateSubscriptionForWorkspace customerID _ =>
      marshalled (Some (Some (plan_subscription customerID "free" "free_monthly_EUR")))
  | call_CreateSubscriptionForGuestWorkspace customerID _ =>
      marshalled (Some (Some (plan_subscription customerID "guest" "guest_monthly_EUR")))
  | call_CreateSubscriptionForBasicPlan customerID =>
      marshalled (Some (Some (plan_subscription customerID "basic" "basic_monthly_EUR")))
  | call_CreateCheckoutLink _ params => marshalled (Some params)
  | call_CheckEntitlement params => marshalled (Some params)
  | call_CheckEntitlementByKey customerID entitlementKey =>
      marshalled
        (Some (Some {| CheckEntitlementParams_CustomerID := customerID;
                       CheckEntitlementParams_EntitlementKey := entitlementKey |}))
  | call_RecordUsage params =>
      marshalled (MB := @ptr_Marshaler _ (RecordUsageParams_Marshaler Time_MarshalJSON))
        (Some params)
  | call_RecordUsageByKey subscriptionID productKey quantity idempotencyKey =>
      marshalled (MB := @ptr_Marshaler _ (RecordUsageParams_Marshaler Time_MarshalJSON))
        (Some (Some {| RecordUsageParams_SubscriptionID := subscriptionID;
                       RecordUsageParams_ProductKey := productKey;
                       RecordUsageParams_Quantity := quantity;
                       RecordUsageParams_Timestamp := None;
                       RecordUsageParams_IdempotencyKey := idempotencyKey |}))
  | call_CreatePortalLink _ params => marshalled (Some params)
  | call_ListPlans | call_GetPlan _ | call_DeletePlan _ | call_ListPrices _
  | call_ArchivePrice _ _ | call_ListEntitlements _ | call_ArchiveEntitlement _ _
  | call_GetCustomer _ | call_ListCustomers _ | call_DeleteCustomer _
  | call_GetSubscription _ | call_CancelSubscription _ | call_GetUsageSummary _
  | call_GetUsageSummaryByKey _ _ => inl None
  end.

(** The call dereferences a nil pointer. *)
Definition panics (c : call) : bool :=
  match c with
  | call_GetUsageSummary None => true
  | _ => false
  end.

(** The call has parameters to write as a body, and they are nil. *)
Definition nil_parameters (c : call) : bool :=
  match c with
  | call_CreatePlan None | call_UpdatePlan _ None | call_CreatePrice _ None
  | call_CreateEntitlement _ None | call_CreateCustomer None | call_UpdateCustomer _ None
  | call_CreateSubscription None | call_CreateCheckoutLink _ None
  | call_CheckEntitlement None | call_RecordUsage None | call_CreatePortalLink _ None => true
  | _ => false
  end.

(** The format with which a wrapper wraps the error of the accessor it
    calls. *)
Definition rewrapped (c : call) : option string :=
  match c with
  | call_CreateCustomerForUser _ _ _ => Some "failed to create billing customer for user: %w"
  | call_CreateSubscriptionForWorkspace _ _ | call_CreateSubscriptionForGuestWorkspace _ _
  | call_CreateSubscriptionForBasicPlan _ => Some "failed to create subscription: %w"
  | _ => None
  end.

(** The error a call returns for the error [err] of [request]. *)
Definition relayed (c : call) (err : error) : error :=
  match rewrapped c with
  | Some format =>
      match err with
      | nil => nil
      | _ => wrapError format err
      end
  | None => err
  end.

End calls.

(** *** The members of the responses *)

(** The string the JSON object [ms] gives for [name], when [ms] has no
    member so named, is the default. *)
Definition unnamed (name : string) (ms : list (string * json.Value)) : Prop :=
  ∀ kv, kv ∈ ms → names name kv.1 = false.

(** *** Round trips *)

(** Every byte of [s] is an ASCII byte. *)
Fixpoint ascii_only (s : string) : bool :=
  match s with
  | "" => true
  | String c r => (json.byte c <? 128)%Z && ascii_only r
  end.

(** The range of [int64]. *)
Definition int64 (z : Z) : Prop := (- 2 ^ 63 ≤ z < 2 ^ 63)%Z.

(** The transport answers [req] with a status below 400 and the body it
    was sent. *)
Definition echoed (w : World) (req : http.Request) : Prop :=
  ∃ resp,
    http.RoundTrip (httpClient (client w)) (wire w) req = inl resp
    ∧ http.ReadAll resp = inl (default "" (http.Body req))
    ∧ (http.StatusCode resp < 400)%Z.

(** What [json.quote] writes for one ASCII byte. *)
Definition piece (c : ascii) : string :=
  if json.html_safe c then String c "" else json.escape_byte c.

Fixpoint all_digits (s : string) : bool :=
  match s with
  | "" => true
  | String c r => json.is_digit c && all_digits r
  end.

(** The text after a value inside an object: a comma or a closing brace. *)
Definition closes (rest : string) : Prop :=
  ∃ c r, rest = String c r ∧ (c = "," ∨ c = "}")%char.

(** A string, a number or a boolean as [json.Marshal] writes it, and an
    object whose members hold such values under names so written. *)
Definition scalar (v : json.Value) : Prop :=
  match v with
  | json.Str raw => ∃ s, ascii_only s = true ∧ raw = json.quote s
  | json.Number lit => ∃ z : Z, lit = pretty z
  | json.Bool _ => True
  | _ => False
  end.

Definition flat (ms : list (string * json.Value)) : Prop :=
  Forall (λ kv, (∃ name, ascii_only name = true ∧ kv.1 = json.quote name) ∧ scalar kv.2) ms.

Definition render_member (kv : string * json.Value) : string :=
  json.in_quotes kv.1 +:+ ":" +:+ json.render kv.2.

(** A value one level below the top: a scalar, or an object of scalars, as
    a map of strings is written. *)
Definition written (v : json.Value) : Prop :=
  match v with
  | json.Object ms => flat ms
  | _ => scalar v
  end.

Definition flat1 (ms : list (string * json.Value)) : Prop :=
  Forall (λ kv, (∃ name, ascii_only name = true ∧ kv.1 = json.quote name) ∧ written kv.2) ms.

(** A map whose keys and values are ASCII; the nil map is one. *)
Definition ascii_map (m : option (gmap string string)) : Prop :=
  match m with
  | Some m' => map_Forall (λ k v, ascii_only k = true ∧ ascii_only v = true) m'
  | None => True
  end.

(** What is left of a map written under [omitempty] and read into a nil
    map: a map without entries is not written. *)
Definition kept (m : option (gmap string string)) : option (gmap string string) :=
  match m with
  | Some m' => if bool_decide (size m' = 0%nat) then None else m
  | None => None
  end.

(** *** Decoders and tables, for the proofs *)

(** A decoder that is clean after a step was clean before it: errors are
    kept. *)
Definition sticky {T} (d : json.Decoder T) : Prop :=
  ∀ v t st, clean (d v t st).2 → clean st.

(** The field [f] stores a string as [dec_string] does, where [get] reads. *)
Definition reads_string {T} (get : T → string) (f : json.field T) : Prop :=
  ∀ v t st,
    get (json.fstore f v t st).1 = (json.dec_string v (get t) st).1
    ∧ (json.fstore f v t st).2 = (json.dec_string v (get t) st).2.

(** The field [f] leaves alone what [get] reads. *)
Definition leaves {T} (get : T → string) (f : json.field T) : Prop :=
  ∀ v t st, get (json.fstore f v t st).1 = get t.

(** In the table [fields], the keys that name [name] select a field that
    stores where [get] reads, and no other key touches it. *)
Definition tracked {T} (fields : list (json.field T)) (name : string) (get : T → string)
    : Prop :=
  ∀ key,
    match json.find_field fields key with
    | Some f =>
        sticky (json.fstore f)
        ∧ if String.eqb (json.foldName name) (json.foldName key)
          then reads_string get f else leaves get f
    | None => String.eqb (json.foldName name) (json.foldName key) = false
    end.

(** The decoder [d], when it meets no error, stores what [says] reads. *)
Definition faithful {A} (d : json.Decoder A) (says : json.Value → A → A) : Prop :=
  ∀ v cur st, clean (d v cur st).2 → (d v cur st).1 = says v cur.

(** The field [f] stores as [d] does, where [get] reads. *)
Definition reads {T A} (get : T → A) (d : json.Decoder A) (f : json.field T) : Prop :=
  ∀ v t st,
    get (json.fstore f v t st).1 = (d v (get t) st).1
    ∧ (json.fstore f v t st).2 = (d v (get t) st).2.

(** The field [f] leaves alone what [get] reads. *)
Definition keeps {T A} (get : T → A) (f : json.field T) : Prop :=
  ∀ v t st, get (json.fstore f v t st).1 = get t.

(** In the table [fields], the keys that name [name] select a field that
    stores as [d] does where [get] reads, and no other key touches it. *)
Definition holds {T A} (fields : list (json.field T)) (name : string) (get : T → A)
    (d : json.Decoder A) : Prop :=
  ∀ key,
    match json.find_field fields key with
    | Some f =>
        sticky (json.fstore f)
        ∧ if String.eqb (json.foldName name) (json.foldName key)
          then reads get d f else keeps get f
    | None => String.eqb (json.foldName name) (json.foldName key) = false
    end.

(** *** Sample data *)

(** A [url.Parse] that accepts every URL. *)
Definition sample_url_Parse : string → error := λ _, nil.

(** A stand-in for [time.Time] that keeps the text of a JSON string and
    checks nothing of it; [null] leaves the receiver as it is. *)
Definition sample_Time_UnmarshalJSON (data : string) (t : string) : string * error :=
  if String.eqb data "null" then (t, nil)
  else match data with
       | String q r =>
           if (json.byte q =? 34)%Z then (json.stake (String.length r - 1) r, nil)
           else (t, otherError "Time.UnmarshalJSON: input is not a JSON string")
       | "" => (t, otherError "Time.UnmarshalJSON: input is not a JSON string")
       end.

(** The customer and subscription destinations over that stand-in. *)
Definition sample_Customer_zero : Customer := Customer_zero "".
Definition sample_Customer_Unmarshaler : json.Unmarshaler Customer :=
  Customer_Unmarshaler "" sample_Time_UnmarshalJSON.

(** A transport that answers every request with the same response. *)
Definition always (status : Z) (body : string)
    : list http.Request → http.Request → http.Response + error :=
  λ _ _, inl {| http.StatusCode := status; http.ReadAll := inl body |}.

Definition sample_world (status : Z) (body : string) : World :=
  NewClient (always status body) "tedo_live_xxx".

(** The request [request] builds in a sample world. *)
Definition sample_request (method path : string) (body : option string) : http.Request :=
  {| http.Method := method;
     http.URL := defaultBaseURL +:+ path;
     http.Header := <["Accept" := ["application/json"]]>
                      (<["Content-Type" := ["application/json"]]>
                         (<["Authorization" := ["Bearer tedo_live_xxx"]]> ∅));
     http.Body := body;
     http.Ctx := ctx_value 0 |}.

(** The error body of a missing customer, with the code [not_found] and the
    message [no such customer]. *)
Definition sample_not_found : string :=
  "{" +:+ json.in_quotes "code" +:+ ":" +:+ json.in_quotes "not_found" +:+ ","
  +:+ json.in_quotes "message" +:+ ":" +:+ json.in_quotes "no such customer" +:+ "}".

(** A customer as the server returns it. *)
Definition sample_customer : string :=
  "{" +:+ json.in_quotes "id" +:+ ":" +:+ json.in_quotes "cus_1" +:+ ","
  +:+ json.in_quotes "email" +:+ ":" +:+ json.in_quotes "a@b.com" +:+ "}".

(** A subscription as the server returns it. *)
Definition sample_subscription : string :=
  "{" +:+ json.in_quotes "id" +:+ ":" +:+ json.in_quotes "sub_1" +:+ ","
  +:+ json.in_quotes "customer_id" +:+ ":" +:+ json.in_quotes "cus_1" +:+ "}".

(** A customer with metadata, a subscription and a creation time. *)
Definition sample_customer_full : string :=
  "{" +:+ json.in_quotes "id" +:+ ":" +:+ json.in_quotes "cus_1" +:+ ","
  +:+ json.in_quotes "email" +:+ ":" +:+ json.in_quotes "a@b.com" +:+ ","
  +:+ json.in_quotes "metadata" +:+ ":{" +:+ json.in_quotes "tier" +:+ ":"
  +:+ json.in_quotes "gold" +:+ "},"
  +:+ json.in_quotes "subscriptions" +:+ ":[{" +:+ json.in_quotes "id" +:+ ":"
  +:+ json.in_quotes "sub_1" +:+ "," +:+ json.in_quotes "quantity" +:+ ":3}],"
  +:+ json.in_quotes "created_at" +:+ ":" +:+ json.in_quotes "2024-05-01T00:00:00Z" +:+ "}".

(** A transport of a server that refuses to create customers and accepts
    every other request: 404 with the error body for the customers path, 200
    with a subscription for the rest. *)
Definition no_customers : list http.Request → http.Request → http.Response + error :=
  λ _ req,
    if String.eqb (http.URL req) (defaultBaseURL +:+ "/billing/v1/customers")
    then inl {| http.StatusCode := 404; http.ReadAll := inl sample_not_found |}
    else inl {| http.StatusCode := 200; http.ReadAll := inl sample_subscription |}.

(** A stand-in for [Time.MarshalJSON]: the text as a JSON string, and an
    error for a year past 9999, which the method of [time.Time] refuses. *)
Definition sample_Time_MarshalJSON (t : string) : json.Value + error :=
  if String.eqb t "10000-01-01T00:00:00Z"
  then inr (otherError "Time.MarshalJSON: year outside of range [0,9999]")
  else inl (json.Str (json.quote t)).

(** A stand-in for the values of [any]: the JSON value itself. *)
Definition sample_Any_of_JSON (v : json.Value) : json.Value * error := (v, nil).

(** The calls over the stand-ins. *)
Definition sample_run (ctx : Context) (c : call) : M (option error) :=
  run sample_url_Parse "" sample_Time_UnmarshalJSON sample_Time_MarshalJSON json.Null
    sample_Any_of_JSON ctx c.

(** An error body in another shape: an object with the one member [error]. *)
Definition sample_other_error : string :=
  "{" +:+ json.in_quotes "error" +:+ ":" +:+ json.in_quotes "boom" +:+ "}".

(** A transport that answers 201 with the body it was sent. *)
Definition echo : list http.Request → http.Request → http.Response + error :=
  λ _ req, inl {| http.StatusCode := 201;
                  http.ReadAll := inl (default "" (http.Body req)) |}.

(** * Properties *)

(** ** Classification *)

Lemma nil_deref_panics :
  IsNotFound (APIError None) = None ∧ IsValidationError (APIError None) = None
  ∧ IsUnauthorized (APIError None) = None.
Proof. repeat split. Qed.

(** C3: each helper answers true exactly on a structured API error with its
    status code (404, 400, 401), and all three answer false, without a panic,
    on every error that is not of the dynamic type of the API error: the nil
    error, a wrapping error, an error of another package. *)
Theorem classification_by_status (e : error) :
  (IsNotFound e = Some true ↔ ∃ x, e = APIError (Some x) ∧ StatusCode x = 404%Z)
  ∧ (IsValidationError e = Some true ↔ ∃ x, e = APIError (Some x) ∧ StatusCode x = 400%Z)
  ∧ (IsUnauthorized e = Some true ↔ ∃ x, e = APIError (Some x) ∧ StatusCode x = 401%Z)
  ∧ (is_Error_kind e = false →
       IsNotFound e = Some false ∧ IsValidationError e = Some false
       ∧ IsUnauthorized e = Some false)
  ∧ (∀ x, e = APIError (Some x) →
       IsNotFound e = Some (StatusCode x =? 404)%Z
       ∧ IsValidationError e = Some (StatusCode x =? 400)%Z
       ∧ IsUnauthorized e = Some (StatusCode x =? 401)%Z).
Proof.
  assert (Hiff : ∀ code f,
    (∀ err, f err = match err with
                    | APIError (Some x) => Some (StatusCode x =? code)%Z
                    | APIError None => None
                    | _ => Some false
                    end) →
    f e = Some true ↔ ∃ x, e = APIError (Some x) ∧ StatusCode x = code).
  { intros code f Hf. rewrite Hf. split.
    - destruct e as [|[x|]| |]; try discriminate.
      intros [= H]. exists x. split; [done|]. by apply Z.eqb_eq.
    - intros (x & -> & <-). by rewrite Z.eqb_refl. }
  split; [by apply Hiff|]. split; [by apply Hiff|]. split; [by apply Hiff|].
  split.
  - destruct e as [|[x|]| |]; simpl; try discriminate; done.
  - intros x ->. done.
Qed.

(** ** The model of encoding/json: fuel *)

Lemma length_sdrop n s : (String.length (json.sdrop n s) ≤ String.length s)%nat.
Proof.
  revert s. induction n as [|n IH]; intros [|c s]; simpl; try lia.
  specialize (IH s). lia.
Qed.

(** More fuel than the length of the text changes nothing. *)
Lemma quote_go_fuel f1 : ∀ f2 s,
  (String.length s ≤ f1)%nat → (String.length s ≤ f2)%nat →
  json.quote_go f1 s = json.quote_go f2 s.
Proof.
  induction f1 as [|f1 IH]; intros f2 s H1 H2.
  - destruct s; [|simpl in H1; lia]. by destruct f2.
  - destruct s as [|c r]; [by destruct f2|].
    destruct f2 as [|f2]; [simpl in H2; lia|].
    simpl in H1, H2. cbn [json.quote_go].
    destruct (json.byte c <? 128)%Z.
    + f_equal. apply IH; lia.
    + destruct (json.utf8_width (String c r)) as [|n].
      * f_equal. apply IH; lia.
      * f_equal. pose proof (length_sdrop n r). apply IH; lia.
Qed.

Lemma quote_fuel s n : json.quote_go (String.length s + n) s = json.quote s.
Proof. apply quote_go_fuel; lia. Qed.

Lemma unquote_go_fuel f1 : ∀ f2 s,
  (String.length s ≤ f1)%nat → (String.length s ≤ f2)%nat →
  json.unquote_go f1 s = json.unquote_go f2 s.
Proof.
  assert (Hhex : ∀ s r rest, json.hex4 s = Some (r, rest) →
                   (String.length rest ≤ String.length s)%nat).
  { intros s r rest. unfold json.hex4.
    destruct s as [|a [|b [|c [|d s]]]]; try done.
    destruct (json.hexval a), (json.hexval b), (json.hexval c), (json.hexval d); try done.
    intros [= _ <-]. simpl. lia. }
  assert (Hu : ∀ s r rest, json.uescape s = Some (r, rest) →
                   (String.length rest ≤ String.length s)%nat).
  { intros s r rest. unfold json.uescape. destruct s as [|b [|u s]]; try done.
    destruct (_ && _); [|done]. intros H%Hhex. simpl. lia. }
  induction f1 as [|f1 IH]; intros f2 s H1 H2.
  - destruct s; [|simpl in H1; lia]. by destruct f2.
  - destruct s as [|c r]; [by destruct f2|].
    destruct f2 as [|f2]; [simpl in H2; lia|].
    simpl in H1, H2. cbn [json.unquote_go].
    destruct (json.byte c =? 92)%Z.
    + destruct r as [|e r']; [done|]. simpl in H1, H2.
      destruct (json.byte e =? 117)%Z.
      * destruct (json.hex4 r') as [[r1 rest]|] eqn:E1; [|done].
        apply Hhex in E1.
        destruct (json.is_surrogate r1).
        -- destruct (json.uescape rest) as [[r2 rest']|] eqn:E2.
           ++ apply Hu in E2.
              destruct (json.utf16_pair r1 r2); f_equal; apply IH; lia.
           ++ f_equal; apply IH; lia.
        -- f_equal; apply IH; lia.
      * destruct (json.simple_escape e); [|done]. f_equal; apply IH; lia.
    + destruct (_ || _); [done|].
      destruct (json.utf8_width (String c r)) as [|n].
      * f_equal; apply IH; lia.
      * f_equal. pose proof (length_sdrop n r). apply IH; lia.
Qed.

Lemma unquote_fuel s n : json.unquote_go (String.length s + n) s = json.unquote s.
Proof. apply unquote_go_fuel; lia. Qed.

Lemma length_skip_space s : (String.length (json.skip_space s) ≤ String.length s)%nat.
Proof. induction s as [|c s IH]; simpl; [lia|]. destruct (json.is_space c); simpl; lia. Qed.

Lemma skip_space_cons s c r :
  json.skip_space s = String c r → (String.length r < String.length s)%nat.
Proof. intros H. pose proof (length_skip_space s) as Hl. rewrite H in Hl. simpl in Hl. lia. Qed.

Lemma scan_string_shorter s raw rest :
  json.scan_string s = Some (raw, rest) → (String.length rest < String.length s)%nat.
Proof.
  assert (H : ∀ n s raw rest, (String.length s ≤ n)%nat →
                json.scan_string s = Some (raw, rest) →
                (String.length rest < String.length s)%nat); [|by apply (H (String.length s))].
  clear. intros n. induction n as [|n IH]; intros s raw rest Hn.
  { destruct s; [done|simpl in Hn; lia]. }
  destruct s as [|c r]; [done|]. cbn [json.scan_string]. simpl in Hn.
  destruct (json.byte c =? 34)%Z; [intros [= _ <-]; simpl; lia|].
  destruct (json.byte c =? 92)%Z.
  - destruct r as [|e r']; [done|].
    destruct (if (json.byte e =? 117)%Z then _ else _); [|done].
    destruct (json.scan_string r') as [[raw' rest']|] eqn:E; [|done].
    intros [= _ <-]. apply IH in E; simpl in *; lia.
  - destruct (json.byte c <? 32)%Z; [done|].
    destruct (json.scan_string r) as [[raw' rest']|] eqn:E; [|done].
    intros [= _ <-]. apply IH in E; simpl in *; lia.
Qed.

Lemma span_digits_shorter s ds rest :
  json.span_digits s = (ds, rest) → (String.length rest ≤ String.length s)%nat.
Proof.
  revert ds rest. induction s as [|c s IH]; intros ds rest; simpl.
  - intros [= _ <-]. simpl. lia.
  - destruct (json.is_digit c).
    + destruct (json.span_digits s) as [ds' rest'] eqn:E. intros [= _ <-].
      specialize (IH _ _ eq_refl). lia.
    + intros [= _ <-]. simpl. lia.
Qed.

Lemma scan_number_shorter s lit rest :
  json.scan_number s = Some (lit, rest) → (String.length rest < String.length s)%nat.
Proof.
  unfold json.scan_number.
  assert (Hint : ∀ s1 i s2, json.scan_int_part s1 = Some (i, s2) →
                   (String.length s2 < String.length s1)%nat).
  { intros s1 i s2. unfold json.scan_int_part. destruct s1 as [|c r]; [done|].
    destruct (json.byte c =? 48)%Z; [intros [= _ <-]; simpl; lia|].
    destruct (json.is_digit c); [|done].
    destruct (json.span_digits r) as [ds rest'] eqn:E. intros [= _ <-].
    apply span_digits_shorter in E. simpl. lia. }
  assert (Hfrac : ∀ s1 f s2, json.scan_frac_part s1 = Some (f, s2) →
                   (String.length s2 ≤ String.length s1)%nat).
  { intros s1 f s2. unfold json.scan_frac_part. destruct s1 as [|c r]; [by intros [= _ <-]|].
    destruct (json.byte c =? 46)%Z; [|by intros [= _ <-]].
    destruct (json.span_digits r) as [ds rest'] eqn:E.
    apply span_digits_shorter in E. destruct ds; [done|]. intros [= _ <-]. simpl. lia. }
  assert (Hexp : ∀ s1 e s2, json.scan_exp_part s1 = Some (e, s2) →
                   (String.length s2 ≤ String.length s1)%nat).
  { intros s1 e s2. unfold json.scan_exp_part. destruct s1 as [|c r]; [by intros [= _ <-]|].
    destruct (_ || _); [|by intros [= _ <-]].
    assert (∃ sign r1, (match r with
                        | String g r' =>
                            if ((json.byte g =? 43) || (json.byte g =? 45))%Z
                            then (String g "", r') else ("", r)
                        | "" => ("", "")
                        end) = (sign, r1) ∧ (String.length r1 ≤ String.length r)%nat)
      as (sign & r1 & -> & Hr1).
    { destruct r as [|g r']; [by eexists _, _|].
      destruct (_ || _); eexists _, _; split; try done; simpl; lia. }
    destruct (json.span_digits r1) as [ds rest'] eqn:E.
    apply span_digits_shorter in E. destruct ds; [done|]. intros [= _ <-]. simpl. lia. }
  assert (∃ sign s1, (match s with
                      | String c r => if (json.byte c =? 45)%Z then ("-", r) else ("", s)
                      | "" => ("", "")
                      end) = (sign, s1) ∧ (String.length s1 ≤ String.length s)%nat)
    as (sign & s1 & -> & Hs1).
  { destruct s as [|c r]; [by eexists _, _|].
    destruct (_ =? _)%Z; eexists _, _; split; try done; simpl; lia. }
  destruct (json.scan_int_part s1) as [[i s2]|] eqn:E1; [|done]. simpl.
  destruct (json.scan_frac_part s2) as [[f s3]|] eqn:E2; [|done]. simpl.
  destruct (json.scan_exp_part s3) as [[e s4]|] eqn:E3; [|done]. simpl.
  intros [= _ <-]. apply Hint in E1. apply Hfrac in E2. apply Hexp in E3. lia.
Qed.

Lemma after_prefix_shorter w s rest :
  w ≠ "" → json.after_prefix w s = Some rest → (String.length rest < String.length s)%nat.
Proof.
  assert (H : ∀ w s rest, json.after_prefix w s = Some rest →
                (String.length rest ≤ String.length s)%nat).
  { clear. intros w. induction w as [|a w IH]; intros s rest; simpl.
    - by intros [= ->].
    - destruct s as [|b s]; [done|]. destruct (Ascii.eqb a b); [|done].
      intros H%IH. simpl. lia. }
  destruct w as [|a w]; [done|]. intros _. simpl.
  destruct s as [|b s]; [done|]. destruct (Ascii.eqb a b); [|done].
  intros Hr%H. simpl. lia.
Qed.

Ltac scan_step := cbn [json.scan_value json.scan_members json.scan_elems].

Lemma scan_shorter f : ∀ d s,
  (∀ v rest, json.scan_value f d s = Some (v, rest) →
     (String.length rest < String.length s)%nat)
  ∧ (∀ ms rest, json.scan_members f d s = Some (ms, rest) →
       (String.length rest < String.length s)%nat)
  ∧ (∀ vs rest, json.scan_elems f d s = Some (vs, rest) →
       (String.length rest < String.length s)%nat).
Proof.
  induction f as [|f IH]; intros d s; [by repeat split|].
  repeat apply conj.
  - intros v rest. scan_step.
    destruct (json.skip_space s) as [|c r] eqn:Es; [done|].
    apply skip_space_cons in Es as Hr.
    destruct (json.byte c =? 123)%Z.
    { destruct (_ <=? _)%N; [done|].
      destruct (json.skip_space r) as [|c' r'] eqn:Er; [done|].
      apply skip_space_cons in Er as Hr'.
      destruct (json.byte c' =? 125)%Z; [intros [= _ <-]; lia|].
      destruct (json.scan_members f (d + 1) (String c' r')) as [[ms rest']|] eqn:E; [|done].
      simpl. intros [= _ <-]. apply IH in E. simpl in E. lia. }
    destruct (json.byte c =? 91)%Z.
    { destruct (_ <=? _)%N; [done|].
      destruct (json.skip_space r) as [|c' r'] eqn:Er; [done|].
      apply skip_space_cons in Er as Hr'.
      destruct (json.byte c' =? 93)%Z; [intros [= _ <-]; lia|].
      destruct (json.scan_elems f (d + 1) (String c' r')) as [[vs rest']|] eqn:E; [|done].
      simpl. intros [= _ <-]. apply IH in E. simpl in E. lia. }
    destruct (json.byte c =? 34)%Z.
    { destruct (json.scan_string r) as [[raw rest']|] eqn:E; [|done].
      simpl. intros [= _ <-]. apply scan_string_shorter in E. lia. }
    destruct (_ || _).
    { destruct (json.scan_number (String c r)) as [[lit rest']|] eqn:E; [|done].
      simpl. intros [= _ <-]. apply scan_number_shorter in E. simpl in E. lia. }
    destruct (json.after_prefix "true" (String c r)) as [rest'|] eqn:E1.
    { intros [= _ <-]. apply after_prefix_shorter in E1; [|done]. simpl in E1. lia. }
    destruct (json.after_prefix "false" (String c r)) as [rest'|] eqn:E2.
    { intros [= _ <-]. apply after_prefix_shorter in E2; [|done]. simpl in E2. lia. }
    destruct (json.after_prefix "null" (String c r)) as [rest'|] eqn:E3; [|done].
    intros [= _ <-]. apply after_prefix_shorter in E3; [|done]. simpl in E3. lia.
  - intros ms rest. scan_step.
    destruct (json.skip_space s) as [|q r] eqn:Es; [done|].
    apply skip_space_cons in Es as Hr.
    destruct (json.byte q =? 34)%Z; [|done].
    destruct (json.scan_string r) as [[k r1]|] eqn:E1; [|done]. simpl.
    apply scan_string_shorter in E1.
    destruct (json.skip_space r1) as [|colon r2] eqn:Es1; [done|].
    apply skip_space_cons in Es1 as Hr2.
    destruct (json.byte colon =? 58)%Z; [|done].
    destruct (json.scan_value f d r2) as [[v r3]|] eqn:E2; [|done]. simpl.
    apply IH in E2.
    destruct (json.skip_space r3) as [|dl r4] eqn:Es3; [done|].
    apply skip_space_cons in Es3 as Hr4.
    destruct (json.byte dl =? 44)%Z.
    { destruct (json.scan_members f d r4) as [[ms' rest']|] eqn:E3; [|done].
      simpl. intros [= _ <-]. apply IH in E3. lia. }
    destruct (json.byte dl =? 125)%Z; [|done]. intros [= _ <-]. lia.
  - intros vs rest. scan_step.
    destruct (json.scan_value f d s) as [[v r1]|] eqn:E1; [|done]. simpl.
    apply IH in E1.
    destruct (json.skip_space r1) as [|dl r2] eqn:Es1; [done|].
    apply skip_space_cons in Es1 as Hr2.
    destruct (json.byte dl =? 44)%Z.
    { destruct (json.scan_elems f d r2) as [[vs' rest']|] eqn:E2; [|done].
      simpl. intros [= _ <-]. apply IH in E2. lia. }
    destruct (json.byte dl =? 93)%Z; [|done]. intros [= _ <-]. lia.
Qed.

(** The result of the scanner does not depend on the fuel once there is
    enough of it for the length of the text. *)
Lemma scan_fuel f1 : ∀ f2 d s,
  ((2 * String.length s + 1 ≤ f1)%nat → (2 * String.length s + 1 ≤ f2)%nat →
     json.scan_value f1 d s = json.scan_value f2 d s)
  ∧ ((2 * String.length s ≤ f1)%nat → (2 * String.length s ≤ f2)%nat →
       json.scan_members f1 d s = json.scan_members f2 d s)
  ∧ ((2 * String.length s + 2 ≤ f1)%nat → (2 * String.length s + 2 ≤ f2)%nat →
       json.scan_elems f1 d s = json.scan_elems f2 d s).
Proof.
  induction f1 as [|f1 IH]; intros f2 d s.
  { repeat apply conj; try lia.
    intros H _. destruct s; [|simpl in H; lia]. by destruct f2. }
  repeat apply conj.
  - intros H1 H2. destruct f2 as [|f2]; [lia|]. scan_step.
    destruct (json.skip_space s) as [|c r] eqn:Es; [done|].
    apply skip_space_cons in Es as Hr.
    destruct (json.byte c =? 123)%Z.
    { destruct (_ <=? _)%N; [done|].
      destruct (json.skip_space r) as [|c' r'] eqn:Er; [done|].
      apply skip_space_cons in Er as Hr'.
      destruct (json.byte c' =? 125)%Z; [done|].
      destruct (IH f2 (d + 1)%N (String c' r')) as (_ & -> & _); simpl; try lia. done. }
    destruct (json.byte c =? 91)%Z; [|done].
    destruct (_ <=? _)%N; [done|].
    destruct (json.skip_space r) as [|c' r'] eqn:Er; [done|].
    apply skip_space_cons in Er as Hr'.
    destruct (json.byte c' =? 93)%Z; [done|].
    destruct (IH f2 (d + 1)%N (String c' r')) as (_ & _ & ->); simpl; try lia. done.
  - intros H1 H2. destruct f2 as [|f2].
    { destruct s; [|simpl in H2; lia]. done. }
    scan_step.
    destruct (json.skip_space s) as [|q r] eqn:Es; [done|].
    apply skip_space_cons in Es as Hr.
    destruct (json.byte q =? 34)%Z; [|done].
    destruct (json.scan_string r) as [[k r1]|] eqn:E1; [|done]. simpl.
    apply scan_string_shorter in E1.
    destruct (json.skip_space r1) as [|colon r2] eqn:Es1; [done|].
    apply skip_space_cons in Es1 as Hr2.
    destruct (json.byte colon =? 58)%Z; [|done].
    destruct (IH f2 d r2) as (-> & _ & _); try lia.
    destruct (json.scan_value f2 d r2) as [[v r3]|] eqn:E2; [|done]. simpl.
    apply scan_shorter in E2.
    destruct (json.skip_space r3) as [|dl r4] eqn:Es3; [done|].
    apply skip_space_cons in Es3 as Hr4.
    destruct (json.byte dl =? 44)%Z; [|done].
    destruct (IH f2 d r4) as (_ & -> & _); try lia. done.
  - intros H1 H2. destruct f2 as [|f2]; [lia|]. scan_step.
    destruct (IH f2 d s) as (-> & _ & _); try lia.
    destruct (json.scan_value f2 d s) as [[v r1]|] eqn:E1; [|done]. simpl.
    apply scan_shorter in E1.
    destruct (json.skip_space r1) as [|dl r2] eqn:Es1; [done|].
    apply skip_space_cons in Es1 as Hr2.
    destruct (json.byte dl =? 44)%Z; [|done].
    destruct (IH f2 d r2) as (_ & _ & ->); try lia. done.
Qed.

(** [parse] gives the scanner enough fuel: more of it gives the same
    value. *)
Lemma parse_fuel data n :
  json.scan_value (2 * String.length data + 2 + n) 0 data
  = json.scan_value (2 * String.length data + 2) 0 data.
Proof. apply scan_fuel; lia. Qed.

(** ** The transport core *)

Section transport_properties.

Context {B R : Type} `{!json.Marshaler B} `{!json.Unmarshaler R}.
Variable url_Parse : string → error.

Lemma request_outgoing ctx method path (body : option B) (result : option R) w :
  request url_Parse ctx method path body result w =
    match outgoing url_Parse (client w) ctx method path body with
    | inr err => ((result, err), w)
    | inl req =>
        (outcome result (http.RoundTrip (httpClient (client w)) (wire w) req), sent req w)
    end.
Proof.
  unfold request, outgoing, outcome, fmt_Errorf.
  destruct body as [b|]; [destruct (json.Marshal b) as [jsonBody|err]|]; try reflexivity.
  all: unfold mbind, M_bind, mret, M_ret, read, Do, sent; simpl.
  all: destruct (http.NewRequestWithContext _ _ _ _ _) as [req|err]; try reflexivity.
  all: destruct (http.RoundTrip _ _ _) as [resp|err]; try reflexivity.
  all: destruct (http.ReadAll resp) as [respBody|err]; try reflexivity.
  all: destruct (400 <=? http.StatusCode resp)%Z; try reflexivity.
  all: destruct result as [r|]; try reflexivity.
  all: destruct (0 <? String.length respBody)%nat; try reflexivity.
  all: destruct (json.Unmarshal respBody r) as [r' [| | |]]; reflexivity.
Qed.

End transport_properties.

(** ** The decoder *)

Lemma not_clean_saveError e st : e ≠ nil → ¬ clean (json.saveError e st).
Proof.
  intros He [Hs _]. unfold json.saveError in Hs.
  destruct (json.savedError st) eqn:E; simpl in Hs; congruence.
Qed.

Lemma not_clean_stop e st : e ≠ nil → ¬ clean (json.stop e st).
Proof. intros He [_ Hs]. simpl in Hs. congruence. Qed.

Lemma clean_not_stopped st : clean st → json.stopped st = false.
Proof. intros [_ H]. unfold json.stopped. by rewrite H. Qed.

Create HintDb sticky.

Ltac not_clean :=
  match goal with
  | H : clean (json.saveError _ _) |- _ => by apply not_clean_saveError in H
  | H : clean (json.stop _ _) |- _ => by apply not_clean_stop in H
  end.

Lemma sticky_dec_string : sticky json.dec_string.
Proof.
  intros v t st. unfold json.dec_string.
  destruct v as [| | |raw| |]; simpl; try done; try (intros; not_clean).
  destruct (json.unquote raw); simpl; [done|intros; not_clean].
Qed.

Lemma sticky_dec_int : sticky json.dec_int.
Proof.
  intros v t st. unfold json.dec_int.
  destruct v as [| |lit| | |]; simpl; try done; try (intros; not_clean).
  destruct (json.ParseInt lit); simpl; [done|intros; not_clean].
Qed.

Lemma sticky_dec_bool : sticky json.dec_bool.
Proof.
  intros v t st. unfold json.dec_bool.
  destruct v; simpl; try done; intros; not_clean.
Qed.

Lemma sticky_dec_unmarshaler {T} (um : string → T → T * error) :
  sticky (json.dec_unmarshaler um).
Proof.
  intros v t st. unfold json.dec_unmarshaler.
  destruct (um _ _) as [x e]. destruct e; simpl; try done; intros; not_clean.
Qed.

Lemma sticky_dec_ptr {T} (zero : T) d : sticky d → sticky (json.dec_ptr zero d).
Proof.
  intros Hd v t st. unfold json.dec_ptr.
  assert (H : ∀ v', clean (let '(x, st') := d v' (default zero t) st in (Some x, st')).2
                    → clean st).
  { intros v'. specialize (Hd v' (default zero t) st).
    by destruct (d v' (default zero t) st). }
  destruct v; simpl; try done; apply H.
Qed.

(** A fold whose steps are sticky is sticky. *)
Lemma foldl_sticky {A X} (f : A * json.dstate → X → A * json.dstate) xs :
  (∀ a st x, clean (f (a, st) x).2 → clean st) →
  ∀ a st, clean (foldl f (a, st) xs).2 → clean st.
Proof.
  intros Hf. induction xs as [|x xs IH]; intros a st; simpl; [done|].
  destruct (f (a, st) x) as [a' st'] eqn:E. intros H%IH.
  apply (Hf a st x). by rewrite E.
Qed.

Lemma sticky_dec_map : sticky json.dec_map.
Proof.
  intros v t st. unfold json.dec_map.
  destruct v as [| | | | |ms]; simpl; try done; try (intros; not_clean).
  match goal with |- context [foldl ?ff (?aa, st) ms] =>
    pose proof (foldl_sticky ff ms) as Hfold; destruct (foldl ff (aa, st) ms) as [m st'] eqn:E
  end.
  simpl. intros Hc. eapply Hfold; [|by erewrite E].
  intros a st0 [k x]. simpl.
  destruct (json.stopped st0) eqn:Es; [done|].
  destruct (json.unquote k); simpl; [|intros; not_clean].
  pose proof (sticky_dec_string x "" st0) as Hs.
  by destruct (json.dec_string x "" st0).
Qed.

Lemma sticky_dec_slice {T} (zero : T) d : sticky d → sticky (json.dec_slice zero d).
Proof.
  intros Hd v t st. unfold json.dec_slice.
  destruct v as [| | | |vs|]; simpl; try done; try (intros; not_clean).
  match goal with |- context [foldl ?ff (?aa, st, ?ii) vs] =>
    assert (Hfold : ∀ vs a st i, clean (foldl ff (a, st, i) vs).1.2 → clean st)
  end.
  { clear vs st. intros vs. induction vs as [|x vs IH]; intros a st i; simpl; [done|].
    destruct (json.stopped st) eqn:Es.
    - intros H. by apply IH in H.
    - pose proof (Hd x (default zero (t !! i)) st) as Hx.
      destruct (d x (default zero (t !! i)) st) as [y st']. intros H. apply IH in H. auto. }
  match goal with |- context [foldl ?ff ?aa vs] =>
    specialize (Hfold vs [] st 0%nat); destruct (foldl ff aa vs) as [[out st'] n]
  end.
  done.
Qed.

Lemma sticky_field_of {T A} name (get : T → A) set d :
  sticky d → sticky (json.fstore (json.field_of name get set d)).
Proof.
  intros Hd v t st. simpl. specialize (Hd v (get t) st).
  by destruct (d v (get t) st).
Qed.

Lemma find_field_in {T} (fields : list (json.field T)) key f :
  json.find_field fields key = Some f → f ∈ fields.
Proof.
  unfold json.find_field. intros H. apply list_elem_of_In.
  destruct (List.find _ fields) eqn:E.
  - injection H as <-. by apply List.find_some in E as [? _].
  - by apply List.find_some in H as [? _].
Qed.

Lemma sticky_dec_struct {T} ty (fields : list (json.field T)) :
  Forall (λ f, sticky (json.fstore f)) fields → sticky (json.dec_struct ty fields).
Proof.
  intros Hall v t st. unfold json.dec_struct.
  destruct v as [| | | | |ms]; simpl; try done; try (intros; not_clean).
  apply foldl_sticky. clear t st. intros t st [k x]. unfold json.store_member. simpl.
  destruct (json.stopped st); [done|].
  destruct (json.unquote k) as [key|]; simpl; [|intros; not_clean].
  destruct (json.find_field fields key) as [f|] eqn:E; [|done].
  apply find_field_in in E. rewrite Forall_forall in Hall. by apply Hall.
Qed.

#[local] Hint Resolve sticky_dec_string sticky_dec_int sticky_dec_bool sticky_dec_unmarshaler
  sticky_dec_ptr sticky_dec_map sticky_dec_slice sticky_field_of : sticky.

Lemma dec_string_clean v cur st :
  clean (json.dec_string v cur st).2 →
  (json.dec_string v cur st).1 =
    match v with json.Str raw => default cur (json.unquote raw) | _ => cur end.
Proof.
  unfold json.dec_string.
  destruct v as [| | |raw| |]; simpl; try done; try (intros; not_clean).
  destruct (json.unquote raw); simpl; [done|intros; not_clean].
Qed.

Lemma store_member_tracked {T} (fields : list (json.field T)) name get kv t st t' st' :
  tracked fields name get →
  json.store_member fields (t, st) kv = (t', st') →
  clean st' →
  clean st ∧ get t' = member_step name (get t) kv.
Proof.
  intros Htr Hstep Hc. destruct kv as [k v].
  unfold json.store_member in Hstep. unfold member_step, names. simpl in *.
  destruct (json.stopped st) eqn:Es.
  { injection Hstep as -> ->. by rewrite (clean_not_stopped _ Hc) in Es. }
  destruct (json.unquote k) as [key|]; [|injection Hstep as <- <-; not_clean].
  specialize (Htr key).
  destruct (json.find_field fields key) as [f|].
  - destruct Htr as [Hst Hf].
    assert (clean st) as Hc0 by (apply (Hst v t st); by rewrite Hstep).
    split; [done|].
    destruct (String.eqb _ _).
    + destruct (Hf v t st) as [Hv Hs]. rewrite Hstep in Hv, Hs. simpl in *.
      rewrite Hv. apply dec_string_clean. by rewrite <- Hs.
    + specialize (Hf v t st). by rewrite Hstep in Hf.
  - injection Hstep as <- <-. by rewrite Htr.
Qed.

Lemma foldl_tracked {T} (fields : list (json.field T)) name get ms :
  tracked fields name get →
  ∀ t st t' st',
    foldl (json.store_member fields) (t, st) ms = (t', st') →
    clean st' →
    clean st ∧ get t' = member_string name ms (get t).
Proof.
  intros Htr. unfold member_string.
  induction ms as [|kv ms IH]; intros t st t' st'; cbn [foldl].
  - by intros [= -> ->].
  - destruct (json.store_member fields (t, st) kv) as [t1 st1] eqn:E.
    intros Hfold Hc. destruct (IH _ _ _ _ Hfold Hc) as [Hc1 ->].
    destruct (store_member_tracked _ _ _ _ _ _ _ _ Htr E Hc1) as [Hc0 ->]. done.
Qed.

Lemma store_member_unknown {T} (fields : list (json.field T)) acc k v key :
  json.unquote k = Some key →
  json.find_field fields key = None →
  json.store_member fields acc (k, v) = acc.
Proof.
  intros Hk Hf. unfold json.store_member. destruct acc as [t st]. cbn [fst snd].
  rewrite Hk, Hf. by destruct (json.stopped st).
Qed.

Lemma parse_empty : json.parse "" = None.
Proof. reflexivity. Qed.

Lemma Unmarshal_nil {T} `{!json.Unmarshaler T} data (v v' : T) :
  json.Unmarshal data v = (v', nil) →
  ∃ j st, json.parse data = Some j ∧ json.decode j v json.dstate_init = (v', st) ∧ clean st.
Proof.
  unfold json.Unmarshal. destruct (json.parse data) as [j|]; [|done].
  destruct (json.decode j v json.dstate_init) as [x st] eqn:E.
  intros [= -> Herr]. exists j, st. repeat split; [done|..].
  all: by destruct (json.stopError st), (json.savedError st).
Qed.

(** Decoding an object into a struct without error leaves in a tracked
    string field the string the object gives for it. *)
Lemma Unmarshal_struct_string {T} ty (fields : list (json.field T)) name get data ms t t' :
  tracked fields name get →
  json.Unmarshal (Unmarshaler0 := json.dec_struct ty fields) data t = (t', nil) →
  json.parse data = Some (json.Object ms) →
  get t' = member_string name ms (get t).
Proof.
  intros Htr Hu Hp. apply Unmarshal_nil in Hu as (j & st & Hj & Hd & Hc).
  rewrite Hp in Hj. injection Hj as <-.
  unfold json.decode, json.dec_struct in Hd.
  by destruct (foldl_tracked _ _ _ _ Htr _ _ _ _ Hd Hc).
Qed.

Lemma find_field_fold {T} (fields : list (json.field T)) key f :
  json.find_field fields key = Some f →
  json.foldName (json.fname f) = json.foldName key.
Proof.
  unfold json.find_field. destruct (List.find _ fields) eqn:E.
  - intros [= <-]. apply List.find_some in E as [_ E].
    apply String.eqb_eq in E. by rewrite E.
  - intros H. apply List.find_some in H as [_ H]. by apply String.eqb_eq in H.
Qed.

Lemma tracked_intro {T} (fields : list (json.field T)) name get :
  Forall (λ f, sticky (json.fstore f)
               ∧ if String.eqb (json.foldName name) (json.foldName (json.fname f))
                 then reads_string get f else leaves get f) fields →
  Exists (λ f, json.fname f = name) fields →
  tracked fields name get.
Proof.
  intros Hall Hex key. destruct (json.find_field fields key) as [f|] eqn:E.
  - rewrite Forall_forall in Hall.
    specialize (Hall f (find_field_in _ _ _ E)).
    by rewrite (find_field_fold _ _ _ E) in Hall.
  - unfold json.find_field in E. destruct (List.find _ fields); [done|].
    apply Exists_exists in Hex as (f & Hin & <-).
    apply (List.find_none _ _ E). by apply list_elem_of_In.
Qed.

Ltac eval_eqb :=
  repeat match goal with
  | |- context [String.eqb ?a ?b] =>
      let v := eval vm_compute in (String.eqb a b) in
      lazymatch v with
      | true => change (String.eqb a b) with true
      | false => change (String.eqb a b) with false
      end
  end; cbv iota.

Ltac field_case :=
  cbn [json.fname json.field_of]; eval_eqb;
  split; [auto 6 with sticky
         | first [ by (intros v t st; simpl; split; destruct (json.dec_string v _ st))
                 | intros v t st; simpl;
                   match goal with |- context [let '(_, _) := ?x in _] => by destruct x end ] ].

Ltac tracked_table :=
  apply tracked_intro;
  [ repeat (constructor; [field_case|]); constructor
  | repeat first [ by apply List.Exists_cons_hd | apply List.Exists_cons_tl ] ].

Lemma tracked_Error_Code : tracked Error_fields "code" Code.
Proof. unfold Error_fields. tracked_table. Qed.

Lemma tracked_Error_Message : tracked Error_fields "message" Message.
Proof. unfold Error_fields. tracked_table. Qed.

Lemma tracked_Error_Field : tracked Error_fields "field" Field.
Proof. unfold Error_fields. tracked_table. Qed.

(** ** Errors of the server *)

Lemma parseError_structured status body e :
  json.Unmarshal body Error_zero = (e, nil) →
  parseError status body =
    APIError (Some {| StatusCode := status; Code := Code e;
                      Message := Message e; Field := Field e |}).
Proof. unfold parseError. by intros ->. Qed.

Lemma parseError_generic status body :
  (json.Unmarshal body Error_zero).2 ≠ nil →
  parseError status body =
    APIError (Some {| StatusCode := status; Code := "unknown_error";
                      Message := body; Field := "" |}).
Proof.
  unfold parseError. destruct (json.Unmarshal body Error_zero) as [e err].
  simpl. by destruct err.
Qed.

Lemma outcome_error {R} `{!json.Unmarshaler R} (result : option R) resp respBody :
  http.ReadAll resp = inl respBody →
  (400 ≤ http.StatusCode resp)%Z →
  outcome result (inl resp) = (result, parseError (http.StatusCode resp) respBody).
Proof.
  intros Hread Hst. unfold outcome. rewrite Hread.
  by destruct (Z.leb_spec 400 (http.StatusCode resp)); [|lia].
Qed.

Section transport_claims.

Context {B R : Type} {MB : json.Marshaler B} {UR : json.Unmarshaler R}.
Variable url_Parse : string → error.
Variables (ctx : Context) (method path : string) (body : option B) (result : option R).
Variables (w : World) (req : http.Request) (resp : http.Response) (respBody : string).

Hypothesis Hout : outgoing url_Parse (client w) ctx method path body = inl req.
Hypothesis Hresp : http.RoundTrip (httpClient (client w)) (wire w) req = inl resp.
Hypothesis Hread : http.ReadAll resp = inl respBody.

Lemma request_answered :
  request url_Parse ctx method path body result w = (outcome result (inl resp), sent req w).
Proof using Hout Hresp. by rewrite request_outgoing, Hout, Hresp. Qed.

(** C1: when the response has a status of 400 or more and its body
    deserializes as the error record, [request] returns a structured error
    with the status of the response and the code, message and field that the
    body gives, and the destination is returned as it was supplied.  Such a
    body is a JSON object, whose members named code, message and field give
    the three strings, or [null], which gives three empty strings. *)
Theorem request_structured_error (e : Error) :
  (400 ≤ http.StatusCode resp)%Z →
  json.Unmarshal respBody Error_zero = (e, nil) →
  request url_Parse ctx method path body result w =
    ((result,
      APIError (Some {| StatusCode := http.StatusCode resp; Code := Code e;
                        Message := Message e; Field := Field e |})),
     sent req w)
  ∧ (∀ ms, json.parse respBody = Some (json.Object ms) →
       Code e = member_string "code" ms ""
       ∧ Message e = member_string "message" ms ""
       ∧ Field e = member_string "field" ms "")
  ∧ (json.parse respBody = Some json.Null → Code e = "" ∧ Message e = "" ∧ Field e = "")
  ∧ (json.parse respBody = Some json.Null ∨ ∃ ms, json.parse respBody = Some (json.Object ms)).
Proof using Hout Hresp Hread.
  intros Hst He. repeat apply conj.
  - rewrite request_answered, (outcome_error _ _ _ Hread Hst).
    by rewrite (parseError_structured _ _ _ He).
  - intros ms Hms. repeat split.
    + exact (Unmarshal_struct_string _ _ _ _ _ _ _ _ tracked_Error_Code He Hms).
    + exact (Unmarshal_struct_string _ _ _ _ _ _ _ _ tracked_Error_Message He Hms).
    + exact (Unmarshal_struct_string _ _ _ _ _ _ _ _ tracked_Error_Field He Hms).
  - intros Hnull. unfold json.Unmarshal in He. rewrite Hnull in He.
    by injection He as <-.
  - apply Unmarshal_nil in He as (j & st & Hj & Hd & Hc). rewrite Hj.
    destruct j; try (injection Hd as _ <-; not_clean); eauto.
Qed.

(** C4: when the response has a status of 400 or more and its body does not
    deserialize as the error record, [request] returns a structured error
    with the status of the response, the code [unknown_error], the raw body
    as message and no field; the empty body is such a body. *)
Theorem request_generic_error :
  (400 ≤ http.StatusCode resp)%Z →
  (json.Unmarshal respBody Error_zero).2 ≠ nil →
  request url_Parse ctx method path body result w =
    ((result,
      APIError (Some {| StatusCode := http.StatusCode resp; Code := "unknown_error";
                        Message := respBody; Field := "" |})),
     sent req w)
  ∧ (json.Unmarshal "" Error_zero).2 ≠ nil.
Proof using Hout Hresp Hread.
  intros Hst He. split; [|done].
  rewrite request_answered, (outcome_error _ _ _ Hread Hst).
  by rewrite (parseError_generic _ _ He).
Qed.

End transport_claims.

(** ** The billing service *)

(** The client is part of the state: the two setters write it. *)
Lemma setters_write_client url h w :
  baseURL (client (WithBaseURL url w).2) = url
  ∧ httpClient (client (WithHTTPClient h w).2) = h.
Proof. done. Qed.

Lemma request_client {B R} `{!json.Marshaler B} `{!json.Unmarshaler R} url_Parse
    ctx method path (body : option B) (result : option R) w :
  client (request url_Parse ctx method path body result w).2 = client w.
Proof. rewrite request_outgoing. by destruct (outgoing _ _ _ _ _ _). Qed.

Lemma request_success {B R} `{!json.Marshaler B} `{!json.Unmarshaler R} url_Parse
    ctx method path (body : option B) (result : option R) w req resp respBody :
  outgoing url_Parse (client w) ctx method path body = inl req →
  http.RoundTrip (httpClient (client w)) (wire w) req = inl resp →
  http.ReadAll resp = inl respBody →
  (http.StatusCode resp < 400)%Z →
  request url_Parse ctx method path body result w =
    (match result with
     | Some r =>
         if (0 <? String.length respBody)%nat then
           (Some (json.Unmarshal respBody r).1,
            match (json.Unmarshal respBody r).2 with
            | nil => nil
            | err => wrapError "decode response: %w" err
            end)
         else (result, nil)
     | None => (None, nil)
     end, sent req w).
Proof.
  intros Hout Hresp Hread Hst.
  rewrite (request_answered _ _ _ _ _ _ _ _ _ Hout Hresp). f_equal.
  unfold outcome. rewrite Hread.
  destruct (Z.leb_spec 400 (http.StatusCode resp)); [lia|].
  destruct result as [r|]; [|done].
  destruct (0 <? String.length respBody)%nat; [|done].
  by destruct (json.Unmarshal respBody r) as [r' []].
Qed.

Lemma length_pos_nonempty (s : string) : (0 <? String.length s)%nat = negb (String.eqb s "").
Proof. by destruct s. Qed.

(** Strings. *)
Lemma string_app_assoc (s1 s2 s3 : string) : (s1 +:+ s2) +:+ s3 = s1 +:+ s2 +:+ s3.
Proof. induction s1 as [|c s1 IH]; [done|]. exact (f_equal (String c) IH). Qed.

Lemma nonempty_prefix (c : ascii) (s t : string) : String.eqb (String c s +:+ t) "" = false.
Proof. reflexivity. Qed.

(** Evaluate the quoting of the literal names. *)
Ltac eval_quote :=
  repeat match goal with
  | |- context [json.quote (String ?c ?s)] =>
      let v := eval vm_compute in (json.quote (String c s)) in
      change (json.quote (String c s)) with v
  end.

Section billing_properties.

Variable url_Parse : string → error.
Context {Time : Type}.
Variable Time_zero : Time.
Variable Time_UnmarshalJSON : string → Time → Time * error.

Lemma sticky_dec_Time : sticky (dec_Time Time_UnmarshalJSON).
Proof. apply sticky_dec_unmarshaler. Qed.

Hint Resolve sticky_dec_Time : sticky.

Lemma sticky_Subscription :
  sticky (json.decode (Unmarshaler := Subscription_Unmarshaler Time_zero Time_UnmarshalJSON)).
Proof.
  apply sticky_dec_struct. unfold Subscription_fields.
  repeat (constructor; [auto 6 with sticky|]). constructor.
Qed.

Hint Resolve sticky_Subscription : sticky.

Ltac accessor_frame w :=
  unfold mbind, M_bind;
  match goal with
  | |- context [@request ?u ?B ?R ?HB ?HR ?c ?m ?p ?b ?r w] =>
      let Hc := fresh "Hc" in
      pose proof (@request_client B R HB HR u c m p b r w) as Hc;
      destruct (@request u B R HB HR c m p b r w) as [[? []] ?]; exact Hc
  end.

Lemma CreateCustomer_client ctx params w :
  client (CreateCustomer url_Parse Time_zero Time_UnmarshalJSON ctx params w).2 = client w.
Proof. unfold CreateCustomer. accessor_frame w. Qed.

Lemma CreateSubscription_client ctx params w :
  client (CreateSubscription url_Parse Time_zero Time_UnmarshalJSON ctx params w).2
  = client w.
Proof. unfold CreateSubscription. accessor_frame w. Qed.

Lemma CreateCustomerForUser_client ctx userID email name w :
  client (CreateCustomerForUser url_Parse Time_zero Time_UnmarshalJSON ctx userID email
            name w).2 = client w.
Proof.
  unfold CreateCustomerForUser, mbind, M_bind.
  match goal with |- context [CreateCustomer ?u ?z ?t ?c ?p w] =>
    pose proof (CreateCustomer_client c p w) as Hc;
    destruct (CreateCustomer u z t c p w) as [[?|?] ?]; exact Hc
  end.
Qed.

Lemma createSubscriptionWithPlan_client ctx customerID planKey priceKey w :
  client (createSubscriptionWithPlan url_Parse Time_zero Time_UnmarshalJSON ctx customerID
            planKey priceKey w).2 = client w.
Proof.
  unfold createSubscriptionWithPlan, mbind, M_bind.
  match goal with |- context [CreateSubscription ?u ?z ?t ?c ?p w] =>
    pose proof (CreateSubscription_client c p w) as Hc;
    destruct (CreateSubscription u z t c p w) as [[?|?] ?]; exact Hc
  end.
Qed.

(** C8: a call of [request], and of each accessor, leaves the client as it
    was: its API key, base URL and HTTP client are the same after the call,
    for every input and every answer of the transport. *)
Theorem calls_preserve_client (ctx : Context) (w : World) :
  (∀ B R (HB : json.Marshaler B) (HR : json.Unmarshaler R) method path
     (body : option B) (result : option R),
     let w' := (request url_Parse ctx method path body result w).2 in
     client w' = client w
     ∧ apiKey (client w') = apiKey (client w)
     ∧ baseURL (client w') = baseURL (client w)
     ∧ httpClient (client w') = httpClient (client w))
  ∧ (∀ params, client (CreateCustomer url_Parse Time_zero Time_UnmarshalJSON ctx params w).2
               = client w)
  ∧ (∀ userID email name,
       client (CreateCustomerForUser url_Parse Time_zero Time_UnmarshalJSON ctx userID email
                 name w).2 = client w)
  ∧ (∀ id, client (GetCustomer url_Parse Time_zero Time_UnmarshalJSON ctx id w).2 = client w)
  ∧ (∀ params, client (ListCustomers url_Parse Time_zero Time_UnmarshalJSON ctx params w).2
               = client w)
  ∧ (∀ id params,
       client (UpdateCustomer url_Parse Time_zero Time_UnmarshalJSON ctx id params w).2
       = client w)
  ∧ (∀ id, client (DeleteCustomer url_Parse ctx id w).2 = client w)
  ∧ (∀ params,
       client (CreateSubscription url_Parse Time_zero Time_UnmarshalJSON ctx params w).2
       = client w)
  ∧ (∀ customerID planKey priceKey,
       client (createSubscriptionWithPlan url_Parse Time_zero Time_UnmarshalJSON ctx
                 customerID planKey priceKey w).2 = client w)
  ∧ (∀ id, client (GetSubscription url_Parse Time_zero Time_UnmarshalJSON ctx id w).2
           = client w)
  ∧ (∀ id, client (CancelSubscription url_Parse Time_zero Time_UnmarshalJSON ctx id w).2
           = client w).
Proof.
  split; [|repeat split].
  - intros B R HB HR method path body result w'. subst w'.
    rewrite request_client. done.
  - intros. apply CreateCustomer_client.
  - intros. apply CreateCustomerForUser_client.
  - intros. unfold GetCustomer. accessor_frame w.
  - intros. unfold ListCustomers. accessor_frame w.
  - intros. unfold UpdateCustomer. accessor_frame w.
  - intros. unfold DeleteCustomer. accessor_frame w.
  - intros. apply CreateSubscription_client.
  - intros. apply createSubscriptionWithPlan_client.
  - intros. unfold GetSubscription. accessor_frame w.
  - intros. unfold CancelSubscription. accessor_frame w.
Qed.

(** C7: [CreateCustomerForUser] is [CreateCustomer] on the parameters with
    the given email and name and the external id [user:] followed by the
    decimal form of the user id: it sends what that call sends, leaves the
    world that call leaves, and returns the ID of the created customer and no
    error when that call succeeds, the empty string and a non-nil error when
    it fails. *)
Theorem CreateCustomerForUser_is_sugar (ctx : Context) (userID : Z) (email name : string)
    (w : World) :
  CreateCustomerForUser url_Parse Time_zero Time_UnmarshalJSON ctx userID email name w
  = CreateCustomerForUser_sugar url_Parse Time_zero Time_UnmarshalJSON ctx userID email name w
  ∧ (let params := {| CreateCustomerParams_Email := email;
                      CreateCustomerParams_Name := name;
                      CreateCustomerParams_ExternalID := "user:" +:+ pretty userID;
                      CreateCustomerParams_Metadata := None |} in
     let direct := CreateCustomer url_Parse Time_zero Time_UnmarshalJSON ctx (Some params) w in
     let sugar := CreateCustomerForUser url_Parse Time_zero Time_UnmarshalJSON ctx userID
                    email name w in
     sugar.2 = direct.2
     ∧ match direct.1 with
       | inl customer => sugar.1 = (Customer_ID customer, nil)
       | inr err => sugar.1.1 = "" ∧ sugar.1.2 ≠ nil ∧ errors_Unwrap sugar.1.2 = err
       end).
Proof.
  unfold CreateCustomerForUser, CreateCustomerForUser_sugar, mbind, M_bind, mret, M_ret,
    fmt_Errorf.
  destruct (CreateCustomer _ _ _ _ _ _) as [[customer|err] w']; simpl; done.
Qed.

(** C9: when the underlying call fails with a structured API error, a
    wrapper returns an error made by [fmt.Errorf] around it, and the three
    helpers answer false on that error, whatever the status of the error
    inside; on the error inside, reached by [errors.Unwrap], they answer by
    its status.  This holds for [CreateCustomerForUser] when [CreateCustomer]
    fails, and for [createSubscriptionWithPlan] when [CreateSubscription]
    fails, each on its own. *)
Theorem wrapped_error_is_not_classified (ctx : Context) (w : World)
    (userID : Z) (email name customerID planKey priceKey : string) :
  (∀ e : Error,
     (CreateCustomer url_Parse Time_zero Time_UnmarshalJSON ctx
        (Some {| CreateCustomerParams_Email := email;
                 CreateCustomerParams_Name := name;
                 CreateCustomerParams_ExternalID := "user:" +:+ pretty userID;
                 CreateCustomerParams_Metadata := None |}) w).1 = inr (APIError (Some e)) →
     let err := (CreateCustomerForUser url_Parse Time_zero Time_UnmarshalJSON ctx userID email
                   name w).1.2 in
     err = wrapError "failed to create billing customer for user: %w" (APIError (Some e))
     ∧ IsNotFound err = Some false
     ∧ IsValidationError err = Some false
     ∧ IsUnauthorized err = Some false
     ∧ errors_Unwrap err = APIError (Some e)
     ∧ IsNotFound (errors_Unwrap err) = Some (StatusCode e =? 404)%Z
     ∧ IsValidationError (errors_Unwrap err) = Some (StatusCode e =? 400)%Z
     ∧ IsUnauthorized (errors_Unwrap err) = Some (StatusCode e =? 401)%Z)
  ∧ (∀ e : Error,
       (CreateSubscription url_Parse Time_zero Time_UnmarshalJSON ctx
          (Some {| CreateSubscriptionParams_CustomerID := customerID;
                   CreateSubscriptionParams_PriceID := "";
                   CreateSubscriptionParams_PlanKey := planKey;
                   CreateSubscriptionParams_PriceKey := priceKey;
                   CreateSubscriptionParams_Quantity := 0;
                   CreateSubscriptionParams_Metadata := None |}) w).1
       = inr (APIError (Some e)) →
       let err := (createSubscriptionWithPlan url_Parse Time_zero Time_UnmarshalJSON ctx
                     customerID planKey priceKey w).1.2 in
       err = wrapError "failed to create subscription: %w" (APIError (Some e))
       ∧ IsNotFound err = Some false
       ∧ IsValidationError err = Some false
       ∧ IsUnauthorized err = Some false
       ∧ errors_Unwrap err = APIError (Some e)
       ∧ IsNotFound (errors_Unwrap err) = Some (StatusCode e =? 404)%Z
       ∧ IsValidationError (errors_Unwrap err) = Some (StatusCode e =? 400)%Z
       ∧ IsUnauthorized (errors_Unwrap err) = Some (StatusCode e =? 401)%Z).
Proof.
  split; intros e.
  - unfold CreateCustomerForUser, mbind, M_bind, mret, M_ret, fmt_Errorf.
    destruct (CreateCustomer _ _ _ _ _ _) as [r1 w1]. simpl. intros ->. simpl. done.
  - unfold createSubscriptionWithPlan, mbind, M_bind, mret, M_ret, fmt_Errorf.
    destruct (CreateSubscription _ _ _ _ _ _) as [r2 w2]. simpl. intros ->. simpl. done.
Qed.

(** C10: the workspace identifier has no influence on
    [CreateSubscriptionForWorkspace] nor on
    [CreateSubscriptionForGuestWorkspace]: with the same customer and in the
    same world, two workspace identifiers give the same requests, the same
    result and the same world afterwards; the body that is sent names the
    customer, the plan and the price only. *)
Theorem workspace_id_is_unused (ctx : Context) (customerID workspace1 workspace2 : string)
    (w : World) :
  CreateSubscriptionForWorkspace url_Parse Time_zero Time_UnmarshalJSON ctx customerID
    workspace1 w
  = CreateSubscriptionForWorkspace url_Parse Time_zero Time_UnmarshalJSON ctx customerID
      workspace2 w
  ∧ CreateSubscriptionForGuestWorkspace url_Parse Time_zero Time_UnmarshalJSON ctx customerID
      workspace1 w
    = CreateSubscriptionForGuestWorkspace url_Parse Time_zero Time_UnmarshalJSON ctx
        customerID workspace2 w
  ∧ CreateSubscriptionForWorkspace url_Parse Time_zero Time_UnmarshalJSON ctx customerID
      workspace1 w
    = createSubscriptionWithPlan url_Parse Time_zero Time_UnmarshalJSON ctx customerID
        "free" "free_monthly_EUR" w
  ∧ CreateSubscriptionForGuestWorkspace url_Parse Time_zero Time_UnmarshalJSON ctx customerID
      workspace1 w
    = createSubscriptionWithPlan url_Parse Time_zero Time_UnmarshalJSON ctx customerID
        "guest" "guest_monthly_EUR" w
  ∧ (∀ planKey priceKey,
       planKey ≠ "" → priceKey ≠ "" →
       json.Marshal
         (Some {| CreateSubscriptionParams_CustomerID := customerID;
                  CreateSubscriptionParams_PriceID := "";
                  CreateSubscriptionParams_PlanKey := planKey;
                  CreateSubscriptionParams_PriceKey := priceKey;
                  CreateSubscriptionParams_Quantity := 0;
                  CreateSubscriptionParams_Metadata := None |})
       = inl ("{" +:+ json.in_quotes "customer_id" +:+ ":"
              +:+ json.in_quotes (json.quote customerID) +:+ ","
              +:+ json.in_quotes "plan_key" +:+ ":" +:+ json.in_quotes (json.quote planKey)
              +:+ "," +:+ json.in_quotes "price_key" +:+ ":"
              +:+ json.in_quotes (json.quote priceKey) +:+ "}")).
Proof.
  repeat split.
  intros planKey priceKey Hplan Hprice.
  unfold json.Marshal, json.encode, ptr_Marshaler, json.encode,
    CreateSubscriptionParams_Marshaler, CreateSubscriptionParams_value,
    json.omitempty_string, json.omitempty_int, json.omitempty_map, json.member,
    json.enc_string.
  cbn [CreateSubscriptionParams_CustomerID CreateSubscriptionParams_PriceID
       CreateSubscriptionParams_PlanKey CreateSubscriptionParams_PriceKey
       CreateSubscriptionParams_Quantity CreateSubscriptionParams_Metadata].
  destruct (String.eqb_spec planKey ""); [done|].
  destruct (String.eqb_spec priceKey ""); [done|].
  eval_quote. cbn. by rewrite !string_app_assoc.
Qed.

(** C6: [ListCustomers] asks for the customers path followed by the query
    string the parameters give: [limit=] and the decimal limit exactly when
    the limit is positive, [cursor=] and the cursor exactly when the cursor is
    not empty, in that order, joined by an ampersand and prefixed by a
    question mark; the bare path when the parameters are nil or give neither.
    The request it sends is a GET of that path under the base URL, without a
    body. *)
Theorem ListCustomers_query_string (ctx : Context) (params : option ListCustomersParams) :
  ListCustomers_path params =
    "/billing/v1/customers"
    +:+ match params with
        | Some p => ListCustomers_query (ListCustomersParams_Limit p)
                      (ListCustomersParams_Cursor p)
        | None => ""
        end
  ∧ ListCustomers_path None = "/billing/v1/customers"
  ∧ (∀ limit cursor,
       ListCustomers_path (Some (mkListCustomersParams limit cursor)) =
         match (0 <? limit)%Z, negb (String.eqb cursor "") with
         | true, true =>
             "/billing/v1/customers?limit=" +:+ pretty limit +:+ "&cursor=" +:+ cursor
         | true, false => "/billing/v1/customers?limit=" +:+ pretty limit
         | false, true => "/billing/v1/customers?cursor=" +:+ cursor
         | false, false => "/billing/v1/customers"
         end)
  ∧ (∀ w req,
       outgoing (B := Empty_set) url_Parse (client w) ctx "GET" (ListCustomers_path params) None
         = inl req →
       wire (ListCustomers url_Parse Time_zero Time_UnmarshalJSON ctx params w).2
         = (wire w ++ [req])%list
       ∧ http.Method req = "GET"
       ∧ http.URL req = baseURL (client w) +:+ ListCustomers_path params
       ∧ http.Body req = None).
Proof.
  assert (Hcases : ∀ limit cursor,
    ListCustomers_path (Some (mkListCustomersParams limit cursor)) =
      match (0 <? limit)%Z, negb (String.eqb cursor "") with
      | true, true =>
          "/billing/v1/customers?limit=" +:+ pretty limit +:+ "&cursor=" +:+ cursor
      | true, false => "/billing/v1/customers?limit=" +:+ pretty limit
      | false, true => "/billing/v1/customers?cursor=" +:+ cursor
      | false, false => "/billing/v1/customers"
      end).
  { intros limit cursor. unfold ListCustomers_path.
    cbn [ListCustomersParams_Limit ListCustomersParams_Cursor].
    change ("" +:+ "limit=" +:+ pretty limit) with ("limit=" +:+ pretty limit).
    destruct (0 <? limit)%Z, (String.eqb cursor ""); cbn [negb]; try reflexivity.
    all: repeat (rewrite ?string_app_assoc, ?nonempty_prefix; cbn [negb]).
    all: reflexivity. }
  split; [|split; [done|split; [exact Hcases|]]].
  - destruct params as [[limit cursor]|]; [|done].
    rewrite Hcases. unfold ListCustomers_query.
    cbn [ListCustomersParams_Limit ListCustomersParams_Cursor].
    destruct (0 <? limit)%Z, (String.eqb cursor ""); cbn; try done;
      by rewrite !string_app_assoc.
  - intros w req Hout. unfold ListCustomers, mbind, M_bind.
    rewrite request_outgoing, Hout.
    unfold outgoing in Hout. cbn in Hout.
    destruct (http.NewRequestWithContext _ _ _ _ _) as [r|] eqn:Hnew; [|done].
    injection Hout as <-.
    unfold http.NewRequestWithContext in Hnew. cbn in Hnew.
    destruct ctx; [done|]. destruct (url_Parse _); try done.
    injection Hnew as <-.
    repeat split.
    destruct (outcome _ _) as [? []]; reflexivity.
Qed.

End billing_properties.

(** ** Partial updates *)

Lemma omitempty_map_nonempty name m :
  m ≠ ∅ → json.omitempty_map name (Some m) = json.member name (json.enc_map (Some m)).
Proof.
  intros Hm. unfold json.omitempty_map.
  rewrite bool_decide_eq_false_2; [done|]. by rewrite map_size_empty_iff.
Qed.

Lemma omitempty_ptr_not_null {T} name (enc : T → json.Value) p kv :
  (∀ x, enc x ≠ json.Null) → kv ∈ json.omitempty_ptr name enc p → kv.2 ≠ json.Null.
Proof.
  intros Henc. destruct p as [x|]; simpl; [|by intros ?%elem_of_nil].
  unfold json.member. intros ->%list_elem_of_singleton. apply Henc.
Qed.

Lemma omitempty_map_not_null name m kv :
  kv ∈ json.omitempty_map name m → kv.2 ≠ json.Null.
Proof.
  unfold json.omitempty_map. destruct m as [m|]; [|by intros ?%elem_of_nil].
  destruct (bool_decide (size m = 0%nat)); [by intros ?%elem_of_nil|].
  unfold json.member. by intros ->%list_elem_of_singleton.
Qed.

Section partial_updates.

Variable url_Parse : string → error.
Context {Time : Type}.
Variable Time_zero : Time.
Variable Time_UnmarshalJSON : string → Time → Time * error.

(** What an accessor that writes [params] as the body hands to the
    transport, under a context that is not nil and with a URL that
    [url.Parse] accepts. *)
Lemma patch_sent {P R} {MP : json.Marshaler P} {UR : json.Unmarshaler R} (n : N)
    (path : string) (p : P) (zero : R) (w : World) (text : string) :
  url_Parse (baseURL (client w) +:+ path) = nil →
  json.Marshal (Some p) = inl text →
  ∃ req,
    (request url_Parse (ctx_value n) "PATCH" path (Some (Some p)) (Some zero) w).2 = sent req w
    ∧ http.Method req = "PATCH"
    ∧ http.URL req = baseURL (client w) +:+ path
    ∧ http.Body req = Some text.
Proof.
  intros Hurl Htext. rewrite request_outgoing. unfold outgoing.
  rewrite Htext. unfold http.NewRequestWithContext.
  change (negb (http.validMethod (if String.eqb "PATCH" "" then "GET" else "PATCH")))
    with false.
  cbv iota. rewrite Hurl. eexists. split; [reflexivity|]. by repeat split.
Qed.

(** C5, amended: the body that [UpdateCustomer] and [UpdatePlan] send with
    their PATCH request is the text written for the update parameters, and
    that text has exactly the members of the pointer fields that are not
    nil, each holding the value pointed to, be it empty or false, and, for a
    customer, the member [metadata] when the map is not empty.  A nil
    pointer and a nil or empty map give no member, and no member is [null].
    So parameters with one pointer field set, or with a non-empty map
    alone, are sent as an object with that one member. *)
Theorem partial_update_body :
  (∀ n id (p : UpdateCustomerParams) w text,
     url_Parse (baseURL (client w) +:+ "/billing/v1/customers/" +:+ id) = nil →
     json.Marshal (Some p) = inl text →
     ∃ req,
       (UpdateCustomer url_Parse Time_zero Time_UnmarshalJSON (ctx_value n) id (Some p) w).2
       = sent req w
       ∧ http.Method req = "PATCH"
       ∧ http.URL req = baseURL (client w) +:+ "/billing/v1/customers/" +:+ id
       ∧ http.Body req = Some text)
  ∧ (∀ n id (p : UpdatePlanParams) w text,
       url_Parse (baseURL (client w) +:+ "/billing/v1/plans/" +:+ id) = nil →
       json.Marshal (Some p) = inl text →
       ∃ req,
         (UpdatePlan url_Parse Time_zero Time_UnmarshalJSON (ctx_value n) id (Some p) w).2
         = sent req w
         ∧ http.Method req = "PATCH"
         ∧ http.URL req = baseURL (client w) +:+ "/billing/v1/plans/" +:+ id
         ∧ http.Body req = Some text)
  ∧ (∀ p : UpdateCustomerParams,
       json.Marshal (Some p) = inl (json.render (UpdateCustomerParams_value p)))
  ∧ (∀ p : UpdatePlanParams,
       json.Marshal (Some p) = inl (json.render (UpdatePlanParams_value p)))
  ∧ (∀ p : UpdatePlanParams,
       member_names (UpdatePlanParams_value p) = UpdatePlanParams_set p)
  ∧ (∀ p : UpdateCustomerParams,
       UpdateCustomerParams_Metadata p ≠ Some ∅ →
       member_names (UpdateCustomerParams_value p) = UpdateCustomerParams_set p)
  ∧ (∀ email name externalID,
       member_names
         (UpdateCustomerParams_value (mkUpdateCustomerParams email name externalID (Some ∅)))
       = UpdateCustomerParams_set (mkUpdateCustomerParams email name externalID None))
  ∧ (∀ (p : UpdateCustomerParams) kv,
       kv ∈ members_of (UpdateCustomerParams_value p) → kv.2 ≠ json.Null)
  ∧ (∀ (p : UpdatePlanParams) kv,
       kv ∈ members_of (UpdatePlanParams_value p) → kv.2 ≠ json.Null)
  ∧ (∀ s m, m = None ∨ m = Some ∅ →
       json.Marshal (Some (mkUpdateCustomerParams (Some s) None None m))
       = inl (single_member "email" (json.Str (json.quote s)))
       ∧ json.Marshal (Some (mkUpdateCustomerParams None (Some s) None m))
         = inl (single_member "name" (json.Str (json.quote s)))
       ∧ json.Marshal (Some (mkUpdateCustomerParams None None (Some s) m))
         = inl (single_member "external_id" (json.Str (json.quote s))))
  ∧ (∀ m, m ≠ ∅ →
       json.Marshal (Some (mkUpdateCustomerParams None None None (Some m)))
       = inl (single_member "metadata" (json.enc_map (Some m))))
  ∧ (∀ s b,
       json.Marshal (Some (mkUpdatePlanParams (Some s) None None None))
       = inl (single_member "key" (json.Str (json.quote s)))
       ∧ json.Marshal (Some (mkUpdatePlanParams None (Some s) None None))
         = inl (single_member "name" (json.Str (json.quote s)))
       ∧ json.Marshal (Some (mkUpdatePlanParams None None (Some s) None))
         = inl (single_member "description" (json.Str (json.quote s)))
       ∧ json.Marshal (Some (mkUpdatePlanParams None None None (Some b)))
         = inl (single_member "is_active" (json.Bool b))).
Proof.
  repeat apply conj.
  - intros n id p w text Hurl Htext. unfold UpdateCustomer, mbind, M_bind.
    destruct (patch_sent (UR := Customer_Unmarshaler Time_zero Time_UnmarshalJSON) n
                ("/billing/v1/customers/" +:+ id) p (Customer_zero Time_zero)
                w text Hurl Htext) as (req & Hsent & Hreq).
    exists req. split; [|exact Hreq]. rewrite <- Hsent.
    by destruct (request _ _ _ _ _ _ _) as [[? []] ?].
  - intros n id p w text Hurl Htext. unfold UpdatePlan, mbind, M_bind.
    destruct (patch_sent (UR := Plan_Unmarshaler Time_zero Time_UnmarshalJSON) n
                ("/billing/v1/plans/" +:+ id) p (Plan_zero Time_zero)
                w text Hurl Htext) as (req & Hsent & Hreq).
    exists req. split; [|exact Hreq]. rewrite <- Hsent.
    by destruct (request _ _ _ _ _ _ _) as [[? []] ?].
  - reflexivity.
  - reflexivity.
  - intros [[k|] [n|] [d|] [a|]]; reflexivity.
  - intros [[e|] [n|] [x|] [m|]] Hm; cbn in Hm;
      unfold UpdateCustomerParams_value, UpdateCustomerParams_set;
      cbn [UpdateCustomerParams_Email UpdateCustomerParams_Name
           UpdateCustomerParams_ExternalID UpdateCustomerParams_Metadata];
      try (rewrite omitempty_map_nonempty by congruence); reflexivity.
  - intros [e|] [n|] [x|]; reflexivity.
  - intros p kv. unfold UpdateCustomerParams_value, members_of.
    rewrite !elem_of_app. intros [H|[H|[H|H]]]; revert H;
      first [ apply omitempty_ptr_not_null; by intros ? | apply omitempty_map_not_null ].
  - intros p kv. unfold UpdatePlanParams_value, members_of.
    rewrite !elem_of_app. intros [H|[H|[H|H]]]; revert H;
      apply omitempty_ptr_not_null; by intros ?.
  - intros s m [-> | ->]; repeat apply conj; reflexivity.
  - intros m Hm. unfold json.Marshal, json.encode, ptr_Marshaler, json.encode,
      UpdateCustomerParams_Marshaler, UpdateCustomerParams_value.
    cbn [UpdateCustomerParams_Email UpdateCustomerParams_Name
         UpdateCustomerParams_ExternalID UpdateCustomerParams_Metadata].
    by rewrite omitempty_map_nonempty.
  - intros s b. repeat apply conj; reflexivity.
Qed.

End partial_updates.

(** C5 as stated fails for the map: parameters in which the only field set
    is [Metadata], set to an empty map, are written as the empty object, and
    that is the body [UpdateCustomer] sends. *)
Lemma empty_metadata_is_omitted :
  let p := mkUpdateCustomerParams None None None (Some ∅) in
  let w := sample_world 200 sample_customer in
  UpdateCustomerParams_set p = ["metadata"]
  ∧ member_names (UpdateCustomerParams_value p) = []
  ∧ json.Marshal (Some p) = inl "{}"
  ∧ http.Body <$> wire (UpdateCustomer sample_url_Parse "" sample_Time_UnmarshalJSON
                          (ctx_value 0) "cus_1" (Some p) w).2
    = [Some "{}"].
Proof. vm_compute. repeat split. Qed.

(** ** Round trips *)

(** *** String literals *)

Lemma quote_ascii c r :
  (json.byte c <? 128)%Z = true → json.quote (String c r) = piece c +:+ json.quote r.
Proof.
  intros Hc. unfold json.quote, piece. cbn [String.length json.quote_go]. by rewrite Hc.
Qed.

Lemma high_byte b0 b1 b2 b3 b4 b5 b6 :
  (json.byte (Ascii b0 b1 b2 b3 b4 b5 b6 true) <? 128)%Z = false.
Proof. by destruct b0, b1, b2, b3, b4, b5, b6. Qed.

Lemma unquote_piece c f tail :
  (json.byte c <? 128)%Z = true →
  json.unquote_go (S f) (piece c +:+ tail) = String c <$> json.unquote_go f tail.
Proof.
  destruct c as [b0 b1 b2 b3 b4 b5 b6 b7].
  destruct b7; [by rewrite high_byte|]. intros _.
  destruct b0, b1, b2, b3, b4, b5, b6; reflexivity.
Qed.

Lemma append_cons a s t : String a s +:+ t = String a (s +:+ t).
Proof. reflexivity. Qed.

Lemma append_empty t : "" +:+ t = t.
Proof. reflexivity. Qed.

Lemma scan_string_piece c tail raw rest :
  (json.byte c <? 128)%Z = true →
  json.scan_string tail = Some (raw, rest) →
  json.scan_string (piece c +:+ tail) = Some (piece c +:+ raw, rest).
Proof.
  destruct c as [b0 b1 b2 b3 b4 b5 b6 b7].
  destruct b7; [by rewrite high_byte|]. intros _ Htail.
  destruct b0, b1, b2, b3, b4, b5, b6.
  all: match goal with |- context [piece ?c] =>
         let v := eval vm_compute in (piece c) in change (piece c) with v end.
  all: rewrite !append_cons, !append_empty.
  all: simpl json.scan_string; rewrite Htail; reflexivity.
Qed.

Lemma string_length_app (s t : string) :
  String.length (s +:+ t) = (String.length s + String.length t)%nat.
Proof.
  induction s as [|a s IH]; [done|].
  rewrite append_cons. cbn [String.length]. by rewrite IH.
Qed.

Lemma piece_length c : ∃ n, String.length (piece c) = S n.
Proof.
  destruct c as [b0 b1 b2 b3 b4 b5 b6 b7].
  destruct b0, b1, b2, b3, b4, b5, b6, b7; eexists; vm_compute; reflexivity.
Qed.

Lemma unquote_quote s : ascii_only s = true → json.unquote (json.quote s) = Some s.
Proof.
  induction s as [|c r IH]; [done|]. cbn [ascii_only].
  intros [Hc Hr]%andb_true_iff. rewrite (quote_ascii c r Hc).
  unfold json.unquote.
  assert (Hlen : ∃ n, String.length (piece c +:+ json.quote r)
                      = S (String.length (json.quote r) + n)).
  { rewrite string_length_app. destruct (piece_length c) as [m ->]. exists m. lia. }
  destruct Hlen as [n ->].
  by rewrite (unquote_piece c _ _ Hc), unquote_fuel, (IH Hr).
Qed.

Lemma scan_string_quote s rest :
  ascii_only s = true →
  json.scan_string (json.quote s +:+ String json.dquote rest) = Some (json.quote s, rest).
Proof.
  induction s as [|c r IH]; [done|]. cbn [ascii_only].
  intros [Hc Hr]%andb_true_iff. rewrite (quote_ascii c r Hc), string_app_assoc.
  exact (scan_string_piece c _ _ _ Hc (IH Hr)).
Qed.

(** *** Numbers *)

Lemma pretty_N_char_digit m :
  (m < 10)%N →
  json.is_digit (pretty_N_char m) = true
  ∧ (json.byte (pretty_N_char m) - 48)%Z = Z.of_N m
  ∧ ((0 < m)%N → (json.byte (pretty_N_char m) =? 48)%Z = false).
Proof.
  intros Hm.
  assert (m = 0 ∨ m = 1 ∨ m = 2 ∨ m = 3 ∨ m = 4 ∨ m = 5 ∨ m = 6 ∨ m = 7 ∨ m = 8 ∨ m = 9)%N
    as Hcases by lia.
  repeat (destruct Hcases as [->|Hcases]); [..|subst m];
    (repeat apply conj; [reflexivity|reflexivity|intros H; first [lia|reflexivity]]).
Qed.

Lemma all_digits_app s t : all_digits (s +:+ t) = all_digits s && all_digits t.
Proof.
  induction s as [|c s IH]; [done|]. rewrite append_cons. cbn [all_digits].
  by rewrite IH, andb_assoc.
Qed.

(** The decimal form of a positive number: a first digit that is not zero,
    then digits. *)
Lemma pretty_N_go_digits x :
  (0 < x)%N →
  ∃ c ds, (∀ s, pretty_N_go x s = String c (ds +:+ s))
          ∧ json.is_digit c = true ∧ (json.byte c =? 48)%Z = false
          ∧ all_digits ds = true.
Proof.
  induction (N.lt_wf_0 x) as [x _ IH]. intros Hx.
  destruct (pretty_N_char_digit (x `mod` 10)) as (Hd & _ & Hz); [by apply N.mod_lt|].
  destruct (decide (x `div` 10 = 0)%N) as [Hq|Hq].
  - exists (pretty_N_char (x `mod` 10)), "".
    repeat apply conj; try done.
    + intros s. by rewrite pretty_N_go_step, Hq, pretty_N_go_0.
    + apply Hz. rewrite (N.div_mod x 10) in Hx by done. lia.
  - destruct (IH (x `div` 10)%N) as (c & ds & Heq & Hc & Hc0 & Hds);
      [by apply N.div_lt|by apply N.neq_0_lt_0|].
    exists c, (ds +:+ String (pretty_N_char (x `mod` 10)) "").
    repeat apply conj; try done.
    + intros s. by rewrite pretty_N_go_step, Heq, string_app_assoc.
    + rewrite all_digits_app, Hds. cbn [all_digits]. by rewrite Hd.
Qed.

Lemma digits_value_pretty x :
  ∃ k : Z, (0 ≤ k)%Z ∧ ∀ acc s,
    json.digits_value acc (pretty_N_go x s)
    = json.digits_value (acc * 10 ^ k + Z.of_N x) s.
Proof.
  induction (N.lt_wf_0 x) as [x _ IH].
  destruct (decide (x = 0)%N) as [->|Hx].
  { exists 0%Z. split; [done|]. intros acc s. rewrite pretty_N_go_0. f_equal. lia. }
  destruct (IH (x `div` 10)%N) as (k & Hk & Heq); [apply N.div_lt; lia|].
  exists (k + 1)%Z. split; [lia|]. intros acc s.
  rewrite pretty_N_go_step, Heq by lia. cbn [json.digits_value].
  destruct (pretty_N_char_digit (x `mod` 10)) as (-> & -> & _); [by apply N.mod_lt|].
  f_equal. rewrite Z.pow_add_r by lia.
  rewrite (N.div_mod x 10) at 3 by done.
  rewrite N2Z.inj_add, N2Z.inj_mul. simpl (Z.of_N 10). lia.
Qed.

Lemma digits_value_pretty_N x : json.digits_value 0 (pretty_N_go x "") = Some (Z.of_N x).
Proof. destruct (digits_value_pretty x) as (k & _ & ->). by rewrite Z.mul_0_l. Qed.

(** The decimal form of an [int64] is read back as the same number. *)
Lemma ParseInt_pretty (z : Z) :
  (- 2 ^ 63 ≤ z < 2 ^ 63)%Z → json.ParseInt (pretty z) = Some z.
Proof.
  intros Hz. destruct z as [|p|p].
  - reflexivity.
  - change (pretty (Z.pos p)) with (pretty_N_go (N.pos p) "").
    destruct (pretty_N_go_digits (N.pos p)) as (c & ds & Hp & Hc & _); [lia|].
    pose proof (digits_value_pretty_N (N.pos p)) as Hv.
    rewrite Hp in Hv |- *. unfold json.ParseInt.
    assert ((json.byte c =? 45)%Z = false) as ->.
    { unfold json.is_digit, json.between in Hc. lia. }
    rewrite Hv. cbn [mbind option_bind].
    simpl (Z.of_N (N.pos p)).
    destruct (Z.leb_spec (- 2 ^ 63) (Z.pos p)), (Z.ltb_spec (Z.pos p) (2 ^ 63)); try lia.
    reflexivity.
  - change (pretty (Z.neg p)) with ("-" +:+ pretty_N_go (N.pos p) "").
    destruct (pretty_N_go_digits (N.pos p)) as (c & ds & Hp & Hc & _); [lia|].
    pose proof (digits_value_pretty_N (N.pos p)) as Hv.
    rewrite Hp in Hv |- *. unfold json.ParseInt. rewrite append_cons, append_empty.
    change (json.byte "-" =? 45)%Z with true. cbv iota.
    rewrite Hv. cbn [mbind option_bind].
    simpl (Z.of_N (N.pos p)).
    change (- Z.pos p)%Z with (Z.neg p).
    destruct (Z.leb_spec (- 2 ^ 63) (Z.neg p)), (Z.ltb_spec (Z.neg p) (2 ^ 63)); try lia.
    reflexivity.
Qed.

Lemma append_nil_r (s : string) : s +:+ "" = s.
Proof. induction s as [|a s IH]; [done|]. by rewrite append_cons, IH. Qed.

Lemma span_digits_app ds c r :
  all_digits ds = true → json.is_digit c = false →
  json.span_digits (ds +:+ String c r) = (ds, String c r).
Proof.
  intros Hds Hc. induction ds as [|d ds IH].
  - rewrite append_empty. cbn [json.span_digits]. by rewrite Hc.
  - cbn [all_digits] in Hds. apply andb_true_iff in Hds as [Hd Hds].
    rewrite append_cons. cbn [json.span_digits]. by rewrite Hd, (IH Hds).
Qed.

Lemma scan_number_tail c r :
  (c = "," ∨ c = "}")%char →
  json.scan_frac_part (String c r) = Some ("", String c r)
  ∧ json.scan_exp_part (String c r) = Some ("", String c r).
Proof. by intros [->| ->]. Qed.

Lemma scan_number_pretty (z : Z) rest :
  closes rest → json.scan_number (pretty z +:+ rest) = Some (pretty z, rest).
Proof.
  intros (c & r & -> & Hc).
  assert (Hnd : json.is_digit c = false) by (by destruct Hc as [->| ->]).
  assert (Hpos : ∀ p, json.scan_number (pretty_N_go (N.pos p) "" +:+ String c r)
                      = Some (pretty_N_go (N.pos p) "", String c r)).
  { intros p. destruct (pretty_N_go_digits (N.pos p)) as (d & ds & Hp & Hd & Hd0 & Hds);
      [lia|].
    rewrite Hp, append_nil_r, append_cons. unfold json.scan_number.
    assert ((json.byte d =? 45)%Z = false) as ->.
    { unfold json.is_digit, json.between in Hd. lia. }
    unfold json.scan_int_part. rewrite Hd0, Hd, (span_digits_app _ _ _ Hds Hnd).
    destruct (scan_number_tail c r Hc) as [Hf He].
    cbn [mbind option_bind]. rewrite Hf. cbn [mbind option_bind]. rewrite He.
    cbn [mbind option_bind]. by rewrite !append_empty, !append_nil_r. }
  destruct z as [|p|p].
  - destruct Hc as [->| ->]; reflexivity.
  - apply Hpos.
  - change (pretty (Z.neg p)) with ("-" +:+ pretty_N_go (N.pos p) "").
    rewrite append_cons, append_empty.
    destruct (pretty_N_go_digits (N.pos p)) as (d & ds & Hp & Hd & Hd0 & Hds); [lia|].
    rewrite Hp, append_nil_r, ?append_cons. unfold json.scan_number.
    rewrite ?append_cons.
    change (json.byte "-" =? 45)%Z with true. cbv iota.
    unfold json.scan_int_part. rewrite Hd0, Hd, (span_digits_app _ _ _ Hds Hnd).
    destruct (scan_number_tail c r Hc) as [Hf He].
    cbn [mbind option_bind]. rewrite Hf. cbn [mbind option_bind]. rewrite He.
    cbn [mbind option_bind]. by rewrite !append_empty, !append_nil_r.
Qed.

(** *** Objects of strings, numbers and booleans *)

Lemma scan_value_string f d X :
  json.scan_value (S f) d (String json.dquote X)
  = '(raw, rest) ← json.scan_string X; Some (json.Str raw, rest).
Proof. reflexivity. Qed.

Lemma scan_value_number f d c X :
  json.is_digit c = true ∨ c = "-"%char →
  json.scan_value (S f) d (String c X)
  = '(lit, rest) ← json.scan_number (String c X); Some (json.Number lit, rest).
Proof.
  intros [Hc| ->]; [|reflexivity].
  cbn [json.scan_value json.skip_space].
  unfold json.is_digit, json.between in Hc.
  assert (json.is_space c = false) as -> by (unfold json.is_space; lia).
  assert ((json.byte c =? 123)%Z = false) as -> by lia.
  assert ((json.byte c =? 91)%Z = false) as -> by lia.
  assert ((json.byte c =? 34)%Z = false) as -> by lia.
  assert (json.is_digit c = true) as -> by (unfold json.is_digit, json.between; lia).
  by rewrite orb_true_r.
Qed.

Lemma in_quotes_app raw rest :
  json.in_quotes raw +:+ rest = String json.dquote (raw +:+ String json.dquote rest).
Proof.
  unfold json.in_quotes. by rewrite append_cons, string_app_assoc, append_cons, append_empty.
Qed.

Lemma pretty_Z_head (z : Z) :
  ∃ c r, pretty z = String c r ∧ (json.is_digit c = true ∨ c = "-"%char).
Proof.
  destruct z as [|p|p].
  - by exists "0"%char, ""; split; [|left].
  - destruct (pretty_N_go_digits (N.pos p)) as (c & ds & Hp & Hc & _); [lia|].
    exists c, (ds +:+ ""). split; [apply Hp|by left].
  - exists "-"%char, (pretty_N_go (N.pos p) ""). split; [done|by right].
Qed.

Lemma scan_scalar f d v rest :
  scalar v → closes rest →
  json.scan_value (S f) d (json.render v +:+ rest) = Some (v, rest).
Proof.
  intros Hv Hrest. destruct v as [|b|lit|raw| |]; try done.
  - destruct b; cbn [json.render]; rewrite !append_cons, append_empty; reflexivity.
  - destruct Hv as [z ->]. cbn [json.render].
    destruct (pretty_Z_head z) as (c & r & Hz & Hc).
    pose proof (scan_number_pretty z rest Hrest) as Hn.
    rewrite Hz, append_cons in Hn |- *.
    by rewrite (scan_value_number f d c _ Hc), Hn.
  - destruct Hv as (s & Hs & ->). cbn [json.render].
    by rewrite in_quotes_app, scan_value_string, (scan_string_quote s rest Hs).
Qed.

Lemma closes_comma r : closes (String "," r).
Proof. exists ","%char, r. auto. Qed.

Lemma closes_brace r : closes (String "}" r).
Proof. exists "}"%char, r. auto. Qed.

Lemma scan_member_head f d X :
  json.scan_members (S f) d (String json.dquote X)
  = '(k, r1) ← json.scan_string X;
    match json.skip_space r1 with
    | "" => None
    | String colon r2 =>
        if (json.byte colon =? 58)%Z then
          '(v, r3) ← json.scan_value f d r2;
          match json.skip_space r3 with
          | "" => None
          | String e r4 =>
              if (json.byte e =? 44)%Z then
                '(ms, rest) ← json.scan_members f d r4;
                Some ((k, v) :: ms, rest)
              else if (json.byte e =? 125)%Z then Some ([(k, v)], r4)
              else None
          end
        else None
    end.
Proof. reflexivity. Qed.

(** The members of a flat object, as written, are read back as they are. *)
Lemma scan_members_flat ms : ∀ f d rest,
  flat ms → ms ≠ [] → (List.length ms ≤ f)%nat →
  json.scan_members (S f) d (json.join "," (map render_member ms) +:+ String "}" rest)
  = Some (ms, rest).
Proof.
  induction ms as [|[k v] ms IH]; intros f d rest Hflat Hne Hlen; [done|].
  apply Forall_cons in Hflat as [[(name & Hname & Hk) Hv] Hflat].
  cbn [fst snd] in Hk, Hv. subst k.
  destruct f as [|f]; [simpl in Hlen; lia|].
  destruct ms as [|kv ms].
  - cbn [map json.join]. unfold render_member at 1. cbn [fst snd].
    rewrite !string_app_assoc, in_quotes_app, (scan_member_head (S f) d).
    rewrite !append_cons, append_empty, (scan_string_quote name _ Hname).
    cbn [mbind option_bind]. change (json.skip_space (String ":" ?x)) with (String ":" x).
    change (json.byte ":" =? 58)%Z with true. cbv iota.
    rewrite (scan_scalar f d v _ Hv (closes_brace rest)). reflexivity.
  - change (json.join "," (map render_member ((json.quote name, v) :: kv :: ms)))
      with (render_member (json.quote name, v) +:+ ","
            +:+ json.join "," (map render_member (kv :: ms))).
    unfold render_member at 1. cbn [fst snd].
    rewrite !string_app_assoc, in_quotes_app, (scan_member_head (S f) d).
    rewrite !append_cons, append_empty, (scan_string_quote name _ Hname).
    cbn [mbind option_bind]. change (json.skip_space (String ":" ?x)) with (String ":" x).
    change (json.byte ":" =? 58)%Z with true. cbv iota.
    rewrite (scan_scalar f d v _ Hv (closes_comma _)).
    cbn [mbind option_bind]. change (json.skip_space (String "," ?x)) with (String "," x).
    change (json.byte "," =? 44)%Z with true. cbv iota.
    rewrite append_empty.
    rewrite (IH f d rest Hflat ltac:(done) ltac:(simpl in Hlen |- *; lia)). reflexivity.
Qed.

Lemma scan_value_object f d X :
  json.scan_value (S f) d (String "{" (String json.dquote X))
  = if (json.maxNestingDepth <=? d)%N then None
    else '(ms, rest) ← json.scan_members f (d + 1)%N (String json.dquote X);
         Some (json.Object ms, rest).
Proof. reflexivity. Qed.

Lemma render_member_head kv : ∃ Y, render_member kv = String json.dquote Y.
Proof.
  unfold render_member, json.in_quotes. rewrite append_cons. by eexists.
Qed.

Lemma join_members_head kv ms :
  ∃ Y, json.join "," (map render_member (kv :: ms)) = String json.dquote Y.
Proof.
  destruct (render_member_head kv) as [Y HY].
  destruct ms as [|kv' ms]; cbn [map json.join]; rewrite HY.
  - by eexists.
  - rewrite append_cons. by eexists.
Qed.

Lemma join_members_length ms :
  (List.length ms ≤ String.length (json.join "," (map render_member ms)))%nat.
Proof.
  induction ms as [|kv ms IH]; [done|].
  destruct (render_member_head kv) as [Y HY].
  destruct ms as [|kv' ms].
  - cbn [map json.join]. rewrite HY. cbn [String.length List.length]. lia.
  - change (json.join "," (map render_member (kv :: kv' :: ms)))
      with (render_member kv +:+ "," +:+ json.join "," (map render_member (kv' :: ms))).
    rewrite HY, !string_length_app. cbn [String.length List.length] in IH |- *. lia.
Qed.

(** The text written for a flat object is read back as that object. *)
Lemma parse_flat ms : flat ms → json.parse (json.render (json.Object ms)) = Some (json.Object ms).
Proof.
  intros Hflat. destruct ms as [|kv ms]; [reflexivity|].
  change (json.render (json.Object (kv :: ms)))
    with ("{" +:+ json.join "," (map render_member (kv :: ms)) +:+ "}").
  pose proof (join_members_length (kv :: ms)) as Hlen.
  destruct (join_members_head kv ms) as [Y HY].
  set (body := json.join "," (map render_member (kv :: ms))) in *.
  unfold json.parse.
  assert (∃ f, (2 * String.length ("{" +:+ body +:+ "}") + 2)%nat = S (S f)
               ∧ (List.length (kv :: ms) ≤ f)%nat) as (f & -> & Hf).
  { exists (2 * String.length body + 4)%nat.
    rewrite append_cons, append_empty. cbn [String.length].
    rewrite string_length_app. cbn [String.length]. lia. }
  rewrite append_cons, append_empty, HY, append_cons, scan_value_object.
  rewrite <- append_cons, <- HY.
  change (json.maxNestingDepth <=? 0)%N with false. cbv iota.
  unfold body. rewrite scan_members_flat; [reflexivity|done|done|done].
Qed.

(** *** Decoding what was encoded *)

Lemma dec_string_enc s old st :
  ascii_only s = true → json.dec_string (json.enc_string s) old st = (s, st).
Proof. intros Hs. unfold json.dec_string, json.enc_string. by rewrite unquote_quote. Qed.

Lemma dec_int_enc z old st :
  (- 2 ^ 63 ≤ z < 2 ^ 63)%Z → json.dec_int (json.enc_int z) old st = (z, st).
Proof. intros Hz. unfold json.dec_int, json.enc_int. by rewrite ParseInt_pretty. Qed.

Lemma store_member_found {T} (fields : list (json.field T)) name v t st f :
  ascii_only name = true →
  json.stopped st = false →
  json.find_field fields name = Some f →
  json.store_member fields (t, st) (json.quote name, v) = json.fstore f v t st.
Proof.
  intros Hname Hst Hf. unfold json.store_member. cbn [fst snd].
  by rewrite Hst, (unquote_quote name Hname), Hf.
Qed.

Lemma flat_app ms1 ms2 : flat ms1 → flat ms2 → flat (ms1 ++ ms2).
Proof. apply Forall_app_2. Qed.

Lemma flat_member_string name s :
  ascii_only name = true → ascii_only s = true →
  flat (json.member name (json.enc_string s)).
Proof.
  intros Hn Hs. apply Forall_singleton. split; [by exists name|].
  by exists s.
Qed.

Lemma flat_member_int name z :
  ascii_only name = true → flat (json.member name (json.enc_int z)).
Proof. intros Hn. apply Forall_singleton. split; [by exists name|]. by exists z. Qed.

Lemma flat_omitempty_string name s :
  ascii_only name = true → ascii_only s = true → flat (json.omitempty_string name s).
Proof.
  intros Hn Hs. unfold json.omitempty_string.
  destruct (String.eqb s ""); [apply Forall_nil_2|by apply flat_member_string].
Qed.

Lemma flat_omitempty_int name z :
  ascii_only name = true → flat (json.omitempty_int name z).
Proof.
  intros Hn. unfold json.omitempty_int.
  destruct (z =? 0)%Z; [apply Forall_nil_2|by apply flat_member_int].
Qed.

Lemma flat_omitempty_bool name (p : option bool) :
  ascii_only name = true → flat (json.omitempty_ptr name json.enc_bool p).
Proof.
  intros Hn. destruct p as [b|]; [|apply Forall_nil_2].
  apply Forall_singleton. split; [by exists name|done].
Qed.

Lemma flat_omitempty_ptr_int name (p : option Z) :
  ascii_only name = true → flat (json.omitempty_ptr name json.enc_int p).
Proof.
  intros Hn. destruct p as [z|]; [|apply Forall_nil_2]. by apply flat_member_int.
Qed.

Lemma dec_ptr_int_enc z old st :
  (- 2 ^ 63 ≤ z < 2 ^ 63)%Z →
  json.dec_ptr 0%Z json.dec_int (json.enc_int z) old st = (Some z, st).
Proof.
  intros Hz. unfold json.dec_ptr, json.enc_int.
  change (json.Number (pretty z)) with (json.enc_int z). by rewrite dec_int_enc.
Qed.

Lemma dec_ptr_bool_enc b old st :
  json.dec_ptr false json.dec_bool (json.enc_bool b) old st = (Some b, st).
Proof. reflexivity. Qed.

Lemma store_member_skipped {T} (fields : list (json.field T)) name v (t : T) st :
  ascii_only name = true →
  json.find_field fields name = None →
  json.store_member fields (t, st) (json.quote name, v) = (t, st).
Proof.
  intros Hname Hf.
  exact (store_member_unknown fields _ _ v name (unquote_quote name Hname) Hf).
Qed.

(** *** Objects within objects *)

Lemma scalar_written v : scalar v → written v.
Proof. by destruct v. Qed.

Lemma flat_flat1 ms : flat ms → flat1 ms.
Proof.
  intros H. eapply Forall_impl; [exact H|].
  intros kv [Hk Hv]. split; [done|by apply scalar_written].
Qed.

Lemma shallow (d : N) : (d < 9999)%N → (json.maxNestingDepth <=? d)%N = false.
Proof. intros Hd. apply N.leb_gt. unfold json.maxNestingDepth. lia. Qed.

Lemma render_object kv ms :
  json.render (json.Object (kv :: ms))
  = String "{" (json.join "," (map render_member (kv :: ms)) +:+ "}").
Proof. reflexivity. Qed.

Lemma scan_written f d v rest :
  written v → closes rest → (String.length (json.render v) ≤ f)%nat → (d < 9999)%N →
  json.scan_value (S f) d (json.render v +:+ rest) = Some (v, rest).
Proof.
  intros Hv Hrest Hf Hd.
  destruct v as [|b|lit|raw| |ms];
    try (by apply scan_scalar); try done.
  destruct Hrest as (c & r & -> & Hc).
  destruct ms as [|kv ms].
  - cbn [json.render json.join map]. rewrite !append_cons, !append_empty.
    cbn [json.scan_value json.skip_space].
    change (json.is_space "{") with false. cbv iota.
    change (json.byte "{" =? 123)%Z with true. cbv iota.
    rewrite (shallow d Hd).
    change (json.is_space "}") with false. cbv iota.
    change (json.byte "}" =? 125)%Z with true. by cbv iota.
  - rewrite render_object in Hf |- *.
    destruct (join_members_head kv ms) as [Y HY].
    pose proof (join_members_length (kv :: ms)) as Hlen.
    cbn [String.length] in Hf. rewrite string_length_app in Hf. cbn [String.length] in Hf.
    destruct f as [|f]; [lia|].
    rewrite append_cons, string_app_assoc.
    rewrite HY at 1. rewrite append_cons, scan_value_object, <- append_cons, <- HY.
    rewrite (shallow d Hd). rewrite append_cons, append_empty.
    rewrite scan_members_flat; [reflexivity|done|done|lia].
Qed.

Lemma join_cons_length x y l :
  String.length (json.join "," (x :: y :: l))
  = (String.length x + 1 + String.length (json.join "," (y :: l)))%nat.
Proof.
  change (json.join "," (x :: y :: l)) with (x +:+ "," +:+ json.join "," (y :: l)).
  rewrite !string_length_app. cbn [String.length]. lia.
Qed.

Lemma render_member_length kv :
  (3 + String.length (json.render kv.2) ≤ String.length (render_member kv))%nat.
Proof.
  unfold render_member, json.in_quotes.
  rewrite ?append_cons, ?string_length_app. cbn [String.length].
  rewrite ?string_length_app, ?append_empty. cbn [String.length]. lia.
Qed.

Lemma scan_members_flat1 ms : ∀ f d rest,
  flat1 ms → ms ≠ [] →
  (String.length (json.join "," (map render_member ms)) ≤ f)%nat →
  (d < 9999)%N →
  json.scan_members (S f) d (json.join "," (map render_member ms) +:+ String "}" rest)
  = Some (ms, rest).
Proof.
  induction ms as [|[k v] ms IH]; intros f d rest Hflat Hne Hlen Hd; [done|].
  apply Forall_cons in Hflat as [[(name & Hname & Hk) Hv] Hflat].
  cbn [fst snd] in Hk, Hv. subst k.
  pose proof (render_member_length (json.quote name, v)) as Hm. cbn [snd] in Hm.
  destruct ms as [|kv ms].
  - cbn [map json.join] in Hlen |- *.
    destruct f as [|f]; [lia|].
    unfold render_member at 1. cbn [fst snd].
    rewrite !string_app_assoc, in_quotes_app, (scan_member_head (S f) d).
    rewrite !append_cons, append_empty, (scan_string_quote name _ Hname).
    cbn [mbind option_bind]. change (json.skip_space (String ":" ?x)) with (String ":" x).
    change (json.byte ":" =? 58)%Z with true. cbv iota.
    rewrite (scan_written f d v _ Hv (closes_brace rest)) by (done || lia).
    reflexivity.
  - cbn [map] in Hlen. rewrite join_cons_length in Hlen.
    change (json.join "," (map render_member ((json.quote name, v) :: kv :: ms)))
      with (render_member (json.quote name, v) +:+ ","
            +:+ json.join "," (map render_member (kv :: ms))).
    destruct f as [|f]; [lia|].
    unfold render_member at 1. cbn [fst snd].
    rewrite !string_app_assoc, in_quotes_app, (scan_member_head (S f) d).
    rewrite !append_cons, append_empty, (scan_string_quote name _ Hname).
    cbn [mbind option_bind]. change (json.skip_space (String ":" ?x)) with (String ":" x).
    change (json.byte ":" =? 58)%Z with true. cbv iota.
    rewrite (scan_written f d v _ Hv (closes_comma _)) by (done || lia).
    cbn [mbind option_bind].
    change (json.skip_space (String "," ?x)) with (String "," x).
    rewrite append_empty.
    rewrite (IH f d rest Hflat ltac:(done)) by (done || (cbn [map]; lia)).
    reflexivity.
Qed.

Lemma parse_flat1 ms :
  flat1 ms → json.parse (json.render (json.Object ms)) = Some (json.Object ms).
Proof.
  intros Hflat. destruct ms as [|kv ms]; [reflexivity|].
  rewrite render_object.
  destruct (join_members_head kv ms) as [Y HY].
  set (body := json.join "," (map render_member (kv :: ms))) in *.
  unfold json.parse.
  assert (∃ f, (2 * String.length (String "{" (body +:+ "}")) + 2)%nat = S (S f)
               ∧ (String.length body ≤ f)%nat) as (f & -> & Hf).
  { exists (2 * String.length body + 4)%nat. cbn [String.length].
    rewrite string_length_app. cbn [String.length]. lia. }
  rewrite HY, append_cons, scan_value_object.
  rewrite <- append_cons, <- HY.
  change (json.maxNestingDepth <=? 0)%N with false. cbv iota.
  unfold body. rewrite scan_members_flat1; [reflexivity|done|done|done|done].
Qed.

(** *** Maps *)

Lemma foldl_foldr_reverse {A B} (f : A → B → A) (a : A) (l : list B) :
  foldl f a l = foldr (λ x acc, f acc x) a (reverse l).
Proof.
  revert a. induction l as [|x l IH]; intros a; [done|].
  cbn [foldl]. by rewrite IH, reverse_cons, foldr_app.
Qed.

Lemma foldl_insert_entries (m : gmap string string) (l : list (string * string)) :
  l ≡ₚ map_to_list m →
  foldl (λ a kv, <[kv.1 := kv.2]> a) ∅ l = m.
Proof.
  intros Hl. rewrite foldl_foldr_reverse.
  change (foldr (λ x acc, <[x.1 := x.2]> acc) ∅ (reverse l))
    with (list_to_map (M := gmap string string) (reverse l)).
  transitivity (list_to_map (M := gmap string string) (map_to_list m));
    [|apply list_to_map_to_list].
  apply list_to_map_proper.
  - rewrite fmap_reverse, reverse_Permutation, Hl. apply NoDup_fst_map_to_list.
  - by rewrite reverse_Permutation.
Qed.

Lemma sorted_entries_Permutation (m : gmap string string) :
  json.sorted_entries m ≡ₚ map_to_list m.
Proof. unfold json.sorted_entries. apply merge_sort_Permutation. Qed.

Lemma dec_map_entries (l : list (string * string)) : ∀ (m0 : gmap string string) st,
  Forall (λ kv, ascii_only kv.1 = true ∧ ascii_only kv.2 = true) l →
  json.stopped st = false →
  foldl (λ (acc : gmap string string * json.dstate) (kv : string * json.Value),
           let '(m, st) := acc in
           if json.stopped st then acc
           else match json.unquote (fst kv) with
                | Some k =>
                    let '(x, st') := json.dec_string (snd kv) "" st in (<[k := x]> m, st')
                | None => (m, json.stop json.phaseError st)
                end)
    (m0, st) ((λ kv, (json.quote (fst kv), json.enc_string (snd kv))) <$> l)
  = (foldl (λ a kv, <[kv.1 := kv.2]> a) m0 l, st).
Proof.
  induction l as [|[k v] l IH]; intros m0 st Hl Hst; [done|].
  apply Forall_cons in Hl as [[Hk Hv] Hl]. cbn [fst snd] in Hk, Hv.
  cbn [fmap list_fmap foldl fst snd].
  rewrite Hst, (unquote_quote k Hk), (dec_string_enc v "" st Hv).
  by apply IH.
Qed.

Lemma dec_map_enc (m : gmap string string) old st :
  ascii_map (Some m) → json.stopped st = false → old = None →
  json.dec_map (json.enc_map (Some m)) old st = (Some m, st).
Proof.
  intros Hm Hst ->. unfold json.dec_map, json.enc_map. cbn [default].
  rewrite dec_map_entries; [|..|done].
  - by rewrite (foldl_insert_entries m _ (sorted_entries_Permutation m)).
  - apply Forall_forall. intros [k v] Hin.
    rewrite (sorted_entries_Permutation m) in Hin.
    apply elem_of_map_to_list in Hin. exact (Hm k v Hin).
Qed.

Lemma written_enc_map (m : gmap string string) :
  ascii_map (Some m) → written (json.enc_map (Some m)).
Proof.
  intros Hm. cbn [json.enc_map written]. apply Forall_fmap, Forall_forall.
  intros [k v] Hin. rewrite (sorted_entries_Permutation m) in Hin.
  apply elem_of_map_to_list in Hin. destruct (Hm k v Hin) as [Hk Hv].
  split; [by exists k|by exists v].
Qed.

Lemma flat1_omitempty_map name m :
  ascii_only name = true → ascii_map m → flat1 (json.omitempty_map name m).
Proof.
  intros Hn Hm. unfold json.omitempty_map. destruct m as [m|]; [|apply Forall_nil_2].
  destruct (bool_decide (size m = 0%nat)); [apply Forall_nil_2|].
  apply Forall_singleton. split; [by exists name|]. by apply written_enc_map.
Qed.

(** ** What a decoded destination holds *)

Lemma faithful_dec_string : faithful json.dec_string says_string.
Proof. intros v cur st. apply dec_string_clean. Qed.

Lemma faithful_dec_int : faithful json.dec_int says_int.
Proof.
  intros v cur st. unfold json.dec_int, says_int.
  destruct v as [| |lit| | |]; simpl; try done; try (intros; not_clean).
  destruct (json.ParseInt lit); simpl; [done|intros; not_clean].
Qed.

Lemma faithful_dec_bool : faithful json.dec_bool says_bool.
Proof.
  intros v cur st. unfold json.dec_bool, says_bool.
  destruct v; simpl; try done; intros; not_clean.
Qed.

Lemma faithful_dec_ptr {T} (zero : T) d says :
  faithful d says → faithful (json.dec_ptr zero d) (says_ptr zero says).
Proof.
  intros Hd v cur st. unfold json.dec_ptr, says_ptr.
  assert (H : ∀ v', clean (let '(x, st') := d v' (default zero cur) st in (Some x, st')).2 →
                    (let '(x, st') := d v' (default zero cur) st in (Some x, st')).1
                    = Some (says v' (default zero cur))).
  { intros v'. specialize (Hd v' (default zero cur) st).
    destruct (d v' (default zero cur) st). simpl in *. intros Hc. by rewrite Hd. }
  destruct v; try done; apply H.
Qed.

Lemma faithful_dec_map : faithful json.dec_map says_map.
Proof.
  intros v cur st. unfold json.dec_map, says_map.
  destruct v as [| | | | |ms]; simpl; try done; try (intros; not_clean).
  match goal with |- context [foldl ?ff (?aa, st) ms] =>
    set (step := ff);
    assert (Hfold : ∀ ms m st, clean (foldl step (m, st) ms).2 →
              clean st ∧ (foldl step (m, st) ms).1 = foldl says_entry m ms)
  end.
  { clear ms st. intros ms. induction ms as [|[k x] ms IH]; intros m st; cbn [foldl]; [done|].
    destruct (step (m, st) (k, x)) as [m1 st1] eqn:E. intros Hc.
    destruct (IH _ _ Hc) as [Hc1 ->].
    unfold step in E. cbn [fst snd] in E.
    destruct (json.stopped st) eqn:Es.
    { injection E as <- <-. by rewrite (clean_not_stopped _ Hc1) in Es. }
    change (says_entry m (k, x))
      with (match json.unquote k with
            | Some k0 => <[k0 := says_string x ""]> m
            | None => m
            end).
    destruct (json.unquote k) as [key|]; [|injection E as <- <-; not_clean].
    pose proof (sticky_dec_string x "" st) as Hst.
    pose proof (faithful_dec_string x "" st) as Hf.
    destruct (json.dec_string x "" st) as [y st2]. injection E as <- <-.
    simpl in *. split; [auto|]. by rewrite Hf. }
  specialize (Hfold ms (default ∅ cur) st).
  destruct (foldl step (default ∅ cur, st) ms) as [m st']. simpl in *.
  intros Hc. destruct (Hfold Hc) as [_ ->]. done.
Qed.

Lemma faithful_dec_slice {T} (zero : T) d says :
  sticky d → faithful d says → faithful (json.dec_slice zero d) (says_slice zero says).
Proof.
  intros Hst Hd v cur st. unfold json.dec_slice, says_slice.
  destruct v as [| | | |vs|]; simpl; try done; try (intros; not_clean).
  match goal with |- context [foldl ?ff (?aa, st, ?ii) vs] =>
    set (step := ff);
    assert (Hfold : ∀ vs out st i, clean (foldl step (out, st, i) vs).1.2 →
              clean st
              ∧ (foldl step (out, st, i) vs).1.1
                = (out ++ imap (λ j x, says x (default zero (cur !! (i + j)%nat))) vs)%list)
  end.
  { clear vs st. intros vs. induction vs as [|x vs IH]; intros out st i; cbn [foldl].
    { intros Hc. split; [done|]. simpl. by rewrite app_nil_r. }
    destruct (step (out, st, i) x) as [[out1 st1] i1] eqn:E. intros Hc.
    destruct (IH _ _ _ Hc) as [Hc1 ->].
    unfold step in E.
    destruct (json.stopped st) eqn:Es.
    { injection E as <- <- <-. by rewrite (clean_not_stopped _ Hc1) in Es. }
    pose proof (Hst x (default zero (cur !! i)) st) as Hs.
    pose proof (Hd x (default zero (cur !! i)) st) as Hf.
    destruct (d x (default zero (cur !! i)) st) as [y st2]. injection E as <- <- <-.
    simpl in Hs, Hf. split; [auto|].
    rewrite <- app_assoc. f_equal. cbn [imap app]. rewrite Nat.add_0_r, Hf by done.
    f_equal. apply imap_ext. intros j z _. simpl. by rewrite Nat.add_succ_r. }
  specialize (Hfold vs [] st 0%nat).
  destruct (foldl step ([], st, 0%nat) vs) as [[out st'] n]. simpl in *.
  intros Hc. by destruct (Hfold Hc) as [_ ->].
Qed.

Lemma store_member_holds {T A} (fields : list (json.field T)) name (get : T → A) d says
    kv t st t' st' :
  holds fields name get d → faithful d says →
  json.store_member fields (t, st) kv = (t', st') →
  clean st' →
  clean st ∧ get t' = (if names name kv.1 then says kv.2 (get t) else get t).
Proof.
  intros Htr Hd Hstep Hc. destruct kv as [k v].
  unfold json.store_member in Hstep. unfold names. simpl in *.
  destruct (json.stopped st) eqn:Es.
  { injection Hstep as -> ->. by rewrite (clean_not_stopped _ Hc) in Es. }
  destruct (json.unquote k) as [key|]; [|injection Hstep as <- <-; not_clean].
  specialize (Htr key).
  destruct (json.find_field fields key) as [f|].
  - destruct Htr as [Hst Hf].
    assert (clean st) as Hc0 by (apply (Hst v t st); by rewrite Hstep).
    split; [done|].
    destruct (String.eqb _ _).
    + destruct (Hf v t st) as [Hv Hs]. rewrite Hstep in Hv, Hs. simpl in *.
      rewrite Hv. apply Hd. by rewrite <- Hs.
    + specialize (Hf v t st). by rewrite Hstep in Hf.
  - injection Hstep as <- <-. by rewrite Htr.
Qed.

Lemma foldl_holds {T A} (fields : list (json.field T)) name (get : T → A) d says ms :
  holds fields name get d → faithful d says →
  ∀ t st t' st',
    foldl (json.store_member fields) (t, st) ms = (t', st') →
    clean st' →
    clean st ∧ get t' = said says name ms (get t).
Proof.
  intros Htr Hd. unfold said.
  induction ms as [|kv ms IH]; intros t st t' st'; cbn [foldl].
  - by intros [= -> ->].
  - destruct (json.store_member fields (t, st) kv) as [t1 st1] eqn:E.
    intros Hfold Hc. destruct (IH _ _ _ _ Hfold Hc) as [Hc1 ->].
    destruct (store_member_holds _ _ _ _ _ _ _ _ _ _ Htr Hd E Hc1) as [Hc0 ->]. done.
Qed.

Lemma holds_intro {T A} (fields : list (json.field T)) name (get : T → A) d :
  Forall (λ f, sticky (json.fstore f)
               ∧ if String.eqb (json.foldName name) (json.foldName (json.fname f))
                 then reads get d f else keeps get f) fields →
  Exists (λ f, json.fname f = name) fields →
  holds fields name get d.
Proof.
  intros Hall Hex key. destruct (json.find_field fields key) as [f|] eqn:E.
  - rewrite Forall_forall in Hall.
    specialize (Hall f (find_field_in _ _ _ E)).
    by rewrite (find_field_fold _ _ _ E) in Hall.
  - unfold json.find_field in E. destruct (List.find _ fields); [done|].
    apply Exists_exists in Hex as (f & Hin & <-).
    apply (List.find_none _ _ E). by apply list_elem_of_In.
Qed.

Create HintDb faithful.

#[local] Hint Resolve faithful_dec_string faithful_dec_int faithful_dec_bool faithful_dec_ptr
  faithful_dec_map faithful_dec_slice : faithful.

Ltac holds_case :=
  cbn [json.fname json.field_of]; eval_eqb;
  split; [auto 6 with sticky
         | intros v t st; simpl;
           match goal with |- context [let '(_, _) := ?x in _] => by destruct x end ].

Ltac holds_table :=
  apply holds_intro;
  [ repeat (constructor; [holds_case|]); constructor
  | repeat first [ by apply List.Exists_cons_hd | apply List.Exists_cons_tl ] ].

Section destinations.

Variable url_Parse : string → error.
Context {Time : Type}.
Variable Time_zero : Time.
Variable Time_UnmarshalJSON : string → Time → Time * error.
Context {Any : Type}.
Variable Any_nil : Any.
Variable Any_of_JSON : json.Value → Any * error.

Lemma faithful_dec_Time : faithful (dec_Time Time_UnmarshalJSON) (says_Time Time_UnmarshalJSON).
Proof.
  intros v cur st _. unfold dec_Time, json.dec_unmarshaler, says_Time.
  by destruct (Time_UnmarshalJSON _ _).
Qed.

Lemma faithful_dec_Any :
  faithful (dec_Any Any_nil Any_of_JSON) (says_Any Any_nil Any_of_JSON).
Proof.
  intros v cur st _. unfold dec_Any, says_Any.
  destruct v; try done; by destruct (Any_of_JSON _).
Qed.

Lemma sticky_dec_Any : sticky (dec_Any Any_nil Any_of_JSON).
Proof.
  intros v t st. unfold dec_Any.
  destruct v; simpl; try done.
  all: destruct (Any_of_JSON _) as [x []]; simpl; try done; intros; not_clean.
Qed.

Hint Resolve sticky_dec_Time sticky_Subscription sticky_dec_Any : sticky.
Hint Resolve faithful_dec_Time faithful_dec_Any : faithful.

Lemma sticky_Customer :
  sticky (json.decode (Unmarshaler := Customer_Unmarshaler Time_zero Time_UnmarshalJSON)).
Proof.
  apply sticky_dec_struct. unfold Customer_fields.
  repeat (constructor; [auto 6 with sticky|]). constructor.
Qed.

Lemma sticky_Price :
  sticky (json.decode (Unmarshaler := Price_Unmarshaler Time_UnmarshalJSON)).
Proof.
  apply sticky_dec_struct. unfold Price_fields.
  repeat (constructor; [auto 6 with sticky|]). constructor.
Qed.

Lemma sticky_Entitlement :
  sticky (json.decode (Unmarshaler := Entitlement_Unmarshaler Time_UnmarshalJSON)).
Proof.
  apply sticky_dec_struct. unfold Entitlement_fields.
  repeat (constructor; [auto 6 with sticky|]). constructor.
Qed.

Hint Resolve sticky_Customer sticky_Price sticky_Entitlement : sticky.

Lemma sticky_Plan :
  sticky (json.decode (Unmarshaler := Plan_Unmarshaler Time_zero Time_UnmarshalJSON)).
Proof.
  apply sticky_dec_struct. unfold Plan_fields.
  repeat (constructor; [auto 6 with sticky|]). constructor.
Qed.

Hint Resolve sticky_Plan : sticky.

Lemma holds_Subscription_ID :
  holds (Subscription_fields Time_zero Time_UnmarshalJSON) "id" Subscription_ID json.dec_string.
Proof. unfold Subscription_fields. holds_table. Qed.

Lemma holds_Subscription_CustomerID :
  holds (Subscription_fields Time_zero Time_UnmarshalJSON) "customer_id" Subscription_CustomerID
    json.dec_string.
Proof. unfold Subscription_fields. holds_table. Qed.

Lemma holds_Subscription_PriceID :
  holds (Subscription_fields Time_zero Time_UnmarshalJSON) "price_id" Subscription_PriceID
    json.dec_string.
Proof. unfold Subscription_fields. holds_table. Qed.

Lemma holds_Subscription_Status :
  holds (Subscription_fields Time_zero Time_UnmarshalJSON) "status" Subscription_Status
    json.dec_string.
Proof. unfold Subscription_fields. holds_table. Qed.

Lemma holds_Subscription_Quantity :
  holds (Subscription_fields Time_zero Time_UnmarshalJSON) "quantity" Subscription_Quantity
    json.dec_int.
Proof. unfold Subscription_fields. holds_table. Qed.

Lemma holds_Subscription_StartedAt :
  holds (Subscription_fields Time_zero Time_UnmarshalJSON) "started_at" Subscription_StartedAt
    (dec_Time Time_UnmarshalJSON).
Proof. unfold Subscription_fields. holds_table. Qed.

Lemma holds_Subscription_CanceledAt :
  holds (Subscription_fields Time_zero Time_UnmarshalJSON) "canceled_at" Subscription_CanceledAt
    (json.dec_ptr Time_zero (dec_Time Time_UnmarshalJSON)).
Proof. unfold Subscription_fields. holds_table. Qed.

Lemma holds_Subscription_Metadata :
  holds (Subscription_fields Time_zero Time_UnmarshalJSON) "metadata" Subscription_Metadata
    json.dec_map.
Proof. unfold Subscription_fields. holds_table. Qed.

Lemma holds_Subscription_CreatedAt :
  holds (Subscription_fields Time_zero Time_UnmarshalJSON) "created_at" Subscription_CreatedAt
    (dec_Time Time_UnmarshalJSON).
Proof. unfold Subscription_fields. holds_table. Qed.

Lemma faithful_Subscription :
  faithful (json.decode (Unmarshaler := Subscription_Unmarshaler Time_zero Time_UnmarshalJSON))
    (says_Subscription Time_zero Time_UnmarshalJSON).
Proof.
  intros v cur st.
  unfold json.decode, Subscription_Unmarshaler, json.dec_struct, says_Subscription.
  destruct v as [| | | | |ms]; cbn [fst snd]; try done; try (intros; not_clean).
  destruct (foldl _ _ ms) as [t st'] eqn:E. cbn [fst snd]. intros Hc.
  pose proof (foldl_holds _ _ _ _ says_string ms holds_Subscription_ID
                (ltac:(auto 6 with faithful sticky)) _ _ _ _ E Hc) as [_ H1].
  pose proof (foldl_holds _ _ _ _ says_string ms holds_Subscription_CustomerID
                (ltac:(auto 6 with faithful sticky)) _ _ _ _ E Hc) as [_ H2].
  pose proof (foldl_holds _ _ _ _ says_string ms holds_Subscription_PriceID
                (ltac:(auto 6 with faithful sticky)) _ _ _ _ E Hc) as [_ H3].
  pose proof (foldl_holds _ _ _ _ says_string ms holds_Subscription_Status
                (ltac:(auto 6 with faithful sticky)) _ _ _ _ E Hc) as [_ H4].
  pose proof (foldl_holds _ _ _ _ says_int ms holds_Subscription_Quantity
                (ltac:(auto 6 with faithful sticky)) _ _ _ _ E Hc) as [_ H5].
  pose proof (foldl_holds _ _ _ _ (says_Time Time_UnmarshalJSON) ms holds_Subscription_StartedAt
                (ltac:(auto 6 with faithful sticky)) _ _ _ _ E Hc) as [_ H6].
  pose proof (foldl_holds _ _ _ _
                (says_ptr Time_zero (says_Time Time_UnmarshalJSON))
                ms holds_Subscription_CanceledAt
                (ltac:(auto 6 with faithful sticky)) _ _ _ _ E Hc) as [_ H7].
  pose proof (foldl_holds _ _ _ _ says_map ms holds_Subscription_Metadata
                (ltac:(auto 6 with faithful sticky)) _ _ _ _ E Hc) as [_ H8].
  pose proof (foldl_holds _ _ _ _ (says_Time Time_UnmarshalJSON) ms holds_Subscription_CreatedAt
                (ltac:(auto 6 with faithful sticky)) _ _ _ _ E Hc) as [_ H9].
  clear E Hc. destruct t. simpl in *. subst. reflexivity.
Qed.

Hint Resolve faithful_Subscription : faithful.

Lemma holds_Customer_ID :
  holds (Customer_fields Time_zero Time_UnmarshalJSON) "id" Customer_ID json.dec_string.
Proof. unfold Customer_fields. holds_table. Qed.

Lemma holds_Customer_Email :
  holds (Customer_fields Time_zero Time_UnmarshalJSON) "email" Customer_Email json.dec_string.
Proof. unfold Customer_fields. holds_table. Qed.

Lemma holds_Customer_Name :
  holds (Customer_fields Time_zero Time_UnmarshalJSON) "name" Customer_Name json.dec_string.
Proof. unfold Customer_fields. holds_table. Qed.

Lemma holds_Customer_ExternalID :
  holds (Customer_fields Time_zero Time_UnmarshalJSON) "external_id" Customer_ExternalID
    json.dec_string.
Proof. unfold Customer_fields. holds_table. Qed.

Lemma holds_Customer_Metadata :
  holds (Customer_fields Time_zero Time_UnmarshalJSON) "metadata" Customer_Metadata json.dec_map.
Proof. unfold Customer_fields. holds_table. Qed.

Lemma holds_Customer_Subscriptions :
  holds (Customer_fields Time_zero Time_UnmarshalJSON) "subscriptions" Customer_Subscriptions
    (json.dec_slice (Subscription_zero Time_zero)
       (json.decode (Unmarshaler := (Subscription_Unmarshaler Time_zero Time_UnmarshalJSON)))).
Proof. unfold Customer_fields. holds_table. Qed.

Lemma holds_Customer_CreatedAt :
  holds (Customer_fields Time_zero Time_UnmarshalJSON) "created_at" Customer_CreatedAt
    (dec_Time Time_UnmarshalJSON).
Proof. unfold Customer_fields. holds_table. Qed.

Lemma holds_Customer_UpdatedAt :
  holds (Customer_fields Time_zero Time_UnmarshalJSON) "updated_at" Customer_UpdatedAt
    (dec_Time Time_UnmarshalJSON).
Proof. unfold Customer_fields. holds_table. Qed.

Lemma faithful_Customer :
  faithful (json.decode (Unmarshaler := Customer_Unmarshaler Time_zero Time_UnmarshalJSON))
    (says_Customer Time_zero Time_UnmarshalJSON).
Proof.
  intros v cur st.
  unfold json.decode, Customer_Unmarshaler, json.dec_struct, says_Customer.
  destruct v as [| | | | |ms]; cbn [fst snd]; try done; try (intros; not_clean).
  destruct (foldl _ _ ms) as [t st'] eqn:E. cbn [fst snd]. intros Hc.
  pose proof (foldl_holds _ _ _ _ says_string ms holds_Customer_ID
                (ltac:(auto 6 with faithful sticky)) _ _ _ _ E Hc) as [_ H1].
  pose proof (foldl_holds _ _ _ _ says_string ms holds_Customer_Email
                (ltac:(auto 6 with faithful sticky)) _ _ _ _ E Hc) as [_ H2].
  pose proof (foldl_holds _ _ _ _ says_string ms holds_Customer_Name
                (ltac:(auto 6 with faithful sticky)) _ _ _ _ E Hc) as [_ H3].
  pose proof (foldl_holds _ _ _ _ says_string ms holds_Customer_ExternalID
                (ltac:(auto 6 with faithful sticky)) _ _ _ _ E Hc) as [_ H4].
  pose proof (foldl_holds _ _ _ _ says_map ms holds_Customer_Metadata
                (ltac:(auto 6 with faithful sticky)) _ _ _ _ E Hc) as [_ H5].
  pose proof (foldl_holds _ _ _ _
                (says_slice (Subscription_zero Time_zero)
                   (says_Subscription Time_zero Time_UnmarshalJSON))
                ms holds_Customer_Subscriptions
                (ltac:(auto 6 with faithful sticky)) _ _ _ _ E Hc) as [_ H6].
  pose proof (foldl_holds _ _ _ _ (says_Time Time_UnmarshalJSON) ms holds_Customer_CreatedAt
                (ltac:(auto 6 with faithful sticky)) _ _ _ _ E Hc) as [_ H7].
  pose proof (foldl_holds _ _ _ _ (says_Time Time_UnmarshalJSON) ms holds_Customer_UpdatedAt
                (ltac:(auto 6 with faithful sticky)) _ _ _ _ E Hc) as [_ H8].
  clear E Hc. destruct t. simpl in *. subst. reflexivity.
Qed.

Hint Resolve faithful_Customer : faithful.

Lemma holds_CustomerList_Customers :
  holds (CustomerList_fields Time_zero Time_UnmarshalJSON) "customers" CustomerList_Customers
    (json.dec_slice (Customer_zero Time_zero)
       (json.decode (Unmarshaler := (Customer_Unmarshaler Time_zero Time_UnmarshalJSON)))).
Proof. unfold CustomerList_fields. holds_table. Qed.

Lemma holds_CustomerList_Total :
  holds (CustomerList_fields Time_zero Time_UnmarshalJSON) "total" CustomerList_Total
    json.dec_int.
Proof. unfold CustomerList_fields. holds_table. Qed.

Lemma holds_CustomerList_NextCursor :
  holds (CustomerList_fields Time_zero Time_UnmarshalJSON) "next_cursor" CustomerList_NextCursor
    json.dec_string.
Proof. unfold CustomerList_fields. holds_table. Qed.

Lemma faithful_CustomerList :
  faithful (json.decode (Unmarshaler := CustomerList_Unmarshaler Time_zero Time_UnmarshalJSON))
    (says_CustomerList Time_zero Time_UnmarshalJSON).
Proof.
  intros v cur st.
  unfold json.decode, CustomerList_Unmarshaler, json.dec_struct, says_CustomerList.
  destruct v as [| | | | |ms]; cbn [fst snd]; try done; try (intros; not_clean).
  destruct (foldl _ _ ms) as [t st'] eqn:E. cbn [fst snd]. intros Hc.
  pose proof (foldl_holds _ _ _ _
                (says_slice (Customer_zero Time_zero)
                   (says_Customer Time_zero Time_UnmarshalJSON))
                ms holds_CustomerList_Customers
                (ltac:(auto 6 with faithful sticky)) _ _ _ _ E Hc) as [_ H1].
  pose proof (foldl_holds _ _ _ _ says_int ms holds_CustomerList_Total
                (ltac:(auto 6 with faithful sticky)) _ _ _ _ E Hc) as [_ H2].
  pose proof (foldl_holds _ _ _ _ says_string ms holds_CustomerList_NextCursor
                (ltac:(auto 6 with faithful sticky)) _ _ _ _ E Hc) as [_ H3].
  clear E Hc. destruct t. simpl in *. subst. reflexivity.
Qed.

Hint Resolve faithful_CustomerList : faithful.

Lemma holds_Price_ID :
  holds (Price_fields Time_UnmarshalJSON) "id" Price_ID json.dec_string.
Proof. unfold Price_fields. holds_table. Qed.

Lemma holds_Price_PlanID :
  holds (Price_fields Time_UnmarshalJSON) "plan_id" Price_PlanID json.dec_string.
Proof. unfold Price_fields. holds_table. Qed.

Lemma holds_Price_Key :
  holds (Price_fields Time_UnmarshalJSON) "key" Price_Key json.dec_string.
Proof. unfold Price_fields. holds_table. Qed.

Lemma holds_Price_Amount :
  holds (Price_fields Time_UnmarshalJSON) "amount" Price_Amount json.dec_int.
Proof. unfold Price_fields. holds_table. Qed.

Lemma holds_Price_Currency :
  holds (Price_fields Time_UnmarshalJSON) "currency" Price_Currency json.dec_string.
Proof. unfold Price_fields. holds_table. Qed.

Lemma holds_Price_Interval :
  holds (Price_fields Time_UnmarshalJSON) "interval" Price_Interval json.dec_string.
Proof. unfold Price_fields. holds_table. Qed.

Lemma holds_Price_IntervalCount :
  holds (Price_fields Time_UnmarshalJSON) "interval_count" Price_IntervalCount json.dec_int.
Proof. unfold Price_fields. holds_table. Qed.

Lemma holds_Price_TrialDays :
  holds (Price_fields Time_UnmarshalJSON) "trial_days" Price_TrialDays json.dec_int.
Proof. unfold Price_fields. holds_table. Qed.

Lemma holds_Price_CreatedAt :
  holds (Price_fields Time_UnmarshalJSON) "created_at" Price_CreatedAt
    (dec_Time Time_UnmarshalJSON).
Proof. unfold Price_fields. holds_table. Qed.

Lemma faithful_Price :
  faithful (json.decode (Unmarshaler := Price_Unmarshaler Time_UnmarshalJSON))
    (says_Price Time_UnmarshalJSON).
Proof.
  intros v cur st.
  unfold json.decode, Price_Unmarshaler, json.dec_struct, says_Price.
  destruct v as [| | | | |ms]; cbn [fst snd]; try done; try (intros; not_clean).
  destruct (foldl _ _ ms) as [t st'] eqn:E. cbn [fst snd]. intros Hc.
  pose proof (foldl_holds _ _ _ _ says_string ms holds_Price_ID
                (ltac:(auto 6 with faithful sticky)) _ _ _ _ E Hc) as [_ H1].
  pose proof (foldl_holds _ _ _ _ says_string ms holds_Price_PlanID
                (ltac:(auto 6 with faithful sticky)) _ _ _ _ E Hc) as [_ H2].
  pose proof (foldl_holds _ _ _ _ says_string ms holds_Price_Key
                (ltac:(auto 6 with faithful sticky)) _ _ _ _ E Hc) as [_ H3].
  pose proof (foldl_holds _ _ _ _ says_int ms holds_Price_Amount
                (ltac:(auto 6 with faithful sticky)) _ _ _ _ E Hc) as [_ H4].
  pose proof (foldl_holds _ _ _ _ says_string ms holds_Price_Currency
                (ltac:(auto 6 with faithful sticky)) _ _ _ _ E Hc) as [_ H5].
  pose proof (foldl_holds _ _ _ _ says_string ms holds_Price_Interval
                (ltac:(auto 6 with faithful sticky)) _ _ _ _ E Hc) as [_ H6].
  pose proof (foldl_holds _ _ _ _ says_int ms holds_Price_IntervalCount
                (ltac:(auto 6 with faithful sticky)) _ _ _ _ E Hc) as [_ H7].
  pose proof (foldl_holds _ _ _ _ says_int ms holds_Price_TrialDays
                (ltac:(auto 6 with faithful sticky)) _ _ _ _ E Hc) as [_ H8].
  pose proof (foldl_holds _ _ _ _ (says_Time Time_UnmarshalJSON) ms holds_Price_CreatedAt
                (ltac:(auto 6 with faithful sticky)) _ _ _ _ E Hc) as [_ H9].
  clear E Hc. destruct t. simpl in *. subst. reflexivity.
Qed.

Hint Resolve faithful_Price : faithful.

Lemma holds_Entitlement_ID :
  holds (Entitlement_fields Time_UnmarshalJSON) "id" Entitlement_ID json.dec_string.
Proof. unfold Entitlement_fields. holds_table. Qed.

Lemma holds_Entitlement_PlanID :
  holds (Entitlement_fields Time_UnmarshalJSON) "plan_id" Entitlement_PlanID json.dec_string.
Proof. unfold Entitlement_fields. holds_table. Qed.

Lemma holds_Entitlement_Key :
  holds (Entitlement_fields Time_UnmarshalJSON) "key" Entitlement_Key json.dec_string.
Proof. unfold Entitlement_fields. holds_table. Qed.

Lemma holds_Entitlement_ValueBool :
  holds (Entitlement_fields Time_UnmarshalJSON) "value_bool" Entitlement_ValueBool
    (json.dec_ptr false json.dec_bool).
Proof. unfold Entitlement_fields. holds_table. Qed.

Lemma holds_Entitlement_ValueInt :
  holds (Entitlement_fields Time_UnmarshalJSON) "value_int" Entitlement_ValueInt
    (json.dec_ptr 0 json.dec_int).
Proof. unfold Entitlement_fields. holds_table. Qed.

Lemma holds_Entitlement_OveragePrice :
  holds (Entitlement_fields Time_UnmarshalJSON) "overage_price" Entitlement_OveragePrice
    json.dec_int.
Proof. unfold Entitlement_fields. holds_table. Qed.

Lemma holds_Entitlement_OverageUnit :
  holds (Entitlement_fields Time_UnmarshalJSON) "overage_unit" Entitlement_OverageUnit
    json.dec_int.
Proof. unfold Entitlement_fields. holds_table. Qed.

Lemma holds_Entitlement_CreatedAt :
  holds (Entitlement_fields Time_UnmarshalJSON) "created_at" Entitlement_CreatedAt
    (dec_Time Time_UnmarshalJSON).
Proof. unfold Entitlement_fields. holds_table. Qed.

Lemma faithful_Entitlement :
  faithful (json.decode (Unmarshaler := Entitlement_Unmarshaler Time_UnmarshalJSON))
    (says_Entitlement Time_UnmarshalJSON).
Proof.
  intros v cur st.
  unfold json.decode, Entitlement_Unmarshaler, json.dec_struct, says_Entitlement.
  destruct v as [| | | | |ms]; cbn [fst snd]; try done; try (intros; not_clean).
  destruct (foldl _ _ ms) as [t st'] eqn:E. cbn [fst snd]. intros Hc.
  pose proof (foldl_holds _ _ _ _ says_string ms holds_Entitlement_ID
                (ltac:(auto 6 with faithful sticky)) _ _ _ _ E Hc) as [_ H1].
  pose proof (foldl_holds _ _ _ _ says_string ms holds_Entitlement_PlanID
                (ltac:(auto 6 with faithful sticky)) _ _ _ _ E Hc) as [_ H2].
  pose proof (foldl_holds _ _ _ _ says_string ms holds_Entitlement_Key
                (ltac:(auto 6 with faithful sticky)) _ _ _ _ E Hc) as [_ H3].
  pose proof (foldl_holds _ _ _ _ (says_ptr false says_bool) ms holds_Entitlement_ValueBool
                (ltac:(auto 6 with faithful sticky)) _ _ _ _ E Hc) as [_ H4].
  pose proof (foldl_holds _ _ _ _ (says_ptr 0 says_int) ms holds_Entitlement_ValueInt
                (ltac:(auto 6 with faithful sticky)) _ _ _ _ E Hc) as [_ H5].
  pose proof (foldl_holds _ _ _ _ says_int ms holds_Entitlement_OveragePrice
                (ltac:(auto 6 with faithful sticky)) _ _ _ _ E Hc) as [_ H6].
  pose proof (foldl_holds _ _ _ _ says_int ms holds_Entitlement_OverageUnit
                (ltac:(auto 6 with faithful sticky)) _ _ _ _ E Hc) as [_ H7].
  pose proof (foldl_holds _ _ _ _ (says_Time Time_UnmarshalJSON) ms holds_Entitlement_CreatedAt
                (ltac:(auto 6 with faithful sticky)) _ _ _ _ E Hc) as [_ H8].
  clear E Hc. destruct t. simpl in *. subst. reflexivity.
Qed.

Hint Resolve faithful_Entitlement : faithful.

Lemma holds_Plan_ID :
  holds (Plan_fields Time_zero Time_UnmarshalJSON) "id" Plan_ID json.dec_string.
Proof. unfold Plan_fields. holds_table. Qed.

Lemma holds_Plan_Key :
  holds (Plan_fields Time_zero Time_UnmarshalJSON) "key" Plan_Key json.dec_string.
Proof. unfold Plan_fields. holds_table. Qed.

Lemma holds_Plan_Name :
  holds (Plan_fields Time_zero Time_UnmarshalJSON) "name" Plan_Name json.dec_string.
Proof. unfold Plan_fields. holds_table. Qed.

Lemma holds_Plan_Description :
  holds (Plan_fields Time_zero Time_UnmarshalJSON) "description" Plan_Description
    json.dec_string.
Proof. unfold Plan_fields. holds_table. Qed.

Lemma holds_Plan_IsActive :
  holds (Plan_fields Time_zero Time_UnmarshalJSON) "is_active" Plan_IsActive json.dec_bool.
Proof. unfold Plan_fields. holds_table. Qed.

Lemma holds_Plan_Prices :
  holds (Plan_fields Time_zero Time_UnmarshalJSON) "prices" Plan_Prices
    (json.dec_slice (Price_zero Time_zero)
       (json.decode (Unmarshaler := (Price_Unmarshaler Time_UnmarshalJSON)))).
Proof. unfold Plan_fields. holds_table. Qed.

Lemma holds_Plan_Entitlements :
  holds (Plan_fields Time_zero Time_UnmarshalJSON) "entitlements" Plan_Entitlements
    (json.dec_slice (Entitlement_zero Time_zero)
       (json.decode (Unmarshaler := (Entitlement_Unmarshaler Time_UnmarshalJSON)))).
Proof. unfold Plan_fields. holds_table. Qed.

Lemma holds_Plan_CreatedAt :
  holds (Plan_fields Time_zero Time_UnmarshalJSON) "created_at" Plan_CreatedAt
    (dec_Time Time_UnmarshalJSON).
Proof. unfold Plan_fields. holds_table. Qed.

Lemma holds_Plan_UpdatedAt :
  holds (Plan_fields Time_zero Time_UnmarshalJSON) "updated_at" Plan_UpdatedAt
    (dec_Time Time_UnmarshalJSON).
Proof. unfold Plan_fields. holds_table. Qed.

Lemma faithful_Plan :
  faithful (json.decode (Unmarshaler := Plan_Unmarshaler Time_zero Time_UnmarshalJSON))
    (says_Plan Time_zero Time_UnmarshalJSON).
Proof.
  intros v cur st.
  unfold json.decode, Plan_Unmarshaler, json.dec_struct, says_Plan.
  destruct v as [| | | | |ms]; cbn [fst snd]; try done; try (intros; not_clean).
  destruct (foldl _ _ ms) as [t st'] eqn:E. cbn [fst snd]. intros Hc.
  pose proof (foldl_holds _ _ _ _ says_string ms holds_Plan_ID
                (ltac:(auto 6 with faithful sticky)) _ _ _ _ E Hc) as [_ H1].
  pose proof (foldl_holds _ _ _ _ says_string ms holds_Plan_Key
                (ltac:(auto 6 with faithful sticky)) _ _ _ _ E Hc) as [_ H2].
  pose proof (foldl_holds _ _ _ _ says_string ms holds_Plan_Name
                (ltac:(auto 6 with faithful sticky)) _ _ _ _ E Hc) as [_ H3].
  pose proof (foldl_holds _ _ _ _ says_string ms holds_Plan_Description
                (ltac:(auto 6 with faithful sticky)) _ _ _ _ E Hc) as [_ H4].
  pose proof (foldl_holds _ _ _ _ says_bool ms holds_Plan_IsActive
                (ltac:(auto 6 with faithful sticky)) _ _ _ _ E Hc) as [_ H5].
  pose proof (foldl_holds _ _ _ _
                (says_slice (Price_zero Time_zero) (says_Price Time_UnmarshalJSON))
                ms holds_Plan_Prices
                (ltac:(auto 6 with faithful sticky)) _ _ _ _ E Hc) as [_ H6].
  pose proof (foldl_holds _ _ _ _
                (says_slice (Entitlement_zero Time_zero) (says_Entitlement Time_UnmarshalJSON))
                ms holds_Plan_Entitlements
                (ltac:(auto 6 with faithful sticky)) _ _ _ _ E Hc) as [_ H7].
  pose proof (foldl_holds _ _ _ _ (says_Time Time_UnmarshalJSON) ms holds_Plan_CreatedAt
                (ltac:(auto 6 with faithful sticky)) _ _ _ _ E Hc) as [_ H8].
  pose proof (foldl_holds _ _ _ _ (says_Time Time_UnmarshalJSON) ms holds_Plan_UpdatedAt
                (ltac:(auto 6 with faithful sticky)) _ _ _ _ E Hc) as [_ H9].
  clear E Hc. destruct t. simpl in *. subst. reflexivity.
Qed.

Hint Resolve faithful_Plan : faithful.

Lemma holds_PlanList_Plans :
  holds (PlanList_fields Time_zero Time_UnmarshalJSON) "plans" PlanList_Plans
    (json.dec_slice (Plan_zero Time_zero)
       (json.decode (Unmarshaler := (Plan_Unmarshaler Time_zero Time_UnmarshalJSON)))).
Proof. unfold PlanList_fields. holds_table. Qed.

Lemma holds_PlanList_Total :
  holds (PlanList_fields Time_zero Time_UnmarshalJSON) "total" PlanList_Total json.dec_int.
Proof. unfold PlanList_fields. holds_table. Qed.

Lemma faithful_PlanList :
  faithful (json.decode (Unmarshaler := PlanList_Unmarshaler Time_zero Time_UnmarshalJSON))
    (says_PlanList Time_zero Time_UnmarshalJSON).
Proof.
  intros v cur st.
  unfold json.decode, PlanList_Unmarshaler, json.dec_struct, says_PlanList.
  destruct v as [| | | | |ms]; cbn [fst snd]; try done; try (intros; not_clean).
  destruct (foldl _ _ ms) as [t st'] eqn:E. cbn [fst snd]. intros Hc.
  pose proof (foldl_holds _ _ _ _
                (says_slice (Plan_zero Time_zero) (says_Plan Time_zero Time_UnmarshalJSON))
                ms holds_PlanList_Plans
                (ltac:(auto 6 with faithful sticky)) _ _ _ _ E Hc) as [_ H1].
  pose proof (foldl_holds _ _ _ _ says_int ms holds_PlanList_Total
                (ltac:(auto 6 with faithful sticky)) _ _ _ _ E Hc) as [_ H2].
  clear E Hc. destruct t. simpl in *. subst. reflexivity.
Qed.

Hint Resolve faithful_PlanList : faithful.

Lemma holds_PriceList_Prices :
  holds (PriceList_fields Time_zero Time_UnmarshalJSON) "prices" PriceList_Prices
    (json.dec_slice (Price_zero Time_zero)
       (json.decode (Unmarshaler := (Price_Unmarshaler Time_UnmarshalJSON)))).
Proof. unfold PriceList_fields. holds_table. Qed.

Lemma holds_PriceList_Total :
  holds (PriceList_fields Time_zero Time_UnmarshalJSON) "total" PriceList_Total json.dec_int.
Proof. unfold PriceList_fields. holds_table. Qed.

Lemma faithful_PriceList :
  faithful (json.decode (Unmarshaler := PriceList_Unmarshaler Time_zero Time_UnmarshalJSON))
    (says_PriceList Time_zero Time_UnmarshalJSON).
Proof.
  intros v cur st.
  unfold json.decode, PriceList_Unmarshaler, json.dec_struct, says_PriceList.
  destruct v as [| | | | |ms]; cbn [fst snd]; try done; try (intros; not_clean).
  destruct (foldl _ _ ms) as [t st'] eqn:E. cbn [fst snd]. intros Hc.
  pose proof (foldl_holds _ _ _ _
                (says_slice (Price_zero Time_zero) (says_Price Time_UnmarshalJSON))
                ms holds_PriceList_Prices
                (ltac:(auto 6 with faithful sticky)) _ _ _ _ E Hc) as [_ H1].
  pose proof (foldl_holds _ _ _ _ says_int ms holds_PriceList_Total
                (ltac:(auto 6 with faithful sticky)) _ _ _ _ E Hc) as [_ H2].
  clear E Hc. destruct t. simpl in *. subst. reflexivity.
Qed.

Hint Resolve faithful_PriceList : faithful.

Lemma holds_EntitlementList_Entitlements :
  holds (EntitlementList_fields Time_zero Time_UnmarshalJSON)
    "entitlements" EntitlementList_Entitlements
    (json.dec_slice (Entitlement_zero Time_zero)
       (json.decode (Unmarshaler := (Entitlement_Unmarshaler Time_UnmarshalJSON)))).
Proof. unfold EntitlementList_fields. holds_table. Qed.

Lemma holds_EntitlementList_Total :
  holds (EntitlementList_fields Time_zero Time_UnmarshalJSON) "total" EntitlementList_Total
    json.dec_int.
Proof. unfold EntitlementList_fields. holds_table. Qed.

Lemma faithful_EntitlementList :
  faithful (json.decode (Unmarshaler := EntitlementList_Unmarshaler Time_zero Time_UnmarshalJSON))
    (says_EntitlementList Time_zero Time_UnmarshalJSON).
Proof.
  intros v cur st.
  unfold json.decode, EntitlementList_Unmarshaler, json.dec_struct, says_EntitlementList.
  destruct v as [| | | | |ms]; cbn [fst snd]; try done; try (intros; not_clean).
  destruct (foldl _ _ ms) as [t st'] eqn:E. cbn [fst snd]. intros Hc.
  pose proof (foldl_holds _ _ _ _
                (says_slice (Entitlement_zero Time_zero) (says_Entitlement Time_UnmarshalJSON))
                ms holds_EntitlementList_Entitlements
                (ltac:(auto 6 with faithful sticky)) _ _ _ _ E Hc) as [_ H1].
  pose proof (foldl_holds _ _ _ _ says_int ms holds_EntitlementList_Total
                (ltac:(auto 6 with faithful sticky)) _ _ _ _ E Hc) as [_ H2].
  clear E Hc. destruct t. simpl in *. subst. reflexivity.
Qed.

Hint Resolve faithful_EntitlementList : faithful.

Lemma holds_CheckoutLink_CheckoutURL :
  holds (CheckoutLink_fields Time_UnmarshalJSON) "checkout_url" CheckoutLink_CheckoutURL
    json.dec_string.
Proof. unfold CheckoutLink_fields. holds_table. Qed.

Lemma holds_CheckoutLink_Token :
  holds (CheckoutLink_fields Time_UnmarshalJSON) "token" CheckoutLink_Token json.dec_string.
Proof. unfold CheckoutLink_fields. holds_table. Qed.

Lemma holds_CheckoutLink_ExpiresAt :
  holds (CheckoutLink_fields Time_UnmarshalJSON) "expires_at" CheckoutLink_ExpiresAt
    (dec_Time Time_UnmarshalJSON).
Proof. unfold CheckoutLink_fields. holds_table. Qed.

Lemma faithful_CheckoutLink :
  faithful (json.decode (Unmarshaler := CheckoutLink_Unmarshaler Time_UnmarshalJSON))
    (says_CheckoutLink Time_UnmarshalJSON).
Proof.
  intros v cur st.
  unfold json.decode, CheckoutLink_Unmarshaler, json.dec_struct, says_CheckoutLink.
  destruct v as [| | | | |ms]; cbn [fst snd]; try done; try (intros; not_clean).
  destruct (foldl _ _ ms) as [t st'] eqn:E. cbn [fst snd]. intros Hc.
  pose proof (foldl_holds _ _ _ _ says_string ms holds_CheckoutLink_CheckoutURL
                (ltac:(auto 6 with faithful sticky)) _ _ _ _ E Hc) as [_ H1].
  pose proof (foldl_holds _ _ _ _ says_string ms holds_CheckoutLink_Token
                (ltac:(auto 6 with faithful sticky)) _ _ _ _ E Hc) as [_ H2].
  pose proof (foldl_holds _ _ _ _ (says_Time Time_UnmarshalJSON) ms holds_CheckoutLink_ExpiresAt
                (ltac:(auto 6 with faithful sticky)) _ _ _ _ E Hc) as [_ H3].
  clear E Hc. destruct t. simpl in *. subst. reflexivity.
Qed.

Hint Resolve faithful_CheckoutLink : faithful.

Lemma holds_EntitlementCheck_HasAccess :
  holds (EntitlementCheck_fields Any_nil Any_of_JSON) "has_access" EntitlementCheck_HasAccess
    json.dec_bool.
Proof. unfold EntitlementCheck_fields. holds_table. Qed.

Lemma holds_EntitlementCheck_Value :
  holds (EntitlementCheck_fields Any_nil Any_of_JSON) "value" EntitlementCheck_Value
    (dec_Any Any_nil Any_of_JSON).
Proof. unfold EntitlementCheck_fields. holds_table. Qed.

Lemma holds_EntitlementCheck_PlanName :
  holds (EntitlementCheck_fields Any_nil Any_of_JSON) "plan_name" EntitlementCheck_PlanName
    json.dec_string.
Proof. unfold EntitlementCheck_fields. holds_table. Qed.

Lemma faithful_EntitlementCheck :
  faithful (json.decode (Unmarshaler := EntitlementCheck_Unmarshaler Any_nil Any_of_JSON))
    (says_EntitlementCheck Any_nil Any_of_JSON).
Proof.
  intros v cur st.
  unfold json.decode, EntitlementCheck_Unmarshaler, json.dec_struct, says_EntitlementCheck.
  destruct v as [| | | | |ms]; cbn [fst snd]; try done; try (intros; not_clean).
  destruct (foldl _ _ ms) as [t st'] eqn:E. cbn [fst snd]. intros Hc.
  pose proof (foldl_holds _ _ _ _ says_bool ms holds_EntitlementCheck_HasAccess
                (ltac:(auto 6 with faithful sticky)) _ _ _ _ E Hc) as [_ H1].
  pose proof (foldl_holds _ _ _ _ (says_Any Any_nil Any_of_JSON) ms holds_EntitlementCheck_Value
                (ltac:(auto 6 with faithful sticky)) _ _ _ _ E Hc) as [_ H2].
  pose proof (foldl_holds _ _ _ _ says_string ms holds_EntitlementCheck_PlanName
                (ltac:(auto 6 with faithful sticky)) _ _ _ _ E Hc) as [_ H3].
  clear E Hc. destruct t. simpl in *. subst. reflexivity.
Qed.

Hint Resolve faithful_EntitlementCheck : faithful.

Lemma holds_UsageRecord_ID :
  holds (UsageRecord_fields Time_UnmarshalJSON) "id" UsageRecord_ID json.dec_string.
Proof. unfold UsageRecord_fields. holds_table. Qed.

Lemma holds_UsageRecord_CustomerID :
  holds (UsageRecord_fields Time_UnmarshalJSON) "customer_id" UsageRecord_CustomerID
    json.dec_string.
Proof. unfold UsageRecord_fields. holds_table. Qed.

Lemma holds_UsageRecord_SubscriptionID :
  holds (UsageRecord_fields Time_UnmarshalJSON) "subscription_id" UsageRecord_SubscriptionID
    json.dec_string.
Proof. unfold UsageRecord_fields. holds_table. Qed.

Lemma holds_UsageRecord_ProductKey :
  holds (UsageRecord_fields Time_UnmarshalJSON) "product_key" UsageRecord_ProductKey
    json.dec_string.
Proof. unfold UsageRecord_fields. holds_table. Qed.

Lemma holds_UsageRecord_Quantity :
  holds (UsageRecord_fields Time_UnmarshalJSON) "quantity" UsageRecord_Quantity json.dec_int.
Proof. unfold UsageRecord_fields. holds_table. Qed.

Lemma holds_UsageRecord_Timestamp :
  holds (UsageRecord_fields Time_UnmarshalJSON) "timestamp" UsageRecord_Timestamp
    (dec_Time Time_UnmarshalJSON).
Proof. unfold UsageRecord_fields. holds_table. Qed.

Lemma holds_UsageRecord_IdempotencyKey :
  holds (UsageRecord_fields Time_UnmarshalJSON) "idempotency_key" UsageRecord_IdempotencyKey
    json.dec_string.
Proof. unfold UsageRecord_fields. holds_table. Qed.

Lemma holds_UsageRecord_CreatedAt :
  holds (UsageRecord_fields Time_UnmarshalJSON) "created_at" UsageRecord_CreatedAt
    (dec_Time Time_UnmarshalJSON).
Proof. unfold UsageRecord_fields. holds_table. Qed.

Lemma faithful_UsageRecord :
  faithful (json.decode (Unmarshaler := UsageRecord_Unmarshaler Time_UnmarshalJSON))
    (says_UsageRecord Time_UnmarshalJSON).
Proof.
  intros v cur st.
  unfold json.decode, UsageRecord_Unmarshaler, json.dec_struct, says_UsageRecord.
  destruct v as [| | | | |ms]; cbn [fst snd]; try done; try (intros; not_clean).
  destruct (foldl _ _ ms) as [t st'] eqn:E. cbn [fst snd]. intros Hc.
  pose proof (foldl_holds _ _ _ _ says_string ms holds_UsageRecord_ID
                (ltac:(auto 6 with faithful sticky)) _ _ _ _ E Hc) as [_ H1].
  pose proof (foldl_holds _ _ _ _ says_string ms holds_UsageRecord_CustomerID
                (ltac:(auto 6 with faithful sticky)) _ _ _ _ E Hc) as [_ H2].
  pose proof (foldl_holds _ _ _ _ says_string ms holds_UsageRecord_SubscriptionID
                (ltac:(auto 6 with faithful sticky)) _ _ _ _ E Hc) as [_ H3].
  pose proof (foldl_holds _ _ _ _ says_string ms holds_UsageRecord_ProductKey
                (ltac:(auto 6 with faithful sticky)) _ _ _ _ E Hc) as [_ H4].
  pose proof (foldl_holds _ _ _ _ says_int ms holds_UsageRecord_Quantity
                (ltac:(auto 6 with faithful sticky)) _ _ _ _ E Hc) as [_ H5].
  pose proof (foldl_holds _ _ _ _ (says_Time Time_UnmarshalJSON) ms holds_UsageRecord_Timestamp
                (ltac:(auto 6 with faithful sticky)) _ _ _ _ E Hc) as [_ H6].
  pose proof (foldl_holds _ _ _ _ says_string ms holds_UsageRecord_IdempotencyKey
                (ltac:(auto 6 with faithful sticky)) _ _ _ _ E Hc) as [_ H7].
  pose proof (foldl_holds _ _ _ _ (says_Time Time_UnmarshalJSON) ms holds_UsageRecord_CreatedAt
                (ltac:(auto 6 with faithful sticky)) _ _ _ _ E Hc) as [_ H8].
  clear E Hc. destruct t. simpl in *. subst. reflexivity.
Qed.

Hint Resolve faithful_UsageRecord : faithful.

Lemma holds_UsageSummary_SubscriptionID :
  holds UsageSummary_fields "subscription_id" UsageSummary_SubscriptionID json.dec_string.
Proof. unfold UsageSummary_fields. holds_table. Qed.

Lemma holds_UsageSummary_ProductKey :
  holds UsageSummary_fields "product_key" UsageSummary_ProductKey json.dec_string.
Proof. unfold UsageSummary_fields. holds_table. Qed.

Lemma holds_UsageSummary_TotalUsage :
  holds UsageSummary_fields "total_usage" UsageSummary_TotalUsage json.dec_int.
Proof. unfold UsageSummary_fields. holds_table. Qed.

Lemma holds_UsageSummary_RecordCount :
  holds UsageSummary_fields "record_count" UsageSummary_RecordCount json.dec_int.
Proof. unfold UsageSummary_fields. holds_table. Qed.

Lemma holds_UsageSummary_PeriodStart :
  holds UsageSummary_fields "period_start" UsageSummary_PeriodStart json.dec_string.
Proof. unfold UsageSummary_fields. holds_table. Qed.

Lemma holds_UsageSummary_PeriodEnd :
  holds UsageSummary_fields "period_end" UsageSummary_PeriodEnd json.dec_string.
Proof. unfold UsageSummary_fields. holds_table. Qed.

Lemma faithful_UsageSummary :
  faithful (json.decode (Unmarshaler := UsageSummary_Unmarshaler))
    says_UsageSummary.
Proof.
  intros v cur st.
  unfold json.decode, UsageSummary_Unmarshaler, json.dec_struct, says_UsageSummary.
  destruct v as [| | | | |ms]; cbn [fst snd]; try done; try (intros; not_clean).
  destruct (foldl _ _ ms) as [t st'] eqn:E. cbn [fst snd]. intros Hc.
  pose proof (foldl_holds _ _ _ _ says_string ms holds_UsageSummary_SubscriptionID
                (ltac:(auto 6 with faithful sticky)) _ _ _ _ E Hc) as [_ H1].
  pose proof (foldl_holds _ _ _ _ says_string ms holds_UsageSummary_ProductKey
                (ltac:(auto 6 with faithful sticky)) _ _ _ _ E Hc) as [_ H2].
  pose proof (foldl_holds _ _ _ _ says_int ms holds_UsageSummary_TotalUsage
                (ltac:(auto 6 with faithful sticky)) _ _ _ _ E Hc) as [_ H3].
  pose proof (foldl_holds _ _ _ _ says_int ms holds_UsageSummary_RecordCount
                (ltac:(auto 6 with faithful sticky)) _ _ _ _ E Hc) as [_ H4].
  pose proof (foldl_holds _ _ _ _ says_string ms holds_UsageSummary_PeriodStart
                (ltac:(auto 6 with faithful sticky)) _ _ _ _ E Hc) as [_ H5].
  pose proof (foldl_holds _ _ _ _ says_string ms holds_UsageSummary_PeriodEnd
                (ltac:(auto 6 with faithful sticky)) _ _ _ _ E Hc) as [_ H6].
  clear E Hc. destruct t. simpl in *. subst. reflexivity.
Qed.

Hint Resolve faithful_UsageSummary : faithful.

Lemma holds_PortalLink_PortalURL :
  holds (PortalLink_fields Time_UnmarshalJSON) "portal_url" PortalLink_PortalURL json.dec_string.
Proof. unfold PortalLink_fields. holds_table. Qed.

Lemma holds_PortalLink_Token :
  holds (PortalLink_fields Time_UnmarshalJSON) "token" PortalLink_Token json.dec_string.
Proof. unfold PortalLink_fields. holds_table. Qed.

Lemma holds_PortalLink_ExpiresAt :
  holds (PortalLink_fields Time_UnmarshalJSON) "expires_at" PortalLink_ExpiresAt
    (dec_Time Time_UnmarshalJSON).
Proof. unfold PortalLink_fields. holds_table. Qed.

Lemma faithful_PortalLink :
  faithful (json.decode (Unmarshaler := PortalLink_Unmarshaler Time_UnmarshalJSON))
    (says_PortalLink Time_UnmarshalJSON).
Proof.
  intros v cur st.
  unfold json.decode, PortalLink_Unmarshaler, json.dec_struct, says_PortalLink.
  destruct v as [| | | | |ms]; cbn [fst snd]; try done; try (intros; not_clean).
  destruct (foldl _ _ ms) as [t st'] eqn:E. cbn [fst snd]. intros Hc.
  pose proof (foldl_holds _ _ _ _ says_string ms holds_PortalLink_PortalURL
                (ltac:(auto 6 with faithful sticky)) _ _ _ _ E Hc) as [_ H1].
  pose proof (foldl_holds _ _ _ _ says_string ms holds_PortalLink_Token
                (ltac:(auto 6 with faithful sticky)) _ _ _ _ E Hc) as [_ H2].
  pose proof (foldl_holds _ _ _ _ (says_Time Time_UnmarshalJSON) ms holds_PortalLink_ExpiresAt
                (ltac:(auto 6 with faithful sticky)) _ _ _ _ E Hc) as [_ H3].
  clear E Hc. destruct t. simpl in *. subst. reflexivity.
Qed.

Hint Resolve faithful_PortalLink : faithful.

Lemma request_says {B R} {MB : json.Marshaler B} {UR : json.Unmarshaler R}
    (says : json.Value → R → R) :
  faithful json.decode says →
  ∀ ctx method path (body : option B) w req resp respBody,
    outgoing url_Parse (client w) ctx method path body = inl req →
    http.RoundTrip (httpClient (client w)) (wire w) req = inl resp →
    http.ReadAll resp = inl respBody →
    (http.StatusCode resp < 400)%Z →
    ∀ j, json.parse respBody = Some j →
    ∀ r, let out := request url_Parse ctx method path body (Some r) w in
         out.1.2 = nil → out = ((Some (says j r), nil), sent req w).
Proof.
  intros Hsays ctx method path body w req resp respBody Hout Hresp Hread Hst j Hj r out.
  subst out.
  rewrite (request_success url_Parse ctx method path body (Some r) w req resp respBody
             Hout Hresp Hread Hst).
  rewrite length_pos_nonempty.
  destruct (String.eqb_spec respBody "") as [->|_]; [by rewrite parse_empty in Hj|].
  cbn [negb fst snd].
  destruct (json.Unmarshal respBody r) as [r' err] eqn:Hu. cbn [fst snd].
  destruct err; try done. intros _.
  apply Unmarshal_nil in Hu as (j' & st & Hj' & Hd & Hc).
  rewrite Hj in Hj'. injection Hj' as <-.
  pose proof (Hsays j r json.dstate_init) as Hs. rewrite Hd in Hs.
  cbn [fst snd] in Hs. by rewrite (Hs Hc).
Qed.

Lemma says_map_enc (m : gmap string string) :
  ascii_map (Some m) → says_map (json.enc_map (Some m)) None = Some m.
Proof.
  intros Hm.
  pose proof (faithful_dec_map (json.enc_map (Some m)) None json.dstate_init) as Hs.
  rewrite (dec_map_enc m None json.dstate_init Hm eq_refl eq_refl) in Hs.
  symmetry. by apply Hs.
Qed.


End destinations.

(** ** The properties at sample inputs *)

(** A missing customer: the server answers 404 with a structured body. *)
Lemma request_structured_error_sample :
  let w := sample_world 404 sample_not_found in
  let req := sample_request "GET" "/billing/v1/customers/cus_missing" None in
  json.Unmarshal sample_not_found Error_zero
    = ({| StatusCode := 0; Code := "not_found"; Message := "no such customer"; Field := "" |},
       nil)
  ∧ request (B := Empty_set) (UR := sample_Customer_Unmarshaler) sample_url_Parse
      (ctx_value 0) "GET" "/billing/v1/customers/cus_missing" None
      (Some sample_Customer_zero) w
    = ((Some sample_Customer_zero,
        APIError (Some {| StatusCode := 404; Code := "not_found";
                          Message := "no such customer"; Field := "" |})),
       sent req w).
Proof.
  intros w req.
  assert (He : json.Unmarshal sample_not_found Error_zero
               = ({| StatusCode := 0; Code := "not_found"; Message := "no such customer";
                     Field := "" |}, nil)) by (vm_compute; reflexivity).
  split; [exact He|].
  refine (proj1 (request_structured_error (B := Empty_set)
            (UR := sample_Customer_Unmarshaler) sample_url_Parse (ctx_value 0)
            "GET" "/billing/v1/customers/cus_missing" None (Some sample_Customer_zero) w req
            {| http.StatusCode := 404; http.ReadAll := inl sample_not_found |}
            sample_not_found _ _ _ _ _ He)).
  - vm_compute; reflexivity.
  - reflexivity.
  - reflexivity.
  - simpl; lia.
Defined.

(** A gateway in trouble: the server answers 503 with a body that is not
    JSON. *)
Lemma request_generic_error_sample :
  let w := sample_world 503 "Service Unavailable" in
  let req := sample_request "GET" "/billing/v1/customers/cus_1" None in
  (json.Unmarshal "Service Unavailable" Error_zero).2 ≠ nil
  ∧ request (B := Empty_set) (UR := sample_Customer_Unmarshaler) sample_url_Parse
      (ctx_value 0) "GET" "/billing/v1/customers/cus_1" None (Some sample_Customer_zero) w
    = ((Some sample_Customer_zero,
        APIError (Some {| StatusCode := 503; Code := "unknown_error";
                          Message := "Service Unavailable"; Field := "" |})),
       sent req w).
Proof.
  intros w req.
  assert (He : (json.Unmarshal "Service Unavailable" Error_zero).2 ≠ nil)
    by (vm_compute; discriminate).
  split; [exact He|].
  refine (proj1 (request_generic_error (B := Empty_set)
            (UR := sample_Customer_Unmarshaler) sample_url_Parse (ctx_value 0)
            "GET" "/billing/v1/customers/cus_1" None (Some sample_Customer_zero) w req
            {| http.StatusCode := 503; http.ReadAll := inl "Service Unavailable" |}
            "Service Unavailable" _ _ _ _ He)).
  - vm_compute; reflexivity.
  - reflexivity.
  - reflexivity.
  - simpl; lia.
Defined.



(** A failing creation of a customer, on a server that refuses customers
    and accepts subscriptions: the wrapper of the customer hides the status
    from the helpers, while the wrapper of the subscription succeeds.  And a
    failing creation of a subscription, on a server that answers 404 to
    everything. *)
Lemma wrapped_error_sample :
  let e := {| StatusCode := 404; Code := "not_found"; Message := "no such customer";
              Field := "" |} in
  let w1 := NewClient no_customers "tedo_live_xxx" in
  let err1 := (CreateCustomerForUser sample_url_Parse "" sample_Time_UnmarshalJSON
                 (ctx_value 0) 42 "a@b.com" "Al" w1).1.2 in
  let w2 := sample_world 404 sample_not_found in
  let err2 := (createSubscriptionWithPlan sample_url_Parse "" sample_Time_UnmarshalJSON
                 (ctx_value 0) "cus_1" "free" "free_monthly_EUR" w2).1.2 in
  IsNotFound (APIError (Some e)) = Some true
  ∧ (createSubscriptionWithPlan sample_url_Parse "" sample_Time_UnmarshalJSON
       (ctx_value 0) "cus_1" "free" "free_monthly_EUR" w1).1 = ("sub_1", nil)
  ∧ err1 = wrapError "failed to create billing customer for user: %w" (APIError (Some e))
  ∧ IsNotFound err1 = Some false
  ∧ err2 = wrapError "failed to create subscription: %w" (APIError (Some e))
  ∧ IsNotFound err2 = Some false.
Proof.
  intros e w1 err1 w2 err2.
  destruct (proj1 (wrapped_error_is_not_classified sample_url_Parse ""
                     sample_Time_UnmarshalJSON (ctx_value 0) w1 42 "a@b.com" "Al" "cus_1"
                     "free" "free_monthly_EUR") e) as (H1 & H2 & _).
  { vm_compute; reflexivity. }
  destruct (proj2 (wrapped_error_is_not_classified sample_url_Parse ""
                     sample_Time_UnmarshalJSON (ctx_value 0) w2 42 "a@b.com" "Al" "cus_1"
                     "free" "free_monthly_EUR") e) as (H3 & H4 & _).
  { vm_compute; reflexivity. }
  split; [reflexivity|]. split; [vm_compute; reflexivity|].
  split; [exact H1|]. split; [exact H2|]. split; [exact H3|exact H4].
Defined.

(** An update of the name alone: the body of the PATCH request is an object
    with the one member [name]. *)
Lemma partial_update_sample :
  let w := sample_world 200 sample_customer in
  let p := mkUpdateCustomerParams None (Some "Al") None None in
  http.Body <$> wire (UpdateCustomer sample_url_Parse "" sample_Time_UnmarshalJSON
                        (ctx_value 0) "cus_1" (Some p) w).2
  = [Some ("{" +:+ json.in_quotes "name" +:+ ":" +:+ json.in_quotes "Al" +:+ "}")].
Proof.
  intros w p.
  destruct (partial_update_body sample_url_Parse "" sample_Time_UnmarshalJSON)
    as (Hsent & _ & _ & _ & _ & _ & _ & _ & _ & Hone & _).
  destruct (Hone "Al" None (or_introl eq_refl)) as (_ & Hname & _).
  destruct (Hsent 0%N "cus_1" p w _ eq_refl Hname) as (req & -> & _ & _ & Hbody).
  cbn [wire sent]. rewrite fmap_app. cbn [fmap list_fmap]. rewrite Hbody.
  vm_compute; reflexivity.
Defined.

(** ** The scenarios of the specification, evaluated *)

(** Creating a customer with only an email: a POST of the customers path
    with the email as the only member of the body, and the customer of the
    response returned with its id and email. *)
Example CreateCustomer_scenario :
  let w := sample_world 200 sample_customer in
  let params := mkCreateCustomerParams "a@b.com" "" "" None in
  CreateCustomer sample_url_Parse "" sample_Time_UnmarshalJSON (ctx_value 0) (Some params) w
  = (inl (mkCustomer "cus_1" "a@b.com" "" "" None [] "" ""),
     sent (sample_request "POST" "/billing/v1/customers"
             (Some (single_member "email" (json.Str "a@b.com")))) w).
Proof. vm_compute. reflexivity. Qed.

(** Getting a customer that does not exist: the error is a not-found error
    with the message of the server. *)
Example GetCustomer_scenario :
  let w := sample_world 404 sample_not_found in
  let r := (GetCustomer sample_url_Parse "" sample_Time_UnmarshalJSON (ctx_value 0)
              "cus_missing" w).1 in
  r = inr (APIError (Some {| StatusCode := 404; Code := "not_found";
                             Message := "no such customer"; Field := "" |}))
  ∧ (∀ err, r = inr err → IsNotFound err = Some true ∧ IsValidationError err = Some false).
Proof. vm_compute. split; [reflexivity|]. by intros err [= <-]. Qed.

(** Creating a customer for user 42: the external id in the body is
    [user:42], and the id of the created customer is returned. *)
Example CreateCustomerForUser_scenario :
  let w := sample_world 200 sample_customer in
  let out := CreateCustomerForUser sample_url_Parse "" sample_Time_UnmarshalJSON
               (ctx_value 0) 42 "a@b.com" "Al" w in
  out.1 = ("cus_1", nil)
  ∧ http.Body <$> wire out.2
    = [Some ("{" +:+ json.in_quotes "email" +:+ ":" +:+ json.in_quotes "a@b.com" +:+ ","
             +:+ json.in_quotes "name" +:+ ":" +:+ json.in_quotes "Al" +:+ ","
             +:+ json.in_quotes "external_id" +:+ ":" +:+ json.in_quotes "user:42" +:+ "}")].
Proof. vm_compute. split; reflexivity. Qed.

(** Creating the subscription of a workspace: the body names the customer
    and the free plan, and the id of the subscription is returned. *)
Example CreateSubscriptionForWorkspace_scenario :
  let w := sample_world 200 sample_subscription in
  let out := CreateSubscriptionForWorkspace sample_url_Parse "" sample_Time_UnmarshalJSON
               (ctx_value 0) "cus_1" "ws_7" w in
  out.1 = ("sub_1", nil)
  ∧ http.Body <$> wire out.2
    = [Some ("{" +:+ json.in_quotes "customer_id" +:+ ":" +:+ json.in_quotes "cus_1" +:+ ","
             +:+ json.in_quotes "plan_key" +:+ ":" +:+ json.in_quotes "free" +:+ ","
             +:+ json.in_quotes "price_key" +:+ ":" +:+ json.in_quotes "free_monthly_EUR"
             +:+ "}")].
Proof. vm_compute. split; reflexivity. Qed.

(** Listing customers, ten at a time from a cursor. *)
Example ListCustomers_scenario :
  ListCustomers_path (Some (mkListCustomersParams 10 "abc"))
  = "/billing/v1/customers?limit=10&cursor=abc".
Proof. reflexivity. Qed.

(** ** The accessors as one family *)

Lemma outgoing_prepared {B} {MB : json.Marshaler B} url_Parse c ctx method path
    (body : option B) :
  outgoing url_Parse c ctx method path body
  = prepared url_Parse c ctx method path (marshalled body).
Proof. reflexivity. Qed.

Lemma usage_path subscriptionID productKey :
  (if negb (String.eqb productKey "")
   then ("/billing/v1/usage?subscription_id=" +:+ subscriptionID)
        +:+ ("&product_key=" +:+ productKey)
   else "/billing/v1/usage?subscription_id=" +:+ subscriptionID)
  = "/billing/v1/usage" +:+ usage_query subscriptionID productKey.
Proof.
  unfold usage_query. destruct (String.eqb productKey ""); cbn [negb].
  - change ("/billing/v1/usage?subscription_id=" +:+ subscriptionID)
      with ("/billing/v1/usage" +:+ "?subscription_id=" +:+ subscriptionID).
    f_equal. f_equal. clear. induction subscriptionID as [|a s IH]; [done|].
    exact (f_equal (String a) IH).
  - change ("/billing/v1/usage?subscription_id=" +:+ subscriptionID)
      with ("/billing/v1/usage" +:+ ("?subscription_id=" +:+ subscriptionID)).
    by rewrite !string_app_assoc.
Qed.

Lemma prepared_error url_Parse c ctx method path bodyReader err :
  prepared url_Parse c ctx method path bodyReader = inr err →
  ∃ format inner, err = wrapError format inner ∧ format ∈ wrapped_before.
Proof.
  unfold prepared, wrapped_before. destruct bodyReader as [b|e].
  - destruct (http.NewRequestWithContext _ _ _ _ _) as [req|e]; [done|].
    intros [= <-]. eexists _, _. split; [done|]. set_solver.
  - intros [= <-]. eexists _, _. split; [done|]. set_solver.
Qed.

(** ** The transport core, continued *)

Lemma parseError_status status body :
  ∃ e, parseError status body = APIError (Some e) ∧ StatusCode e = status.
Proof.
  unfold parseError. destruct (json.Unmarshal body Error_zero) as [e []]; eauto.
Qed.

Lemma prepared_request url_Parse c ctx method path bodyReader req :
  prepared url_Parse c ctx method path bodyReader = inl req →
  http.Method req = (if String.eqb method "" then "GET" else method)
  ∧ http.URL req = baseURL c +:+ path
  ∧ http.Header req = request_headers (apiKey c)
  ∧ bodyReader = inl (http.Body req)
  ∧ http.Ctx req = ctx
  ∧ ctx ≠ ctx_nil
  ∧ http.validMethod (http.Method req) = true
  ∧ url_Parse (http.URL req) = nil.
Proof.
  unfold prepared, http.NewRequestWithContext. destruct bodyReader as [b|e]; [|done].
  destruct (http.validMethod _) eqn:Hvalid; [|done]. cbn [negb].
  destruct ctx as [|id]; [done|].
  destruct (url_Parse _) eqn:Hurl; try done.
  intros [= <-]. by cbn.
Qed.

Lemma wire_sent_inv (w : World) (req req' : http.Request) :
  (wire w ++ [req])%list = (wire w ++ [req'])%list → req = req'.
Proof. intros H. apply app_inv_head in H. by injection H. Qed.

Lemma wire_not_sent (w : World) (req : http.Request) : wire w ≠ (wire w ++ [req])%list.
Proof.
  intros H. apply (f_equal List.length) in H. rewrite List.length_app in H. simpl in H. lia.
Qed.

Section request_properties.

Context {B R : Type} {MB : json.Marshaler B} {UR : json.Unmarshaler R}.
Variable url_Parse : string → error.

Lemma outcome_forms (result : option R) answer :
  (outcome result answer).2 = nil
  ∨ (∃ e, (outcome result answer).2 = APIError (Some e) ∧ (400 ≤ StatusCode e)%Z)
  ∨ (∃ format inner,
       (outcome result answer).2 = wrapError format inner ∧ format ∈ wrapped_after).
Proof.
  unfold outcome, wrapped_after. destruct answer as [resp|err].
  - destruct (http.ReadAll resp) as [respBody|err].
    + destruct (Z.leb_spec 400 (http.StatusCode resp)) as [Hst|Hst].
      * right; left. destruct (parseError_status (http.StatusCode resp) respBody)
          as (e & -> & He). exists e. split; [done|]. cbn. lia.
      * destruct result as [r|]; [|by left].
        destruct (0 <? String.length respBody)%nat; [|by left].
        destruct (json.Unmarshal respBody r) as [r' []]; cbn; [by left|..].
        all: right; right; eexists _, _; split; [done|set_solver].
    + right; right. eexists _, _. split; [done|set_solver].
  - right; right. eexists _, _. split; [done|set_solver].
Qed.

Lemma outcome_nil (result : option R) answer :
  (outcome result answer).2 = nil ↔
  ∃ resp respBody,
    answer = inl resp ∧ http.ReadAll resp = inl respBody
    ∧ (http.StatusCode resp < 400)%Z
    ∧ match result with
      | Some r => respBody = "" ∨ (json.Unmarshal respBody r).2 = nil
      | None => True
      end.
Proof.
  unfold outcome. split.
  - destruct answer as [resp|err]; [|done].
    destruct (http.ReadAll resp) as [respBody|err] eqn:Hread; [|done].
    destruct (Z.leb_spec 400 (http.StatusCode resp)) as [Hst|Hst].
    { by destruct (parseError_status (http.StatusCode resp) respBody) as (e & -> & _). }
    intros H. exists resp, respBody. repeat apply conj; try done.
    destruct result as [r|]; [|done].
    rewrite length_pos_nonempty in H.
    destruct (String.eqb_spec respBody ""); [by left|right]. cbn [negb] in H.
    by destruct (json.Unmarshal respBody r) as [r' []].
  - intros (resp & respBody & -> & -> & Hst & Hres).
    destruct (Z.leb_spec 400 (http.StatusCode resp)); [lia|].
    destruct result as [r|]; [|done].
    rewrite length_pos_nonempty.
    destruct (String.eqb_spec respBody ""); [done|]. cbn [negb].
    destruct Hres as [?|Hres]; [done|].
    by destruct (json.Unmarshal respBody r) as [r' []]; cbn in *; subst.
Qed.

Lemma outcome_classified (result : option R) resp respBody :
  http.ReadAll resp = inl respBody →
  ∀ code, (400 ≤ code)%Z →
    match (outcome result (inl resp)).2 with
    | APIError (Some e) => Some (StatusCode e =? code)%Z
    | APIError None => None
    | _ => Some false
    end = Some (bool_decide (Some (http.StatusCode resp) = Some code)).
Proof.
  intros Hread code Hcode. unfold outcome. rewrite Hread.
  destruct (Z.leb_spec 400 (http.StatusCode resp)) as [Hst|Hst].
  - destruct (parseError_status (http.StatusCode resp) respBody) as (e & -> & He).
    cbn. rewrite He. f_equal. case_bool_decide as Hd.
    + injection Hd as ->. apply Z.eqb_refl.
    + apply Z.eqb_neq. congruence.
  - assert (bool_decide (Some (http.StatusCode resp) = Some code) = false) as ->.
    { case_bool_decide as Hd; [|done]. injection Hd as Hd. lia. }
    destruct result as [r|]; [|done].
    destruct (0 <? String.length respBody)%nat; [|done].
    by destruct (json.Unmarshal respBody r) as [r' []].
Qed.

(** X1: every call of [request] ends in one of two ways.  Either nothing
    has been handed to the transport, and the error wraps the failure to
    write the body or to make the request; or exactly one request has been
    handed to it, and the error is nil, or a structured API error that is
    not a nil pointer and has a status of 400 or more, or wraps the failure
    of the transport, of reading the answer or of decoding it. *)
Theorem request_error_by_stage (ctx : Context) (method path : string) (body : option B)
    (result : option R) (w : World) :
  (wire (request url_Parse ctx method path body result w).2 = wire w
   ∧ ∃ format inner,
       (request url_Parse ctx method path body result w).1.2 = wrapError format inner
       ∧ format ∈ wrapped_before)
  ∨ (∃ req,
       wire (request url_Parse ctx method path body result w).2 = (wire w ++ [req])%list
       ∧ ((request url_Parse ctx method path body result w).1.2 = nil
          ∨ (∃ e, (request url_Parse ctx method path body result w).1.2 = APIError (Some e)
                  ∧ (400 ≤ StatusCode e)%Z)
          ∨ (∃ format inner,
               (request url_Parse ctx method path body result w).1.2
               = wrapError format inner
               ∧ format ∈ wrapped_after))).
Proof.
  rewrite request_outgoing, outgoing_prepared.
  destruct (prepared _ _ _ _ _ _) as [req|err] eqn:Hprep.
  - right. exists req. split; [done|]. apply outcome_forms.
  - left. split; [done|]. exact (prepared_error _ _ _ _ _ _ _ Hprep).
Qed.

(** X2: the three helpers never panic on the error of [request], and each
    answers true exactly when the transport answered the request with a
    response of its status, 404, 400 or 401, whose body could be read,
    whatever that body is.  An error of the transport is never classified,
    whatever error the transport returned. *)
Theorem classification_by_answer (ctx : Context) (method path : string) (body : option B)
    (result : option R) (w : World) :
  IsNotFound (request url_Parse ctx method path body result w).1.2
  = Some (bool_decide (answer_status url_Parse w ctx method path body = Some 404%Z))
  ∧ IsValidationError (request url_Parse ctx method path body result w).1.2
    = Some (bool_decide (answer_status url_Parse w ctx method path body = Some 400%Z))
  ∧ IsUnauthorized (request url_Parse ctx method path body result w).1.2
    = Some (bool_decide (answer_status url_Parse w ctx method path body = Some 401%Z)).
Proof.
  rewrite request_outgoing. unfold answer_status. rewrite outgoing_prepared.
  destruct (prepared _ _ _ _ _ _) as [req|err] eqn:Hprep.
  - cbn [fst snd].
    destruct (http.RoundTrip _ _ _) as [resp|err]; [|done].
    destruct (http.ReadAll resp) as [respBody|err] eqn:Hread.
    + pose proof (outcome_classified result resp respBody Hread) as Hc.
      unfold IsNotFound, IsValidationError, IsUnauthorized.
      repeat apply conj; apply Hc; lia.
    + unfold outcome. by rewrite Hread.
  - by apply prepared_error in Hprep as (format & inner & -> & _).
Qed.

(** X3: [request] returns no error exactly when the request could be made,
    the transport answered it with a status below 400, the body of the
    answer could be read and, where there is a destination and the body is
    not empty, the body was decoded into it without error. *)
Theorem request_no_error_iff (ctx : Context) (method path : string) (body : option B)
    (result : option R) (w : World) :
  (request url_Parse ctx method path body result w).1.2 = nil ↔
  ∃ req resp respBody,
    outgoing url_Parse (client w) ctx method path body = inl req
    ∧ http.RoundTrip (httpClient (client w)) (wire w) req = inl resp
    ∧ http.ReadAll resp = inl respBody
    ∧ (http.StatusCode resp < 400)%Z
    ∧ match result with
      | Some r => respBody = "" ∨ (json.Unmarshal respBody r).2 = nil
      | None => True
      end.
Proof.
  rewrite request_outgoing.
  destruct (outgoing _ _ _ _ _ _) as [req|err] eqn:Hout.
  - cbn [fst snd]. rewrite outcome_nil. split.
    + intros (resp & respBody & ? & ?). by exists req, resp, respBody.
    + intros (req' & resp & respBody & [= <-] & ? & ?). by exists resp, respBody.
  - rewrite outgoing_prepared in Hout.
    apply prepared_error in Hout as (format & inner & -> & _).
    split; [done|]. by intros (? & ? & ? & ? & _).
Qed.

(** X4: a request that [request] hands to the transport has the method of
    the call, or GET when that is empty, the URL made of the base URL of the
    client followed by the path, exactly the headers Authorization, with
    [Bearer] and the API key, Content-Type and Accept, the body that
    [json.Marshal] wrote, or none for a nil body, and the context of the
    call, which is not nil; its method is a valid token and its URL is one
    that [url.Parse] accepts. *)
Theorem request_wire_format (ctx : Context) (method path : string) (body : option B)
    (result : option R) (w : World) (req : http.Request) :
  wire (request url_Parse ctx method path body result w).2 = (wire w ++ [req])%list →
  http.Method req = (if String.eqb method "" then "GET" else method)
  ∧ http.URL req = baseURL (client w) +:+ path
  ∧ http.Header req = request_headers (apiKey (client w))
  ∧ marshalled body = inl (http.Body req)
  ∧ http.Ctx req = ctx
  ∧ ctx ≠ ctx_nil
  ∧ http.validMethod (http.Method req) = true
  ∧ url_Parse (http.URL req) = nil.
Proof.
  rewrite request_outgoing, outgoing_prepared.
  destruct (prepared _ _ _ _ _ _) as [req'|err] eqn:Hprep; cbn [snd].
  - intros Hw. apply wire_sent_inv in Hw as ->. exact (prepared_request _ _ _ _ _ _ _ Hprep).
  - intros Hw. by apply wire_not_sent in Hw.
Qed.

End request_properties.

(** X5: the two setters compose with [request].  After [WithBaseURL url]
    and [WithHTTPClient h], in either order, a request goes to [url]
    followed by the path, carries the API key the client had, and is answered
    by [h], which is asked with the requests sent so far; what the client
    pointed to before is not consulted.  A client fresh from [NewClient] sends
    to the default base URL, with the key it was made with, and its
    transport sees no earlier request. *)
Theorem request_after_setters {B R} {MB : json.Marshaler B} {UR : json.Unmarshaler R}
    (url_Parse : string → error) (url : string) (h : http.Client) (ctx : Context)
    (method path : string) (body : option B) (result : option R) (w : World) :
  (WithHTTPClient h (WithBaseURL url w).2).2 = (WithBaseURL url (WithHTTPClient h w).2).2
  ∧ (∀ req,
       wire (request url_Parse ctx method path body result
               (WithHTTPClient h (WithBaseURL url w).2).2).2
       = (wire w ++ [req])%list →
       http.URL req = url +:+ path
       ∧ http.Header req = request_headers (apiKey (client w))
       ∧ (request url_Parse ctx method path body result
            (WithHTTPClient h (WithBaseURL url w).2).2).1
         = outcome result (http.RoundTrip h (wire w) req))
  ∧ (∀ transport key req,
       wire (request url_Parse ctx method path body result (NewClient transport key)).2
       = [req] →
       http.URL req = defaultBaseURL +:+ path
       ∧ http.Header req = request_headers key
       ∧ (request url_Parse ctx method path body result (NewClient transport key)).1
         = outcome result (transport [] req)).
Proof.
  split; [done|]. split.
  - intros req. rewrite request_outgoing, outgoing_prepared.
    destruct (prepared _ _ _ _ _ _) as [req'|err] eqn:Hprep; cbn [fst snd].
    + intros Hw. apply (wire_sent_inv w) in Hw as ->.
      by destruct (prepared_request _ _ _ _ _ _ _ Hprep) as (_ & -> & -> & _).
    + intros Hw. by apply (wire_not_sent w) in Hw.
  - intros transport key req. rewrite request_outgoing, outgoing_prepared.
    destruct (prepared _ _ _ _ _ _) as [req'|err] eqn:Hprep; cbn [fst snd].
    + intros [= ->].
      by destruct (prepared_request _ _ _ _ _ _ _ Hprep) as (_ & -> & -> & _).
    + done.
Qed.

Section call_properties.

Variable url_Parse : string → error.
Context {Time : Type}.
Variable Time_zero : Time.
Variable Time_UnmarshalJSON : string → Time → Time * error.
Variable Time_MarshalJSON : Time → json.Value + error.
Context {Any : Type}.
Variable Any_nil : Any.
Variable Any_of_JSON : json.Value → Any * error.

Notation "'run_call'" :=
  (run url_Parse Time_zero Time_UnmarshalJSON Time_MarshalJSON Any_nil Any_of_JSON).
Notation "'body_of_call'" := (body_of Time_MarshalJSON).

(** Reduce the call in the goal to the call of [request] it makes. *)
Ltac to_request w :=
  cbn [run method_of path_of body_of rewrapped relayed];
  unfold CreatePlan, ListPlans, GetPlan, UpdatePlan, DeletePlan, CreatePrice, ListPrices,
    ArchivePrice, CreateEntitlement, ListEntitlements, ArchiveEntitlement, CreateCustomer,
    CreateCustomerForUser, GetCustomer, ListCustomers, UpdateCustomer, DeleteCustomer,
    CreateSubscriptionForWorkspace, CreateSubscriptionForGuestWorkspace,
    CreateSubscriptionForBasicPlan, createSubscriptionWithPlan, CreateSubscription,
    GetSubscription, CancelSubscription, CreateCheckoutLink, CheckEntitlementByKey,
    CheckEntitlement, RecordUsageByKey, RecordUsage, GetUsageSummaryByKey, GetUsageSummary,
    CreatePortalLink, CreateCustomer, fmt_Errorf, plan_subscription, FreePlanKey,
    FreePriceKey, GuestPlanKey, GuestPriceKey, BasicPlanKey, BasicPriceKey;
  unfold mbind, M_bind, mret, M_ret;
  cbv zeta;
  cbn [GetUsageSummaryParams_SubscriptionID GetUsageSummaryParams_ProductKey];
  rewrite ?usage_path, ?string_app_assoc;
  match goal with
  | |- context [@request ?u ?B ?R ?HB ?HR ?c ?m ?p ?b ?r w] =>
      rewrite (@request_outgoing B R HB HR u c m p b r w), outgoing_prepared
  end.

Lemma run_request ctx c w :
  panics c = false →
  ∃ R (UR : json.Unmarshaler R) (zero : option R),
    run_call ctx c w =
      match prepared url_Parse (client w) ctx (method_of c) (path_of c) (body_of_call c) with
      | inr err => (Some (relayed c err), w)
      | inl req =>
          (Some (relayed c
                   (outcome zero (http.RoundTrip (httpClient (client w)) (wire w) req)).2),
           sent req w)
      end.
Proof.
  intros Hp.
  destruct c as [| | | | | | | | | | | | | | | | | | | | | | | | | | | |[p|]| |];
    try discriminate Hp; clear Hp.
  all: to_request w.
  all: match goal with
       | |- context [@outcome ?R ?UR ?zero _] => exists R, UR, zero
       end.
  all: unfold marshalled.
  all: match goal with |- context [prepared ?u ?c ?x ?m ?p ?b] =>
         destruct (prepared u c x m p b) as [req|err] eqn:Hprep end.
  all: try (destruct (outcome _ _) as [r []]; reflexivity).
  all: by apply prepared_error in Hprep as (format & inner & -> & _).
Qed.

Lemma method_of_nonempty (c : @call Time) : String.eqb (method_of c) "" = false.
Proof. by destruct c. Qed.

Lemma run_panics ctx c w : panics c = true → run_call ctx c w = (None, w).
Proof.
  destruct c as [| | | | | | | | | | | | | | | | | | | | | | | | | | | |[p|]| |];
    by try discriminate.
Qed.

(** What a call does, by what becomes of its request. *)
Lemma run_cases ctx c w :
  (panics c = true ∧ run_call ctx c w = (None, w))
  ∨ (panics c = false
     ∧ ∃ format inner,
         prepared url_Parse (client w) ctx (method_of c) (path_of c) (body_of_call c)
         = inr (wrapError format inner)
         ∧ format ∈ wrapped_before
         ∧ run_call ctx c w = (Some (relayed c (wrapError format inner)), w))
  ∨ (panics c = false
     ∧ ∃ req R (UR : json.Unmarshaler R) (zero : option R),
         prepared url_Parse (client w) ctx (method_of c) (path_of c) (body_of_call c)
         = inl req
         ∧ run_call ctx c w =
             (Some (relayed c
                      (outcome zero
                         (http.RoundTrip (httpClient (client w)) (wire w) req)).2),
              sent req w)).
Proof.
  destruct (panics c) eqn:Hp.
  - left. split; [done|]. by apply run_panics.
  - right. destruct (run_request ctx c w Hp) as (R & UR & zero & Hrun).
    destruct (prepared _ _ _ _ _ _) as [req|err] eqn:Hprep.
    + right. split; [done|]. by exists req, R, UR, zero.
    + left. split; [done|].
      destruct (prepared_error _ _ _ _ _ _ _ Hprep) as (format & inner & -> & Hin).
      by exists format, inner.
Qed.

Lemma relayed_nil (c : @call Time) err : relayed c err = nil ↔ err = nil.
Proof. unfold relayed. destruct (rewrapped c), err; naive_solver. Qed.

(** X6: every accessor leaves the client as it is and hands at most one
    request to the transport.  That request has the method and the path of
    the accessor's endpoint, under the base URL of the client, with the
    identifiers put into the path as they are given; it has the three headers
    with the API key of the client, the body written from the parameters,
    and the context of the call. *)
Theorem accessors_follow_endpoints (ctx : Context) (c : call) (w : World) :
  client (run_call ctx c w).2 = client w
  ∧ (wire (run_call ctx c w).2 = wire w
     ∨ ∃ req,
         wire (run_call ctx c w).2 = (wire w ++ [req])%list
         ∧ http.Method req = method_of c
         ∧ http.URL req = baseURL (client w) +:+ path_of c
         ∧ http.Header req = request_headers (apiKey (client w))
         ∧ body_of_call c = inl (http.Body req)
         ∧ http.Ctx req = ctx).
Proof.
  destruct (run_cases ctx c w)
    as [[_ ->]|[(_ & format & inner & _ & _ & ->)|(_ & req & R & UR & zero & Hprep & ->)]].
  - split; [done|by left].
  - split; [done|by left].
  - split; [done|right]. exists req. split; [done|].
    destruct (prepared_request _ _ _ _ _ _ _ Hprep) as (Hm & Hu & Hh & Hb & Hc & _).
    by rewrite method_of_nonempty in Hm.
Qed.

(** X7: a request of an accessor has no body exactly when its method is GET
    or DELETE; a POST or a PATCH always has one, also when the parameters
    are nil. *)
Theorem accessors_body_by_method (ctx : Context) (c : call) (w : World)
    (req : http.Request) :
  wire (run_call ctx c w).2 = (wire w ++ [req])%list →
  (http.Body req = None ↔ http.Method req = "GET" ∨ http.Method req = "DELETE")
  ∧ (is_Some (http.Body req) ↔ http.Method req = "POST" ∨ http.Method req = "PATCH").
Proof.
  destruct (run_cases ctx c w)
    as [[_ ->]|[(_ & format & inner & _ & _ & ->)|(_ & req' & R & UR & zero & Hprep & ->)]];
    cbn [snd].
  - intros Hw. by apply wire_not_sent in Hw.
  - intros Hw. by apply wire_not_sent in Hw.
  - intros Hw. apply wire_sent_inv in Hw as ->.
    destruct (prepared_request _ _ _ _ _ _ _ Hprep) as (Hm & _ & _ & Hb & _).
    rewrite method_of_nonempty in Hm. rewrite Hm. clear Hprep Hm.
    destruct (http.Body req) as [text|].
    + assert (method_of c = "POST" ∨ method_of c = "PATCH") as Hpost.
      { destruct c; cbn [body_of method_of] in Hb |- *; try discriminate Hb; auto. }
      split.
      * split; [done|]. intros H.
        destruct Hpost as [Hq|Hq], H as [H|H]; rewrite Hq in H; discriminate.
      * split; [by intros _|]. intros _. by eexists.
    + assert (method_of c = "GET" ∨ method_of c = "DELETE") as Hget.
      { destruct c; cbn [body_of method_of] in Hb |- *; auto.
        all: unfold marshalled in Hb; by destruct (json.Marshal _). }
      split.
      * split; [by intros _|done].
      * split; [by intros [? ?]|]. intros H.
        destruct Hget as [Hq|Hq], H as [H|H]; rewrite Hq in H; discriminate.
Qed.

(** X8: with a nil context no accessor sends anything: the call panics, as
    [GetUsageSummary] does on nil parameters, or returns an error that is
    not nil and that none of the three helpers classifies. *)
Theorem accessors_nil_context (c : call) (w : World) :
  (run_call ctx_nil c w).2 = w
  ∧ ((run_call ctx_nil c w).1 = None
     ∨ ∃ err, (run_call ctx_nil c w).1 = Some err
         ∧ err ≠ nil
         ∧ IsNotFound err = Some false
         ∧ IsValidationError err = Some false
         ∧ IsUnauthorized err = Some false).
Proof.
  destruct (run_cases ctx_nil c w)
    as [[_ ->]|[(_ & format & inner & _ & _ & ->)|(_ & req & R & UR & zero & Hprep & _)]].
  - split; [done|by left].
  - split; [done|right]. eexists. split; [done|].
    unfold relayed. by destruct (rewrapped c).
  - by destruct (prepared_request _ _ _ _ _ _ _ Hprep) as (_ & _ & _ & _ & _ & Hctx & _).
Qed.

(** X10: when the server answers an accessor with a status of 400 or more
    and a body that can be read, an accessor that calls [request] itself
    returns the structured error of [request] as it is, so that each helper
    answers by the status of the response; a wrapper returns that error
    wrapped once more. *)
Theorem accessors_relay_server_errors (ctx : Context) (c : call) (w : World)
    (req : http.Request) (resp : http.Response) (respBody : string) :
  panics c = false →
  prepared url_Parse (client w) ctx (method_of c) (path_of c) (body_of_call c) = inl req →
  http.RoundTrip (httpClient (client w)) (wire w) req = inl resp →
  http.ReadAll resp = inl respBody →
  (400 ≤ http.StatusCode resp)%Z →
  run_call ctx c w
  = (Some (relayed c (parseError (http.StatusCode resp) respBody)), sent req w)
  ∧ match rewrapped c with
    | None =>
        ∃ err, (run_call ctx c w).1 = Some err
          ∧ IsNotFound err = Some (http.StatusCode resp =? 404)%Z
          ∧ IsValidationError err = Some (http.StatusCode resp =? 400)%Z
          ∧ IsUnauthorized err = Some (http.StatusCode resp =? 401)%Z
    | Some format =>
        (run_call ctx c w).1
        = Some (wrapError format (parseError (http.StatusCode resp) respBody))
    end.
Proof.
  intros Hp Hprep Hresp Hread Hst.
  destruct (run_request ctx c w Hp) as (R & UR & zero & Hrun).
  rewrite Hprep, Hresp, (outcome_error zero resp respBody Hread Hst) in Hrun.
  cbn [snd] in Hrun. rewrite Hrun. split; [done|]. cbn [fst].
  destruct (parseError_status (http.StatusCode resp) respBody) as (e & He & Hs).
  unfold relayed. destruct (rewrapped c) as [format|].
  - by rewrite He.
  - eexists. split; [done|]. rewrite He. cbn. by rewrite Hs.
Qed.

(** X11: an accessor returns no error only when the server answered its
    request with a status below 400; and an answer with such a status and
    an empty body is never an error, for any accessor, though it carries
    none of the data the accessor returns. *)
Theorem accessors_success (ctx : Context) (c : call) (w : World) :
  ((run_call ctx c w).1 = Some nil →
   ∃ req resp respBody,
     wire (run_call ctx c w).2 = (wire w ++ [req])%list
     ∧ http.RoundTrip (httpClient (client w)) (wire w) req = inl resp
     ∧ http.ReadAll resp = inl respBody
     ∧ (http.StatusCode resp < 400)%Z)
  ∧ (∀ req resp,
       wire (run_call ctx c w).2 = (wire w ++ [req])%list →
       http.RoundTrip (httpClient (client w)) (wire w) req = inl resp →
       http.ReadAll resp = inl "" →
       (http.StatusCode resp < 400)%Z →
       (run_call ctx c w).1 = Some nil).
Proof.
  destruct (run_cases ctx c w)
    as [[_ ->]|[(_ & format & inner & _ & _ & ->)|(_ & req & R & UR & zero & Hprep & ->)]];
    cbn [fst snd].
  - split; [done|]. intros req resp Hw. by apply wire_not_sent in Hw.
  - split.
    + intros [= H]. apply relayed_nil in H. discriminate.
    + intros req resp Hw. by apply wire_not_sent in Hw.
  - split.
    + intros [= H]. apply relayed_nil, outcome_nil in H
        as (resp & respBody & Hresp & Hread & Hst & _).
      by exists req, resp, respBody.
    + intros req' resp Hw Hresp Hread Hst. apply wire_sent_inv in Hw as <-.
      f_equal. apply relayed_nil, outcome_nil. exists resp, "".
      repeat apply conj; try done. destruct zero; auto.
Qed.

(** X16: an accessor called with nil parameters does not fail for that: it
    sends the JSON text [null] as the body of its request. *)
Theorem nil_parameters_send_null (ctx : Context) (c : call) (w : World)
    (req : http.Request) :
  nil_parameters c = true →
  wire (run_call ctx c w).2 = (wire w ++ [req])%list →
  http.Body req = Some "null".
Proof.
  intros Hnil.
  destruct (run_cases ctx c w)
    as [[_ ->]|[(_ & format & inner & _ & _ & ->)|(_ & req' & R & UR & zero & Hprep & ->)]];
    cbn [snd].
  - intros Hw. by apply wire_not_sent in Hw.
  - intros Hw. by apply wire_not_sent in Hw.
  - intros Hw. apply wire_sent_inv in Hw as ->.
    destruct (prepared_request _ _ _ _ _ _ _ Hprep) as (_ & _ & _ & Hb & _).
    clear Hprep zero UR R.
    destruct c; try discriminate Hnil.
    all: match goal with p : option _ |- _ => destruct p; try discriminate Hnil end.
    all: change (@inl (option string) error (Some "null") = inl (http.Body req)) in Hb.
    all: by injection Hb as <-.
Qed.


End call_properties.

(** ** Deletions *)

Section deletions.

Variable url_Parse : string → error.
Context {Time : Type}.
Variable Time_zero : Time.
Variable Time_UnmarshalJSON : string → Time → Time * error.

Lemma request_discarding ctx path w :
  (request (B := Empty_set) (R := Empty_set) url_Parse ctx "DELETE" path None None w).1.2
  = nil ↔
  ∃ status, answer_status (B := Empty_set) url_Parse w ctx "DELETE" path None = Some status
            ∧ (status < 400)%Z.
Proof.
  rewrite request_outgoing. unfold answer_status.
  destruct (outgoing _ _ _ _ _ _) as [req|err] eqn:Hout; cbn [fst snd].
  - rewrite outcome_nil. split.
    + intros (resp & respBody & -> & -> & Hst & _). by eexists.
    + destruct (http.RoundTrip _ _ _) as [resp|]; [|by intros (? & ? & _)].
      destruct (http.ReadAll resp) as [respBody|] eqn:Hread; [|by intros (? & ? & _)].
      intros (status & [= <-] & Hst). by exists resp, respBody.
  - rewrite outgoing_prepared in Hout.
    apply prepared_error in Hout as (format & inner & -> & _).
    split; [done|]. by intros (? & ? & _).
Qed.

(** X12: the four deletions that return only an error, [DeletePlan],
    [ArchivePrice], [ArchiveEntitlement] and [DeleteCustomer], succeed exactly
    when the server answers with a status below 400 and the body of the
    answer can be read: what the body holds plays no part.  The fifth DELETE,
    [CancelSubscription], decodes the body: answered with a status below 400
    and a body that is not empty and not JSON, it returns an error that wraps
    the syntax error, and no subscription. *)
Theorem deletions_discard_the_body (ctx : Context) (w : World) :
  (∀ id,
     (DeletePlan url_Parse ctx id w).1 = nil ↔
     ∃ status,
       answer_status (B := Empty_set) url_Parse w ctx "DELETE" ("/billing/v1/plans/" +:+ id)
         None = Some status ∧ (status < 400)%Z)
  ∧ (∀ planID priceID,
       (ArchivePrice url_Parse ctx planID priceID w).1 = nil ↔
       ∃ status,
         answer_status (B := Empty_set) url_Parse w ctx "DELETE"
           ("/billing/v1/plans/" +:+ planID +:+ "/prices/" +:+ priceID) None = Some status
         ∧ (status < 400)%Z)
  ∧ (∀ planID entitlementID,
       (ArchiveEntitlement url_Parse ctx planID entitlementID w).1 = nil ↔
       ∃ status,
         answer_status (B := Empty_set) url_Parse w ctx "DELETE"
           ("/billing/v1/plans/" +:+ planID +:+ "/entitlements/" +:+ entitlementID) None
         = Some status
         ∧ (status < 400)%Z)
  ∧ (∀ id,
       (DeleteCustomer url_Parse ctx id w).1 = nil ↔
       ∃ status,
         answer_status (B := Empty_set) url_Parse w ctx "DELETE"
           ("/billing/v1/customers/" +:+ id) None = Some status
         ∧ (status < 400)%Z)
  ∧ (∀ id req resp respBody,
       outgoing (B := Empty_set) url_Parse (client w) ctx "DELETE"
         ("/billing/v1/subscriptions/" +:+ id) None = inl req →
       http.RoundTrip (httpClient (client w)) (wire w) req = inl resp →
       http.ReadAll resp = inl respBody →
       (http.StatusCode resp < 400)%Z →
       respBody ≠ "" →
       json.parse respBody = None →
       CancelSubscription url_Parse Time_zero Time_UnmarshalJSON ctx id w
       = (inr (wrapError "decode response: %w" (otherError "json: syntax error")),
          sent req w)).
Proof.
  repeat apply conj.
  1-4: intros; unfold DeletePlan, ArchivePrice, ArchiveEntitlement, DeleteCustomer, mbind,
         M_bind, mret, M_ret;
       rewrite ?string_app_assoc, <- request_discarding;
       by destruct (request _ _ _ _ _ _ _) as [[? ?] ?].
  - intros id req resp respBody Hout Hresp Hread Hst Hne Hparse.
    unfold CancelSubscription, mbind, M_bind, mret, M_ret.
    rewrite (request_success _ _ _ _ _ _ _ _ _ _ Hout Hresp Hread Hst).
    rewrite length_pos_nonempty. destruct (String.eqb_spec respBody ""); [done|].
    cbn [negb]. unfold json.Unmarshal. by rewrite Hparse.
Qed.

(** X13: identifiers are put into the path as they are, without escaping,
    so that one accessor can make the call of another: deleting the plan
    whose identifier is that of a plan followed by [/prices/] and the
    identifier of a price is archiving that price, and likewise for an
    entitlement; the two calls send the same request and return the same. *)
Theorem identifiers_are_not_escaped (ctx : Context) (planID other : string) (w : World) :
  DeletePlan url_Parse ctx (planID +:+ "/prices/" +:+ other) w
  = ArchivePrice url_Parse ctx planID other w
  ∧ DeletePlan url_Parse ctx (planID +:+ "/entitlements/" +:+ other) w
    = ArchiveEntitlement url_Parse ctx planID other w.
Proof.
  unfold DeletePlan, ArchivePrice, ArchiveEntitlement.
  by rewrite !string_app_assoc.
Qed.

End deletions.

(** ** The responses *)

Section responses.

Variable url_Parse : string → error.
Context {Time : Type}.
Variable Time_zero : Time.
Variable Time_UnmarshalJSON : string → Time → Time * error.
Context {Any : Type}.
Variable Any_nil : Any.
Variable Any_of_JSON : json.Value → Any * error.

Hint Resolve sticky_dec_Time sticky_Subscription sticky_dec_Any sticky_Customer sticky_Price
  sticky_Entitlement : sticky.

Lemma tracked_Plan_ID :
  tracked (Plan_fields Time_zero Time_UnmarshalJSON) "id" Plan_ID.
Proof. unfold Plan_fields. tracked_table. Qed.

Lemma tracked_Plan_Key :
  tracked (Plan_fields Time_zero Time_UnmarshalJSON) "key" Plan_Key.
Proof. unfold Plan_fields. tracked_table. Qed.

Lemma tracked_Plan_Name :
  tracked (Plan_fields Time_zero Time_UnmarshalJSON) "name" Plan_Name.
Proof. unfold Plan_fields. tracked_table. Qed.

Lemma tracked_Plan_Description :
  tracked (Plan_fields Time_zero Time_UnmarshalJSON) "description" Plan_Description.
Proof. unfold Plan_fields. tracked_table. Qed.

Lemma tracked_Price_ID :
  tracked (Price_fields Time_UnmarshalJSON) "id" Price_ID.
Proof. unfold Price_fields. tracked_table. Qed.

Lemma tracked_Price_PlanID :
  tracked (Price_fields Time_UnmarshalJSON) "plan_id" Price_PlanID.
Proof. unfold Price_fields. tracked_table. Qed.

Lemma tracked_Price_Key :
  tracked (Price_fields Time_UnmarshalJSON) "key" Price_Key.
Proof. unfold Price_fields. tracked_table. Qed.

Lemma tracked_Price_Currency :
  tracked (Price_fields Time_UnmarshalJSON) "currency" Price_Currency.
Proof. unfold Price_fields. tracked_table. Qed.

Lemma tracked_Price_Interval :
  tracked (Price_fields Time_UnmarshalJSON) "interval" Price_Interval.
Proof. unfold Price_fields. tracked_table. Qed.

Lemma tracked_Entitlement_ID :
  tracked (Entitlement_fields Time_UnmarshalJSON) "id" Entitlement_ID.
Proof. unfold Entitlement_fields. tracked_table. Qed.

Lemma tracked_Entitlement_PlanID :
  tracked (Entitlement_fields Time_UnmarshalJSON) "plan_id" Entitlement_PlanID.
Proof. unfold Entitlement_fields. tracked_table. Qed.

Lemma tracked_Entitlement_Key :
  tracked (Entitlement_fields Time_UnmarshalJSON) "key" Entitlement_Key.
Proof. unfold Entitlement_fields. tracked_table. Qed.

Lemma tracked_Subscription_ID :
  tracked (Subscription_fields Time_zero Time_UnmarshalJSON) "id" Subscription_ID.
Proof. unfold Subscription_fields. tracked_table. Qed.

Lemma tracked_Subscription_CustomerID :
  tracked (Subscription_fields Time_zero Time_UnmarshalJSON) "customer_id" Subscription_CustomerID.
Proof. unfold Subscription_fields. tracked_table. Qed.

Lemma tracked_Subscription_PriceID :
  tracked (Subscription_fields Time_zero Time_UnmarshalJSON) "price_id" Subscription_PriceID.
Proof. unfold Subscription_fields. tracked_table. Qed.

Lemma tracked_Subscription_Status :
  tracked (Subscription_fields Time_zero Time_UnmarshalJSON) "status" Subscription_Status.
Proof. unfold Subscription_fields. tracked_table. Qed.

Lemma tracked_CheckoutLink_CheckoutURL :
  tracked (CheckoutLink_fields Time_UnmarshalJSON) "checkout_url" CheckoutLink_CheckoutURL.
Proof. unfold CheckoutLink_fields. tracked_table. Qed.

Lemma tracked_CheckoutLink_Token :
  tracked (CheckoutLink_fields Time_UnmarshalJSON) "token" CheckoutLink_Token.
Proof. unfold CheckoutLink_fields. tracked_table. Qed.

Lemma tracked_PortalLink_PortalURL :
  tracked (PortalLink_fields Time_UnmarshalJSON) "portal_url" PortalLink_PortalURL.
Proof. unfold PortalLink_fields. tracked_table. Qed.

Lemma tracked_PortalLink_Token :
  tracked (PortalLink_fields Time_UnmarshalJSON) "token" PortalLink_Token.
Proof. unfold PortalLink_fields. tracked_table. Qed.

Lemma tracked_EntitlementCheck_PlanName :
  tracked (EntitlementCheck_fields Any_nil Any_of_JSON) "plan_name" EntitlementCheck_PlanName.
Proof. unfold EntitlementCheck_fields. tracked_table. Qed.

Lemma tracked_UsageRecord_ID :
  tracked (UsageRecord_fields Time_UnmarshalJSON) "id" UsageRecord_ID.
Proof. unfold UsageRecord_fields. tracked_table. Qed.

Lemma tracked_UsageRecord_CustomerID :
  tracked (UsageRecord_fields Time_UnmarshalJSON) "customer_id" UsageRecord_CustomerID.
Proof. unfold UsageRecord_fields. tracked_table. Qed.

Lemma tracked_UsageRecord_SubscriptionID :
  tracked (UsageRecord_fields Time_UnmarshalJSON) "subscription_id" UsageRecord_SubscriptionID.
Proof. unfold UsageRecord_fields. tracked_table. Qed.

Lemma tracked_UsageRecord_ProductKey :
  tracked (UsageRecord_fields Time_UnmarshalJSON) "product_key" UsageRecord_ProductKey.
Proof. unfold UsageRecord_fields. tracked_table. Qed.

Lemma tracked_UsageRecord_IdempotencyKey :
  tracked (UsageRecord_fields Time_UnmarshalJSON) "idempotency_key" UsageRecord_IdempotencyKey.
Proof. unfold UsageRecord_fields. tracked_table. Qed.

Lemma tracked_UsageSummary_SubscriptionID :
  tracked (UsageSummary_fields) "subscription_id" UsageSummary_SubscriptionID.
Proof. unfold UsageSummary_fields. tracked_table. Qed.

Lemma tracked_UsageSummary_ProductKey :
  tracked (UsageSummary_fields) "product_key" UsageSummary_ProductKey.
Proof. unfold UsageSummary_fields. tracked_table. Qed.

Lemma tracked_UsageSummary_PeriodStart :
  tracked (UsageSummary_fields) "period_start" UsageSummary_PeriodStart.
Proof. unfold UsageSummary_fields. tracked_table. Qed.

Lemma tracked_UsageSummary_PeriodEnd :
  tracked (UsageSummary_fields) "period_end" UsageSummary_PeriodEnd.
Proof. unfold UsageSummary_fields. tracked_table. Qed.

Lemma tracked_CustomerList_NextCursor :
  tracked (CustomerList_fields Time_zero Time_UnmarshalJSON) "next_cursor" CustomerList_NextCursor.
Proof. unfold CustomerList_fields. tracked_table. Qed.

(** X15: a plan, a price, an entitlement, a subscription, a checkout
    link or a portal link decoded without error from a JSON object holds, in
    each string field of the struct, the string the object gives for the
    name in the tag of the field: the string of the last member so named,
    names being compared without regard to case, and the empty string when
    no member has the name or the last one is [null]. *)
Theorem catalog_string_fields :
  (∀ data ms (x : Plan),
     json.parse data = Some (json.Object ms) →
     json.Unmarshal (Unmarshaler0 := Plan_Unmarshaler Time_zero Time_UnmarshalJSON) data
       (Plan_zero Time_zero) = (x, nil) →
     Plan_ID x = member_string "id" ms ""
     ∧ Plan_Key x = member_string "key" ms ""
     ∧ Plan_Name x = member_string "name" ms ""
     ∧ Plan_Description x = member_string "description" ms "")
  ∧ (∀ data ms (x : Price),
     json.parse data = Some (json.Object ms) →
     json.Unmarshal (Unmarshaler0 := Price_Unmarshaler Time_UnmarshalJSON) data
       (Price_zero Time_zero) = (x, nil) →
     Price_ID x = member_string "id" ms ""
     ∧ Price_PlanID x = member_string "plan_id" ms ""
     ∧ Price_Key x = member_string "key" ms ""
     ∧ Price_Currency x = member_string "currency" ms ""
     ∧ Price_Interval x = member_string "interval" ms "")
  ∧ (∀ data ms (x : Entitlement),
     json.parse data = Some (json.Object ms) →
     json.Unmarshal (Unmarshaler0 := Entitlement_Unmarshaler Time_UnmarshalJSON) data
       (Entitlement_zero Time_zero) = (x, nil) →
     Entitlement_ID x = member_string "id" ms ""
     ∧ Entitlement_PlanID x = member_string "plan_id" ms ""
     ∧ Entitlement_Key x = member_string "key" ms "")
  ∧ (∀ data ms (x : Subscription),
     json.parse data = Some (json.Object ms) →
     json.Unmarshal (Unmarshaler0 := Subscription_Unmarshaler Time_zero Time_UnmarshalJSON) data
       (Subscription_zero Time_zero) = (x, nil) →
     Subscription_ID x = member_string "id" ms ""
     ∧ Subscription_CustomerID x = member_string "customer_id" ms ""
     ∧ Subscription_PriceID x = member_string "price_id" ms ""
     ∧ Subscription_Status x = member_string "status" ms "")
  ∧ (∀ data ms (x : CheckoutLink),
     json.parse data = Some (json.Object ms) →
     json.Unmarshal (Unmarshaler0 := CheckoutLink_Unmarshaler Time_UnmarshalJSON) data
       (CheckoutLink_zero Time_zero) = (x, nil) →
     CheckoutLink_CheckoutURL x = member_string "checkout_url" ms ""
     ∧ CheckoutLink_Token x = member_string "token" ms "")
  ∧ (∀ data ms (x : PortalLink),
     json.parse data = Some (json.Object ms) →
     json.Unmarshal (Unmarshaler0 := PortalLink_Unmarshaler Time_UnmarshalJSON) data
       (PortalLink_zero Time_zero) = (x, nil) →
     PortalLink_PortalURL x = member_string "portal_url" ms ""
     ∧ PortalLink_Token x = member_string "token" ms "").
Proof.
  repeat apply conj; intros data ms x Hms Hx; repeat apply conj.
  - exact (Unmarshal_struct_string _ _ _ _ _ _ _ _ tracked_Plan_ID Hx Hms).
  - exact (Unmarshal_struct_string _ _ _ _ _ _ _ _ tracked_Plan_Key Hx Hms).
  - exact (Unmarshal_struct_string _ _ _ _ _ _ _ _ tracked_Plan_Name Hx Hms).
  - exact (Unmarshal_struct_string _ _ _ _ _ _ _ _ tracked_Plan_Description Hx Hms).
  - exact (Unmarshal_struct_string _ _ _ _ _ _ _ _ tracked_Price_ID Hx Hms).
  - exact (Unmarshal_struct_string _ _ _ _ _ _ _ _ tracked_Price_PlanID Hx Hms).
  - exact (Unmarshal_struct_string _ _ _ _ _ _ _ _ tracked_Price_Key Hx Hms).
  - exact (Unmarshal_struct_string _ _ _ _ _ _ _ _ tracked_Price_Currency Hx Hms).
  - exact (Unmarshal_struct_string _ _ _ _ _ _ _ _ tracked_Price_Interval Hx Hms).
  - exact (Unmarshal_struct_string _ _ _ _ _ _ _ _ tracked_Entitlement_ID Hx Hms).
  - exact (Unmarshal_struct_string _ _ _ _ _ _ _ _ tracked_Entitlement_PlanID Hx Hms).
  - exact (Unmarshal_struct_string _ _ _ _ _ _ _ _ tracked_Entitlement_Key Hx Hms).
  - exact (Unmarshal_struct_string _ _ _ _ _ _ _ _ tracked_Subscription_ID Hx Hms).
  - exact (Unmarshal_struct_string _ _ _ _ _ _ _ _ tracked_Subscription_CustomerID Hx Hms).
  - exact (Unmarshal_struct_string _ _ _ _ _ _ _ _ tracked_Subscription_PriceID Hx Hms).
  - exact (Unmarshal_struct_string _ _ _ _ _ _ _ _ tracked_Subscription_Status Hx Hms).
  - exact (Unmarshal_struct_string _ _ _ _ _ _ _ _ tracked_CheckoutLink_CheckoutURL Hx Hms).
  - exact (Unmarshal_struct_string _ _ _ _ _ _ _ _ tracked_CheckoutLink_Token Hx Hms).
  - exact (Unmarshal_struct_string _ _ _ _ _ _ _ _ tracked_PortalLink_PortalURL Hx Hms).
  - exact (Unmarshal_struct_string _ _ _ _ _ _ _ _ tracked_PortalLink_Token Hx Hms).
Qed.

(** X21: a page of customers, an entitlement check, a usage record
    or a usage summary decoded without error from a JSON object holds, in
    each string field of the struct, the string the object gives for the
    name in the tag of the field: the string of the last member so named,
    names being compared without regard to case, and the empty string when
    no member has the name or the last one is [null]. *)
Theorem usage_string_fields :
  (∀ data ms (x : CustomerList),
     json.parse data = Some (json.Object ms) →
     json.Unmarshal (Unmarshaler0 := CustomerList_Unmarshaler Time_zero Time_UnmarshalJSON) data
       CustomerList_zero = (x, nil) →
     CustomerList_NextCursor x = member_string "next_cursor" ms "")
  ∧ (∀ data ms (x : EntitlementCheck),
     json.parse data = Some (json.Object ms) →
     json.Unmarshal (Unmarshaler0 := EntitlementCheck_Unmarshaler Any_nil Any_of_JSON) data
       (EntitlementCheck_zero Any_nil) = (x, nil) →
     EntitlementCheck_PlanName x = member_string "plan_name" ms "")
  ∧ (∀ data ms (x : UsageRecord),
     json.parse data = Some (json.Object ms) →
     json.Unmarshal (Unmarshaler0 := UsageRecord_Unmarshaler Time_UnmarshalJSON) data
       (UsageRecord_zero Time_zero) = (x, nil) →
     UsageRecord_ID x = member_string "id" ms ""
     ∧ UsageRecord_CustomerID x = member_string "customer_id" ms ""
     ∧ UsageRecord_SubscriptionID x = member_string "subscription_id" ms ""
     ∧ UsageRecord_ProductKey x = member_string "product_key" ms ""
     ∧ UsageRecord_IdempotencyKey x = member_string "idempotency_key" ms "")
  ∧ (∀ data ms (x : UsageSummary),
     json.parse data = Some (json.Object ms) →
     json.Unmarshal (Unmarshaler0 := UsageSummary_Unmarshaler) data
       UsageSummary_zero = (x, nil) →
     UsageSummary_SubscriptionID x = member_string "subscription_id" ms ""
     ∧ UsageSummary_ProductKey x = member_string "product_key" ms ""
     ∧ UsageSummary_PeriodStart x = member_string "period_start" ms ""
     ∧ UsageSummary_PeriodEnd x = member_string "period_end" ms "").
Proof.
  repeat apply conj; intros data ms x Hms Hx; repeat apply conj.
  - exact (Unmarshal_struct_string _ _ _ _ _ _ _ _ tracked_CustomerList_NextCursor Hx Hms).
  - exact (Unmarshal_struct_string _ _ _ _ _ _ _ _ tracked_EntitlementCheck_PlanName Hx Hms).
  - exact (Unmarshal_struct_string _ _ _ _ _ _ _ _ tracked_UsageRecord_ID Hx Hms).
  - exact (Unmarshal_struct_string _ _ _ _ _ _ _ _ tracked_UsageRecord_CustomerID Hx Hms).
  - exact (Unmarshal_struct_string _ _ _ _ _ _ _ _ tracked_UsageRecord_SubscriptionID Hx Hms).
  - exact (Unmarshal_struct_string _ _ _ _ _ _ _ _ tracked_UsageRecord_ProductKey Hx Hms).
  - exact (Unmarshal_struct_string _ _ _ _ _ _ _ _ tracked_UsageRecord_IdempotencyKey Hx Hms).
  - exact (Unmarshal_struct_string _ _ _ _ _ _ _ _ tracked_UsageSummary_SubscriptionID Hx Hms).
  - exact (Unmarshal_struct_string _ _ _ _ _ _ _ _ tracked_UsageSummary_ProductKey Hx Hms).
  - exact (Unmarshal_struct_string _ _ _ _ _ _ _ _ tracked_UsageSummary_PeriodStart Hx Hms).
  - exact (Unmarshal_struct_string _ _ _ _ _ _ _ _ tracked_UsageSummary_PeriodEnd Hx Hms).
Qed.

(** X18: the wrappers that subscribe a customer to a fixed plan return the
    identifier of the subscription as the response gives it.  Answered with a
    status below 400 and an empty body, they return the empty string and no
    error; answered with a JSON object that is decoded without error, they
    return the string of its member [id], which is empty when the object has
    none.  [CreateSubscriptionForWorkspace] subscribes to the free plan and
    price, [CreateSubscriptionForGuestWorkspace] to the guest ones and
    [CreateSubscriptionForBasicPlan] to the basic ones. *)
Theorem wrappers_return_the_id (ctx : Context) (w : World) (req : http.Request)
    (resp : http.Response) (respBody : string) (customerID planKey priceKey : string) :
  outgoing url_Parse (client w) ctx "POST" "/billing/v1/subscriptions"
    (Some (Some (plan_subscription customerID planKey priceKey))) = inl req →
  http.RoundTrip (httpClient (client w)) (wire w) req = inl resp →
  http.ReadAll resp = inl respBody →
  (http.StatusCode resp < 400)%Z →
  (respBody = "" →
   createSubscriptionWithPlan url_Parse Time_zero Time_UnmarshalJSON ctx customerID planKey
     priceKey w = (("", nil), sent req w))
  ∧ (∀ ms s,
       json.parse respBody = Some (json.Object ms) →
       json.Unmarshal (Unmarshaler0 := Subscription_Unmarshaler Time_zero Time_UnmarshalJSON)
         respBody (Subscription_zero Time_zero) = (s, nil) →
       createSubscriptionWithPlan url_Parse Time_zero Time_UnmarshalJSON ctx customerID
         planKey priceKey w = ((member_string "id" ms "", nil), sent req w))
  ∧ (∀ workspaceID,
       CreateSubscriptionForWorkspace url_Parse Time_zero Time_UnmarshalJSON ctx customerID
         workspaceID
       = createSubscriptionWithPlan url_Parse Time_zero Time_UnmarshalJSON ctx customerID
           "free" "free_monthly_EUR"
       ∧ CreateSubscriptionForGuestWorkspace url_Parse Time_zero Time_UnmarshalJSON ctx
           customerID workspaceID
         = createSubscriptionWithPlan url_Parse Time_zero Time_UnmarshalJSON ctx customerID
             "guest" "guest_monthly_EUR"
       ∧ CreateSubscriptionForBasicPlan url_Parse Time_zero Time_UnmarshalJSON ctx customerID
         = createSubscriptionWithPlan url_Parse Time_zero Time_UnmarshalJSON ctx customerID
             "basic" "basic_monthly_EUR").
Proof.
  intros Hout Hresp Hread Hst.
  assert (Hreq := request_success
                    (H0 := Subscription_Unmarshaler Time_zero Time_UnmarshalJSON)
                    url_Parse ctx "POST" "/billing/v1/subscriptions"
                    (Some (Some (plan_subscription customerID planKey priceKey)))
                    (Some (Subscription_zero Time_zero)) w req resp respBody
                    Hout Hresp Hread Hst).
  rewrite length_pos_nonempty in Hreq.
  split; [|split; [|done]].
  - intros ->. unfold createSubscriptionWithPlan, CreateSubscription, mbind, M_bind.
    fold (plan_subscription customerID planKey priceKey). by rewrite Hreq.
  - intros ms s Hms Hs.
    unfold createSubscriptionWithPlan, CreateSubscription, mbind, M_bind.
    fold (plan_subscription customerID planKey priceKey). rewrite Hreq.
    destruct (String.eqb_spec respBody "") as [->|_].
    { by rewrite parse_empty in Hms. }
    cbn [negb]. rewrite Hs. cbn.
    by rewrite (Unmarshal_struct_string _ _ _ _ _ _ _ _ tracked_Subscription_ID Hs Hms).
Qed.

End responses.

(** ** Error bodies in another shape *)

Lemma member_string_unnamed name ms dflt : unnamed name ms → member_string name ms dflt = dflt.
Proof.
  unfold unnamed, member_string. revert dflt.
  induction ms as [|kv ms IH]; intros dflt Hun; [done|]. cbn [foldl].
  unfold member_step at 2. rewrite (Hun kv) by apply list_elem_of_here.
  apply IH. intros kv' Hin. apply Hun. by apply list_elem_of_further.
Qed.

(** X19: an error response whose body is JSON in another shape than the
    error record, [null] or an object without members named code, message or
    field, gives a structured error with the status of the response and an
    empty code and message: the text of the body is not kept, and the message
    of the error names neither a code nor a message. *)
Theorem unrecognised_error_body (status : Z) (body : string)
    (ms : list (string * json.Value)) (e : Error) :
  json.parse body = Some (json.Object ms) →
  json.Unmarshal body Error_zero = (e, nil) →
  unnamed "code" ms →
  unnamed "message" ms →
  unnamed "field" ms →
  parseError status body
  = APIError (Some {| StatusCode := status; Code := ""; Message := ""; Field := "" |})
  ∧ Error_Error {| StatusCode := status; Code := ""; Message := ""; Field := "" |}
    = "tedo:  - "
  ∧ (∀ other, json.parse other = Some json.Null →
       parseError status other
       = APIError (Some {| StatusCode := status; Code := ""; Message := "";
                           Field := "" |})).
Proof.
  intros Hms He Hc Hm Hf. repeat apply conj; [|done|].
  - rewrite (parseError_structured status body e He).
    rewrite (Unmarshal_struct_string _ _ _ _ _ _ _ _ tracked_Error_Code He Hms).
    rewrite (Unmarshal_struct_string _ _ _ _ _ _ _ _ tracked_Error_Message He Hms).
    rewrite (Unmarshal_struct_string _ _ _ _ _ _ _ _ tracked_Error_Field He Hms).
    by rewrite !member_string_unnamed.
  - intros other Hnull. unfold parseError, json.Unmarshal. by rewrite Hnull.
Qed.

(** ** The structs read back *)

Ltac store_step :=
  first [ erewrite store_member_found; [|reflexivity|reflexivity|reflexivity];
          cbn [json.fstore json.field_of];
          rewrite ?dec_string_enc, ?dec_int_enc, ?dec_ptr_int_enc, ?dec_ptr_bool_enc,
            ?dec_map_enc by done
        | rewrite store_member_skipped by reflexivity ].

Ltac flat_body :=
  repeat apply Forall_app_2;
  first [ by apply flat1_omitempty_map
        | apply flat_flat1;
          first [ by apply flat_member_string | by apply flat_member_int
                | by apply flat_omitempty_string | by apply flat_omitempty_int
                | by apply flat_omitempty_bool | by apply flat_omitempty_ptr_int ] ].

Ltac echo_cases :=
  repeat match goal with
  | |- context [String.eqb ?s ""] =>
      is_var s; destruct (String.eqb_spec s "") as [->|_]
  | |- context [(?z =? 0)%Z] =>
      is_var z; destruct (Z.eqb_spec z 0) as [->|_]
  end.

Section echo.

Context {Time : Type}.
Variable Time_zero : Time.
Variable Time_UnmarshalJSON : string → Time → Time * error.

Lemma Customer_echo (p : CreateCustomerParams) :
  ascii_only (CreateCustomerParams_Email p) = true →
  ascii_only (CreateCustomerParams_Name p) = true →
  ascii_only (CreateCustomerParams_ExternalID p) = true →
  ascii_map (CreateCustomerParams_Metadata p) →
  json.Unmarshal (Unmarshaler0 := Customer_Unmarshaler Time_zero Time_UnmarshalJSON)
    (json.render (CreateCustomerParams_value p)) (Customer_zero Time_zero)
  = (mkCustomer "" (CreateCustomerParams_Email p) (CreateCustomerParams_Name p)
       (CreateCustomerParams_ExternalID p) (kept (CreateCustomerParams_Metadata p)) []
       Time_zero Time_zero, nil).
Proof.
  destruct p as [e n x m]. cbn [CreateCustomerParams_Email CreateCustomerParams_Name
    CreateCustomerParams_ExternalID CreateCustomerParams_Metadata].
  intros He Hn Hx Hm. unfold json.Unmarshal, CreateCustomerParams_value.
  cbn [CreateCustomerParams_Email CreateCustomerParams_Name
    CreateCustomerParams_ExternalID CreateCustomerParams_Metadata].
  rewrite parse_flat1 by flat_body.
  unfold json.decode, Customer_Unmarshaler, json.dec_struct.
  unfold json.omitempty_string, json.omitempty_map, json.member, kept.
  destruct m as [m|]; [destruct (bool_decide (size m = 0%nat))|].
  all: echo_cases.
  all: cbn [app foldl].
  all: repeat store_step.
  all: reflexivity.
Qed.

Lemma Subscription_echo (p : CreateSubscriptionParams) :
  ascii_only (CreateSubscriptionParams_CustomerID p) = true →
  ascii_only (CreateSubscriptionParams_PriceID p) = true →
  ascii_only (CreateSubscriptionParams_PlanKey p) = true →
  ascii_only (CreateSubscriptionParams_PriceKey p) = true →
  int64 (CreateSubscriptionParams_Quantity p) →
  ascii_map (CreateSubscriptionParams_Metadata p) →
  json.Unmarshal (Unmarshaler0 := Subscription_Unmarshaler Time_zero Time_UnmarshalJSON)
    (json.render (CreateSubscriptionParams_value p)) (Subscription_zero Time_zero)
  = (mkSubscription "" (CreateSubscriptionParams_CustomerID p)
       (CreateSubscriptionParams_PriceID p) "" (CreateSubscriptionParams_Quantity p)
       Time_zero None (kept (CreateSubscriptionParams_Metadata p)) Time_zero, nil).
Proof.
  destruct p as [c pi pk prk q m]. cbn [CreateSubscriptionParams_CustomerID
    CreateSubscriptionParams_PriceID CreateSubscriptionParams_PlanKey
    CreateSubscriptionParams_PriceKey CreateSubscriptionParams_Quantity
    CreateSubscriptionParams_Metadata].
  unfold int64. intros Hc Hpi Hpk Hprk Hq Hm.
  unfold json.Unmarshal, CreateSubscriptionParams_value.
  cbn [CreateSubscriptionParams_CustomerID
    CreateSubscriptionParams_PriceID CreateSubscriptionParams_PlanKey
    CreateSubscriptionParams_PriceKey CreateSubscriptionParams_Quantity
    CreateSubscriptionParams_Metadata].
  rewrite parse_flat1 by flat_body.
  unfold json.decode, Subscription_Unmarshaler, json.dec_struct.
  unfold json.omitempty_string, json.omitempty_int, json.omitempty_map, json.member, kept.
  destruct m as [m|]; [destruct (bool_decide (size m = 0%nat))|].
  all: echo_cases.
  all: cbn [app foldl].
  all: repeat store_step.
  all: reflexivity.
Qed.

Lemma Plan_echo (p : CreatePlanParams) :
  ascii_only (CreatePlanParams_Key p) = true →
  ascii_only (CreatePlanParams_Name p) = true →
  ascii_only (CreatePlanParams_Description p) = true →
  json.Unmarshal (Unmarshaler0 := Plan_Unmarshaler Time_zero Time_UnmarshalJSON)
    (json.render (CreatePlanParams_value p)) (Plan_zero Time_zero)
  = (mkPlan "" (CreatePlanParams_Key p) (CreatePlanParams_Name p)
       (CreatePlanParams_Description p) false [] [] Time_zero Time_zero, nil).
Proof.
  destruct p as [k n d].
  cbn [CreatePlanParams_Key CreatePlanParams_Name CreatePlanParams_Description].
  intros Hk Hn Hd. unfold json.Unmarshal, CreatePlanParams_value.
  cbn [CreatePlanParams_Key CreatePlanParams_Name CreatePlanParams_Description].
  rewrite parse_flat1 by flat_body.
  unfold json.decode, Plan_Unmarshaler, json.dec_struct.
  unfold json.omitempty_string, json.member.
  echo_cases.
  all: cbn [app foldl].
  all: repeat store_step.
  all: reflexivity.
Qed.

Lemma Price_echo (p : CreatePriceParams) :
  ascii_only (CreatePriceParams_Key p) = true →
  ascii_only (CreatePriceParams_Currency p) = true →
  ascii_only (CreatePriceParams_Interval p) = true →
  int64 (CreatePriceParams_Amount p) →
  int64 (CreatePriceParams_IntervalCount p) →
  int64 (CreatePriceParams_TrialDays p) →
  json.Unmarshal (Unmarshaler0 := Price_Unmarshaler Time_UnmarshalJSON)
    (json.render (CreatePriceParams_value p)) (Price_zero Time_zero)
  = (mkPrice "" "" (CreatePriceParams_Key p) (CreatePriceParams_Amount p)
       (CreatePriceParams_Currency p) (CreatePriceParams_Interval p)
       (CreatePriceParams_IntervalCount p) (CreatePriceParams_TrialDays p) Time_zero, nil).
Proof.
  destruct p as [k a c i ic td].
  cbn [CreatePriceParams_Key CreatePriceParams_Amount CreatePriceParams_Currency
    CreatePriceParams_Interval CreatePriceParams_IntervalCount CreatePriceParams_TrialDays].
  unfold int64. intros Hk Hc Hi Ha Hic Htd. unfold json.Unmarshal, CreatePriceParams_value.
  cbn [CreatePriceParams_Key CreatePriceParams_Amount CreatePriceParams_Currency
    CreatePriceParams_Interval CreatePriceParams_IntervalCount CreatePriceParams_TrialDays].
  rewrite parse_flat1 by flat_body.
  unfold json.decode, Price_Unmarshaler, json.dec_struct.
  unfold json.omitempty_string, json.omitempty_int, json.member.
  echo_cases.
  all: cbn [app foldl].
  all: repeat store_step.
  all: reflexivity.
Qed.

Lemma Entitlement_echo (p : CreateEntitlementParams) :
  ascii_only (CreateEntitlementParams_Key p) = true →
  (∀ z, CreateEntitlementParams_ValueInt p = Some z → int64 z) →
  int64 (CreateEntitlementParams_OveragePrice p) →
  int64 (CreateEntitlementParams_OverageUnit p) →
  json.Unmarshal (Unmarshaler0 := Entitlement_Unmarshaler Time_UnmarshalJSON)
    (json.render (CreateEntitlementParams_value p)) (Entitlement_zero Time_zero)
  = (mkEntitlement "" "" (CreateEntitlementParams_Key p)
       (CreateEntitlementParams_ValueBool p) (CreateEntitlementParams_ValueInt p)
       (CreateEntitlementParams_OveragePrice p) (CreateEntitlementParams_OverageUnit p)
       Time_zero, nil).
Proof.
  destruct p as [k vb vi op ou].
  cbn [CreateEntitlementParams_Key CreateEntitlementParams_ValueBool
    CreateEntitlementParams_ValueInt CreateEntitlementParams_OveragePrice
    CreateEntitlementParams_OverageUnit].
  unfold int64. intros Hk Hvi Hop Hou. unfold json.Unmarshal, CreateEntitlementParams_value.
  cbn [CreateEntitlementParams_Key CreateEntitlementParams_ValueBool
    CreateEntitlementParams_ValueInt CreateEntitlementParams_OveragePrice
    CreateEntitlementParams_OverageUnit].
  rewrite parse_flat1 by flat_body.
  unfold json.decode, Entitlement_Unmarshaler, json.dec_struct.
  unfold json.omitempty_int, json.member.
  destruct vb as [b|], vi as [z|]; cbn [json.omitempty_ptr].
  all: try (specialize (Hvi z eq_refl)).
  all: unfold json.member.
  all: echo_cases.
  all: cbn [app foldl].
  all: repeat store_step.
  all: reflexivity.
Qed.

End echo.

(** ** A server that echoes *)

Lemma render_object_nonempty ms : json.render (json.Object ms) ≠ "".
Proof. cbn [json.render]. by rewrite append_cons. Qed.

Lemma request_echo {B R} {MB : json.Marshaler B} {UR : json.Unmarshaler R} url_Parse ctx
    method path (b : B) (zero r : R) w req resp ms :
  json.encode b = inl (json.Object ms) →
  outgoing url_Parse (client w) ctx method path (Some b) = inl req →
  http.RoundTrip (httpClient (client w)) (wire w) req = inl resp →
  http.ReadAll resp = inl (default "" (http.Body req)) →
  (http.StatusCode resp < 400)%Z →
  json.Unmarshal (json.render (json.Object ms)) zero = (r, nil) →
  request url_Parse ctx method path (Some b) (Some zero) w = ((Some r, nil), sent req w).
Proof.
  intros Henc Hout Hresp Hread Hst Hdec.
  assert (http.Body req = Some (json.render (json.Object ms))) as Hbody.
  { rewrite outgoing_prepared in Hout.
    destruct (prepared_request _ _ _ _ _ _ _ Hout) as (_ & _ & _ & Hb & _).
    unfold marshalled, json.Marshal in Hb. rewrite Henc in Hb. by injection Hb as <-. }
  rewrite Hbody in Hread.
  change (http.ReadAll resp = inl (json.render (json.Object ms))) in Hread.
  rewrite (request_success _ _ _ _ _ _ _ _ _ _ Hout Hresp Hread Hst).
  rewrite length_pos_nonempty.
  destruct (String.eqb_spec (json.render (json.Object ms)) "") as [He|_].
  { by apply render_object_nonempty in He. }
  cbn [negb]. by rewrite Hdec.
Qed.

Section echo_accessors.

Variable url_Parse : string → error.
Context {Time : Type}.
Variable Time_zero : Time.
Variable Time_UnmarshalJSON : string → Time → Time * error.

(** X23: what [CreateCustomer] and [CreateSubscription] write is read back
    as it was written.  When the server answers with the body it was sent,
    the customer returned has the email, the name, the external id and the
    metadata of the parameters, be they empty or not, and the subscription
    returned has their customer id, price id, quantity and metadata; a map
    without entries comes back as the nil map, and every other field has its
    zero value, the plan key and the price key having no field in a
    subscription.  The strings, and the keys and values of the metadata, are
    taken to be ASCII, and the quantity to be an [int64]. *)
Theorem customer_echo (ctx : Context) (w : World) (req : http.Request) :
  echoed w req →
  (∀ p,
     ascii_only (CreateCustomerParams_Email p) = true →
     ascii_only (CreateCustomerParams_Name p) = true →
     ascii_only (CreateCustomerParams_ExternalID p) = true →
     ascii_map (CreateCustomerParams_Metadata p) →
     outgoing url_Parse (client w) ctx "POST" "/billing/v1/customers" (Some (Some p))
     = inl req →
     CreateCustomer url_Parse Time_zero Time_UnmarshalJSON ctx (Some p) w
     = (inl (mkCustomer "" (CreateCustomerParams_Email p) (CreateCustomerParams_Name p)
               (CreateCustomerParams_ExternalID p)
               (kept (CreateCustomerParams_Metadata p)) [] Time_zero Time_zero),
        sent req w))
  ∧ (∀ p,
       ascii_only (CreateSubscriptionParams_CustomerID p) = true →
       ascii_only (CreateSubscriptionParams_PriceID p) = true →
       ascii_only (CreateSubscriptionParams_PlanKey p) = true →
       ascii_only (CreateSubscriptionParams_PriceKey p) = true →
       int64 (CreateSubscriptionParams_Quantity p) →
       ascii_map (CreateSubscriptionParams_Metadata p) →
       outgoing url_Parse (client w) ctx "POST" "/billing/v1/subscriptions" (Some (Some p))
       = inl req →
       CreateSubscription url_Parse Time_zero Time_UnmarshalJSON ctx (Some p) w
       = (inl (mkSubscription "" (CreateSubscriptionParams_CustomerID p)
                 (CreateSubscriptionParams_PriceID p) ""
                 (CreateSubscriptionParams_Quantity p) Time_zero None
                 (kept (CreateSubscriptionParams_Metadata p)) Time_zero),
          sent req w)).
Proof.
  intros (resp & Hresp & Hread & Hst). split.
  - intros p He Hn Hx Hm Hout. unfold CreateCustomer, mbind, M_bind.
    by rewrite (request_echo url_Parse ctx _ _ (Some p) _ _ w req resp _ eq_refl Hout Hresp
                  Hread Hst (Customer_echo Time_zero Time_UnmarshalJSON p He Hn Hx Hm)).
  - intros p Hc Hpi Hpk Hprk Hq Hm Hout. unfold CreateSubscription, mbind, M_bind.
    by rewrite (request_echo url_Parse ctx _ _ (Some p) _ _ w req resp _ eq_refl Hout Hresp
                  Hread Hst
                  (Subscription_echo Time_zero Time_UnmarshalJSON p Hc Hpi Hpk Hprk Hq Hm)).
Qed.

(** X24: what [CreatePlan], [CreatePrice] and [CreateEntitlement] write is
    read back as it was written.  When the server answers with the body it
    was sent, the plan returned has the key, the name and the description of
    the parameters, the price their key, amount, currency, interval, interval
    count and trial days, and the entitlement their key, values and overage
    price and unit, be they zero, empty, nil or not; every other field has
    its zero value.  The strings are taken to be ASCII and the numbers to be
    [int64]. *)
Theorem catalog_echo (ctx : Context) (w : World) (req : http.Request) :
  echoed w req →
  (∀ p,
     ascii_only (CreatePlanParams_Key p) = true →
     ascii_only (CreatePlanParams_Name p) = true →
     ascii_only (CreatePlanParams_Description p) = true →
     outgoing url_Parse (client w) ctx "POST" "/billing/v1/plans" (Some (Some p)) = inl req →
     CreatePlan url_Parse Time_zero Time_UnmarshalJSON ctx (Some p) w
     = (inl (mkPlan "" (CreatePlanParams_Key p) (CreatePlanParams_Name p)
               (CreatePlanParams_Description p) false [] [] Time_zero Time_zero),
        sent req w))
  ∧ (∀ planID p,
       ascii_only (CreatePriceParams_Key p) = true →
       ascii_only (CreatePriceParams_Currency p) = true →
       ascii_only (CreatePriceParams_Interval p) = true →
       int64 (CreatePriceParams_Amount p) →
       int64 (CreatePriceParams_IntervalCount p) →
       int64 (CreatePriceParams_TrialDays p) →
       outgoing url_Parse (client w) ctx "POST"
         ("/billing/v1/plans/" +:+ planID +:+ "/prices") (Some (Some p)) = inl req →
       CreatePrice url_Parse Time_zero Time_UnmarshalJSON ctx planID (Some p) w
       = (inl (mkPrice "" "" (CreatePriceParams_Key p) (CreatePriceParams_Amount p)
                 (CreatePriceParams_Currency p) (CreatePriceParams_Interval p)
                 (CreatePriceParams_IntervalCount p) (CreatePriceParams_TrialDays p)
                 Time_zero),
          sent req w))
  ∧ (∀ planID p,
       ascii_only (CreateEntitlementParams_Key p) = true →
       (∀ z, CreateEntitlementParams_ValueInt p = Some z → int64 z) →
       int64 (CreateEntitlementParams_OveragePrice p) →
       int64 (CreateEntitlementParams_OverageUnit p) →
       outgoing url_Parse (client w) ctx "POST"
         ("/billing/v1/plans/" +:+ planID +:+ "/entitlements") (Some (Some p)) = inl req →
       CreateEntitlement url_Parse Time_zero Time_UnmarshalJSON ctx planID (Some p) w
       = (inl (mkEntitlement "" "" (CreateEntitlementParams_Key p)
                 (CreateEntitlementParams_ValueBool p) (CreateEntitlementParams_ValueInt p)
                 (CreateEntitlementParams_OveragePrice p)
                 (CreateEntitlementParams_OverageUnit p) Time_zero),
          sent req w)).
Proof.
  intros (resp & Hresp & Hread & Hst). repeat apply conj.
  - intros p Hk Hn Hd Hout. unfold CreatePlan, mbind, M_bind.
    by rewrite (request_echo url_Parse ctx _ _ (Some p) _ _ w req resp _ eq_refl Hout Hresp
                  Hread Hst (Plan_echo Time_zero Time_UnmarshalJSON p Hk Hn Hd)).
  - intros planID p Hk Hc Hi Ha Hic Htd Hout. unfold CreatePrice, mbind, M_bind.
    rewrite string_app_assoc.
    by rewrite (request_echo url_Parse ctx _ _ (Some p) _ _ w req resp _ eq_refl Hout Hresp
                  Hread Hst (Price_echo Time_zero Time_UnmarshalJSON p Hk Hc Hi Ha Hic Htd)).
  - intros planID p Hk Hvi Hop Hou Hout. unfold CreateEntitlement, mbind, M_bind.
    rewrite string_app_assoc.
    by rewrite (request_echo url_Parse ctx _ _ (Some p) _ _ w req resp _ eq_refl Hout Hresp
                  Hread Hst
                  (Entitlement_echo Time_zero Time_UnmarshalJSON p Hk Hvi Hop Hou)).
Qed.

End echo_accessors.

(** ** Bodies and parameters *)

Lemma ascii_only_app s t : ascii_only (s +:+ t) = ascii_only s && ascii_only t.
Proof.
  induction s as [|c s IH]; [done|]. rewrite append_cons. cbn [ascii_only].
  by rewrite IH, andb_assoc.
Qed.

Lemma all_digits_ascii s : all_digits s = true → ascii_only s = true.
Proof.
  induction s as [|c s IH]; [done|]. cbn [all_digits ascii_only].
  intros [Hc Hs]%andb_true_iff. rewrite (IH Hs), andb_true_r.
  unfold json.is_digit, json.between in Hc. lia.
Qed.

Lemma ascii_only_pretty (z : Z) : ascii_only (pretty z) = true.
Proof.
  assert (Hpos : ∀ p, ascii_only (pretty_N_go (N.pos p) "") = true).
  { intros p. destruct (pretty_N_go_digits (N.pos p)) as (c & ds & -> & Hc & _ & Hds); [lia|].
    rewrite append_nil_r. cbn [ascii_only]. rewrite (all_digits_ascii ds Hds), andb_true_r.
    unfold json.is_digit, json.between in Hc. lia. }
  destruct z as [|p|p]; [done|apply Hpos|].
  change (pretty (Z.neg p)) with ("-" +:+ pretty_N_go (N.pos p) "").
  by rewrite ascii_only_app, Hpos.
Qed.

Lemma kept_entries m : m ≠ Some ∅ → kept m = m.
Proof.
  intros Hm. destruct m as [m|]; [|done]. cbn [kept].
  rewrite bool_decide_eq_false_2; [done|].
  rewrite map_size_empty_iff. congruence.
Qed.

Section bodies.

Context {Time : Type}.
Variable Time_zero : Time.
Variable Time_UnmarshalJSON : string → Time → Time * error.


End bodies.

(** ** The further properties at sample inputs *)

(** A GET of a customer in a fresh client: the request that leaves. *)
Lemma request_wire_format_sample :
  let w := sample_world 200 sample_customer in
  let req := sample_request "GET" "/billing/v1/customers/cus_1" None in
  wire (request (B := Empty_set) (UR := sample_Customer_Unmarshaler) sample_url_Parse
          (ctx_value 0) "GET" "/billing/v1/customers/cus_1" None (Some sample_Customer_zero)
          w).2 = (wire w ++ [req])%list
  ∧ http.Method req = "GET"
  ∧ http.URL req = defaultBaseURL +:+ "/billing/v1/customers/cus_1"
  ∧ http.Header req = request_headers "tedo_live_xxx".
Proof.
  intros w req.
  assert (Hw : wire (request (B := Empty_set) (UR := sample_Customer_Unmarshaler)
                       sample_url_Parse (ctx_value 0) "GET" "/billing/v1/customers/cus_1"
                       None (Some sample_Customer_zero) w).2 = (wire w ++ [req])%list)
    by (vm_compute; reflexivity).
  split; [exact Hw|].
  destruct (request_wire_format (B := Empty_set) (UR := sample_Customer_Unmarshaler)
              sample_url_Parse (ctx_value 0) "GET" "/billing/v1/customers/cus_1" None
              (Some sample_Customer_zero) w req Hw) as (Hm & Hu & Hh & _).
  exact (conj Hm (conj Hu Hh)).
Defined.

(** Creating a plan: the POST has a body. *)
Lemma accessors_body_by_method_sample :
  let w := sample_world 200 "" in
  let c := call_CreatePlan (Some (mkCreatePlanParams "pro" "Pro" "")) in
  let req := sample_request "POST" "/billing/v1/plans"
               (Some ("{" +:+ json.in_quotes "key" +:+ ":" +:+ json.in_quotes "pro" +:+ ","
                      +:+ json.in_quotes "name" +:+ ":" +:+ json.in_quotes "Pro" +:+ "}")) in
  wire (sample_run (ctx_value 0) c w).2 = (wire w ++ [req])%list
  ∧ (is_Some (http.Body req) ↔ http.Method req = "POST" ∨ http.Method req = "PATCH").
Proof.
  intros w c req.
  assert (Hw : wire (sample_run (ctx_value 0) c w).2 = (wire w ++ [req])%list)
    by (vm_compute; reflexivity).
  split; [exact Hw|].
  exact (proj2 (accessors_body_by_method sample_url_Parse "" sample_Time_UnmarshalJSON
                  sample_Time_MarshalJSON json.Null sample_Any_of_JSON (ctx_value 0) c w req
                  Hw)).
Defined.

(** A plan that does not exist: [GetPlan] returns the error of the server,
    and [IsNotFound] answers true. *)
Lemma accessors_relay_server_errors_sample :
  let w := sample_world 404 sample_not_found in
  let c := call_GetPlan "plan_missing" in
  let req := sample_request "GET" "/billing/v1/plans/plan_missing" None in
  sample_run (ctx_value 0) c w
  = (Some (APIError (Some {| StatusCode := 404; Code := "not_found";
                             Message := "no such customer"; Field := "" |})), sent req w).
Proof.
  intros w c req.
  refine (eq_trans
            (proj1 (accessors_relay_server_errors sample_url_Parse "" sample_Time_UnmarshalJSON
                      sample_Time_MarshalJSON json.Null sample_Any_of_JSON (ctx_value 0) c w
                      req {| http.StatusCode := 404; http.ReadAll := inl sample_not_found |}
                      sample_not_found _ _ _ _ _)) _).
  - reflexivity.
  - vm_compute; reflexivity.
  - reflexivity.
  - reflexivity.
  - simpl; lia.
  - vm_compute; reflexivity.
Defined.

(** Creating a customer with nil parameters. *)
Lemma nil_parameters_send_null_sample :
  let w := sample_world 200 sample_customer in
  let req := sample_request "POST" "/billing/v1/customers" (Some "null") in
  nil_parameters (call_CreateCustomer (Time := string) None) = true
  ∧ wire (sample_run (ctx_value 0) (call_CreateCustomer None) w).2 = (wire w ++ [req])%list
  ∧ http.Body req = Some "null".
Proof.
  intros w req.
  assert (Hw : wire (sample_run (ctx_value 0) (call_CreateCustomer None) w).2
               = (wire w ++ [req])%list) by (vm_compute; reflexivity).
  split; [reflexivity|]. split; [exact Hw|].
  exact (nil_parameters_send_null sample_url_Parse "" sample_Time_UnmarshalJSON
           sample_Time_MarshalJSON json.Null sample_Any_of_JSON (ctx_value 0)
           (call_CreateCustomer None) w req eq_refl Hw).
Defined.


(** A workspace subscribed to the free plan: the identifier of the
    response comes back. *)
Lemma wrappers_return_the_id_sample :
  let w := sample_world 201 sample_subscription in
  let req := sample_request "POST" "/billing/v1/subscriptions"
               (Some ("{" +:+ json.in_quotes "customer_id" +:+ ":" +:+ json.in_quotes "cus_1"
                      +:+ "," +:+ json.in_quotes "plan_key" +:+ ":" +:+ json.in_quotes "free"
                      +:+ "," +:+ json.in_quotes "price_key" +:+ ":"
                      +:+ json.in_quotes "free_monthly_EUR" +:+ "}")) in
  createSubscriptionWithPlan sample_url_Parse "" sample_Time_UnmarshalJSON (ctx_value 0)
    "cus_1" "free" "free_monthly_EUR" w
  = (("sub_1", nil), sent req w).
Proof.
  intros w req.
  refine (eq_trans
            (proj1 (proj2 (wrappers_return_the_id sample_url_Parse "" sample_Time_UnmarshalJSON
                             (ctx_value 0) w req
                             {| http.StatusCode := 201;
                                http.ReadAll := inl sample_subscription |}
                             sample_subscription "cus_1" "free" "free_monthly_EUR"
                             _ _ _ _))
               [("id", json.Str "sub_1"); ("customer_id", json.Str "cus_1")]
               (mkSubscription "sub_1" "cus_1" "" "" 0 "" None None "") _ _) _).
  - vm_compute; reflexivity.
  - reflexivity.
  - reflexivity.
  - simpl; lia.
  - vm_compute; reflexivity.
  - vm_compute; reflexivity.
  - vm_compute; reflexivity.
Defined.

(** A 500 with a body in the shape of another API. *)
Lemma unrecognised_error_body_sample :
  parseError 500 sample_other_error
  = APIError (Some {| StatusCode := 500; Code := ""; Message := ""; Field := "" |}).
Proof.
  refine (proj1 (unrecognised_error_body 500 sample_other_error
                   [("error", json.Str "boom")] Error_zero _ _ _ _ _)).
  - vm_compute; reflexivity.
  - vm_compute; reflexivity.
  - intros kv ->%list_elem_of_singleton. vm_compute; reflexivity.
  - intros kv ->%list_elem_of_singleton. vm_compute; reflexivity.
  - intros kv ->%list_elem_of_singleton. vm_compute; reflexivity.
Defined.

(** A customer created on a server that echoes. *)
Lemma customer_echo_sample :
  let w := NewClient echo "tedo_live_xxx" in
  let m : gmap string string := {[ "tier" := "gold"; "plan" := "pro" ]} in
  let p := mkCreateCustomerParams "a@b.com" "Ada <Lovelace>" "" (Some m) in
  let req := sample_request "POST" "/billing/v1/customers"
               (Some (default "" (match json.Marshal (Some p) with
                                  | inl text => Some text
                                  | inr _ => None
                                  end))) in
  CreateCustomer sample_url_Parse "" sample_Time_UnmarshalJSON (ctx_value 0) (Some p) w
  = (inl (mkCustomer "" "a@b.com" "Ada <Lovelace>" "" (Some m) [] "" ""), sent req w).
Proof.
  intros w m p req.
  assert (He : echoed w req).
  { eexists. split; [reflexivity|]. split; [reflexivity|]. simpl. lia. }
  refine (proj1 (customer_echo sample_url_Parse "" sample_Time_UnmarshalJSON (ctx_value 0)
                   w req He) p _ _ _ _ _).
  - reflexivity.
  - reflexivity.
  - reflexivity.
  - change (map_Forall (λ k v, ascii_only k = true ∧ ascii_only v = true)
              (<["tier" := "gold"]> (<["plan" := "pro"]> (∅ : gmap string string)))).
    apply map_Forall_insert_2; [by split|].
    apply map_Forall_insert_2; [by split|]. apply map_Forall_empty.
  - vm_compute; reflexivity.
Defined.

(** A price created on a server that echoes. *)
Lemma catalog_echo_sample :
  let w := NewClient echo "tedo_live_xxx" in
  let p := mkCreatePriceParams "pro_monthly" 0 "EUR" "month" 1 0 in
  let req := sample_request "POST" "/billing/v1/plans/plan_1/prices"
               (Some (default "" (match json.Marshal (Some p) with
                                  | inl text => Some text
                                  | inr _ => None
                                  end))) in
  CreatePrice sample_url_Parse "" sample_Time_UnmarshalJSON (ctx_value 0) "plan_1" (Some p) w
  = (inl (mkPrice "" "" "pro_monthly" 0 "EUR" "month" 1 0 ""), sent req w).
Proof.
  intros w p req.
  assert (He : echoed w req).
  { eexists. split; [reflexivity|]. split; [reflexivity|]. simpl. lia. }
  refine (proj1 (proj2 (catalog_echo sample_url_Parse "" sample_Time_UnmarshalJSON
                          (ctx_value 0) w req He)) "plan_1" p _ _ _ _ _ _ _).
  - reflexivity.
  - reflexivity.
  - reflexivity.
  - unfold int64; simpl; lia.
  - unfold int64; simpl; lia.
  - unfold int64; simpl; lia.
  - vm_compute; reflexivity.
Defined.

